(** * ifutil.py: network-state queries and interface reconfiguration

    A shallow embedding of [ifutil.py] (confconsole).  The Python 2 runtime
    the module relies on (byte strings, exceptions, [int], [str], the [re]
    module, [socket.inet_aton]) is modelled first, then the module itself,
    then the properties of the module. *)

From Stdlib Require Import ZArith String Ascii List Bool Lia.
From stdpp Require Import gmap strings list.

Local Open Scope Z_scope.

(** ** Python exceptions *)

Module Py.

(** The classes that can reach the handlers of [ifutil.py].  [Derived]
    stands for a class statement [class name(base)], such as
    [class Error(Exception)] at the top of the module. *)
Inductive pyclass : Type :=
| BaseException | KeyboardInterrupt | SystemExit | Exception | StandardError
| EnvironmentError | IOError | OSError | LookupError | KeyError | IndexError
| ValueError | TypeError
| Derived (name : string) (base : pyclass).

Fixpoint pyclass_eqb (c d : pyclass) : bool :=
  match c, d with
  | BaseException, BaseException | KeyboardInterrupt, KeyboardInterrupt
  | SystemExit, SystemExit | Exception, Exception
  | StandardError, StandardError | EnvironmentError, EnvironmentError
  | IOError, IOError | OSError, OSError | LookupError, LookupError
  | KeyError, KeyError | IndexError, IndexError
  | ValueError, ValueError | TypeError, TypeError => true
  | Derived n b, Derived n' b' => String.eqb n n' && pyclass_eqb b b'
  | _, _ => false
  end.

(** Method resolution order: the class followed by its ancestors
    (Python 2.5 and later, where [KeyboardInterrupt] and [SystemExit]
    derive from [BaseException] directly). *)
Fixpoint mro (c : pyclass) : list pyclass :=
  match c with
  | BaseException => [BaseException]
  | KeyboardInterrupt => [KeyboardInterrupt; BaseException]
  | SystemExit => [SystemExit; BaseException]
  | Exception => [Exception; BaseException]
  | StandardError => [StandardError; Exception; BaseException]
  | EnvironmentError =>
      [EnvironmentError; StandardError; Exception; BaseException]
  | IOError =>
      [IOError; EnvironmentError; StandardError; Exception; BaseException]
  | OSError =>
      [OSError; EnvironmentError; StandardError; Exception; BaseException]
  | LookupError => [LookupError; StandardError; Exception; BaseException]
  | KeyError =>
      [KeyError; LookupError; StandardError; Exception; BaseException]
  | IndexError =>
      [IndexError; LookupError; StandardError; Exception; BaseException]
  | ValueError => [ValueError; StandardError; Exception; BaseException]
  | TypeError => [TypeError; StandardError; Exception; BaseException]
  | Derived n b => Derived n b :: mro b
  end.

Definition issubclass (c d : pyclass) : bool := existsb (pyclass_eqb d) (mro c).

(** An exception instance: its class and what [str(e)] returns. *)
Record exn : Type := mkExn { exn_class : pyclass; exn_str : string }.

Definition isinstance (e : exn) (c : pyclass) : bool :=
  issubclass (exn_class e) c.

(** The outcome of evaluating a Python expression. *)
Inductive result (A : Type) : Type :=
| Ok (a : A)
| Raise (e : exn).
Arguments Ok {A} a.
Arguments Raise {A} e.

Definition bind {A B} (x : result A) (f : A -> result B) : result B :=
  match x with
  | Ok a => f a
  | Raise e => Raise e
  end.

(** [try: body except cls, e: handler(e)] *)
Definition try_except {A} (body : result A) (cls : pyclass)
    (handler : exn -> result A) : result A :=
  match body with
  | Ok a => Ok a
  | Raise e => if isinstance e cls then handler e else Raise e
  end.

Definition socket_error : pyclass := Derived "error" IOError.
Definition re_error : pyclass := Derived "error" Exception.

(** ** Byte strings *)

Definition LF : string := String (ascii_of_nat 10) "".
Definition CR : string := String (ascii_of_nat 13) "".
Definition TAB : string := String (ascii_of_nat 9) "".

(** [str.isspace] on one character (C locale): space, \t, \n, \v, \f, \r. *)
Definition isspace (c : ascii) : bool :=
  let n := nat_of_ascii c in
  ((n =? 32) || ((9 <=? n) && (n <=? 13)))%nat.

Definition is_empty (s : string) : bool :=
  match s with EmptyString => true | String _ _ => false end.

(** Truth value of a string-or-None. *)
Definition truthy (v : option string) : bool :=
  match v with
  | None => false
  | Some s => negb (is_empty s)
  end.

Fixpoint lstrip (s : string) : string :=
  match s with
  | EmptyString => EmptyString
  | String c s' => if isspace c then lstrip s' else s
  end.

Fixpoint rstrip (s : string) : string :=
  match s with
  | EmptyString => EmptyString
  | String c s' =>
      let r := rstrip s' in
      if isspace c && is_empty r then EmptyString else String c r
  end.

(** [s.strip()] *)
Definition strip (s : string) : string := lstrip (rstrip s).

Definition snoc (s : string) (c : ascii) : string := s +:+ String c "".

Fixpoint split_go (s cur : string) : list string :=
  match s with
  | EmptyString => if is_empty cur then [] else [cur]
  | String c s' =>
      if isspace c
      then (if is_empty cur then split_go s' "" else cur :: split_go s' "")
      else split_go s' (snoc cur c)
  end.

(** [s.split()]: the whitespace-separated words of [s]. *)
Definition split (s : string) : list string := split_go s "".

Fixpoint splitlines_go (s cur : string) : list string :=
  match s with
  | EmptyString => if is_empty cur then [] else [cur]
  | String c s' =>
      if Ascii.eqb c (ascii_of_nat 10) then cur :: splitlines_go s' ""
      else if Ascii.eqb c (ascii_of_nat 13) then
        match s' with
        | String c' s'' =>
            if Ascii.eqb c' (ascii_of_nat 10)
            then cur :: splitlines_go s'' ""
            else cur :: splitlines_go s' ""
        | EmptyString => cur :: splitlines_go s' ""
        end
      else splitlines_go s' (snoc cur c)
  end.

(** [s.splitlines()]: lines of a byte string, broken at \n, \r and \r\n,
    line ends dropped. *)
Definition splitlines (s : string) : list string := splitlines_go s "".

Fixpoint readlines_go (s cur : string) : list string :=
  match s with
  | EmptyString => if is_empty cur then [] else [cur]
  | String c s' =>
      if Ascii.eqb c (ascii_of_nat 10)
      then snoc cur c :: readlines_go s' ""
      else readlines_go s' (snoc cur c)
  end.

(** [f.readlines()] on the content of a file: lines with their \n kept. *)
Definition readlines (content : string) : list string :=
  readlines_go content "".

(** [s.startswith(p)] *)
Definition startswith (s p : string) : bool := String.prefix p s.

Fixpoint string_rev (s acc : string) : string :=
  match s with
  | EmptyString => acc
  | String c s' => string_rev s' (String c acc)
  end.

(** [s.endswith(p)] *)
Definition endswith (s p : string) : bool :=
  String.prefix (string_rev p "") (string_rev s "").

Fixpoint split1_go (sep : ascii) (s cur : string) : list string :=
  match s with
  | EmptyString => [cur]
  | String c s' =>
      if Ascii.eqb c sep then [cur; s'] else split1_go sep s' (snoc cur c)
  end.

(** [s.split(sep, 1)] for a one-character separator. *)
Definition split1 (sep : ascii) (s : string) : list string :=
  split1_go sep s "".

(** [sep.join(items)] *)
Fixpoint join (sep : string) (items : list string) : string :=
  match items with
  | [] => ""
  | [x] => x
  | x :: rest => x +:+ sep +:+ join sep rest
  end.

(** [l[i]] on a list: IndexError out of range. *)
Definition getitem {A} (l : list A) (i : nat) : result A :=
  match l !! i with
  | Some x => Ok x
  | None => Raise (mkExn IndexError "list index out of range")
  end.

Fixpoint take_str (n : nat) (s : string) : string :=
  match n, s with
  | S n', String c s' => String c (take_str n' s')
  | _, _ => ""
  end.

Fixpoint drop_str (n : nat) (s : string) : string :=
  match n, s with
  | S n', String _ s' => drop_str n' s'
  | _, _ => s
  end.

(** [s[i:j]] for [0 <= i <= j]: slices never raise. *)
Definition slice (s : string) (i j : nat) : string :=
  take_str (j - i) (drop_str i s).

(** ** Integers *)

Definition digit_val (c : ascii) : option Z :=
  let n := Z.of_nat (nat_of_ascii c) in
  if (48 <=? n) && (n <=? 57) then Some (n - 48)
  else if (97 <=? n) && (n <=? 122) then Some (n - 87)
  else if (65 <=? n) && (n <=? 90) then Some (n - 55)
  else None.

(** Digits of [s] in [base], most significant first, accumulated as the
    C conversion loop does: [acc * base + digit]. *)
Fixpoint digits_val (base : Z) (s : string) (acc : Z) : option Z :=
  match s with
  | EmptyString => Some acc
  | String c s' =>
      match digit_val c with
      | Some d => if d <? base then digits_val base s' (acc * base + d)
                  else None
      | None => None
      end
  end.

Definition strip_0x (s : string) : string :=
  match s with
  | String "0" (String "x" s') => s'
  | String "0" (String "X" s') => s'
  | _ => s
  end.

Definition hex_digit_lower (d : nat) : ascii :=
  nth d ["0"; "1"; "2"; "3"; "4"; "5"; "6"; "7"; "8"; "9";
         "a"; "b"; "c"; "d"; "e"; "f"]%char "0"%char.

(** One character of [repr(s)] inside the quote [q]: the quote and the
    backslash are escaped, \t, \n and \r are written as such, and any
    other character outside the printable ASCII range as [\xhh]. *)
Definition repr_char (q c : ascii) : string :=
  let n := nat_of_ascii c in
  if Ascii.eqb c q || Ascii.eqb c "\" then String "\" (String c "")
  else if (n =? 9)%nat then "\t"
  else if (n =? 10)%nat then "\n"
  else if (n =? 13)%nat then "\r"
  else if ((n <? 32) || (127 <=? n))%nat
  then String "\" (String "x" (String (hex_digit_lower (n / 16))
                                  (String (hex_digit_lower (n mod 16)) "")))
  else String c "".

Definition has_char (c : ascii) (s : string) : bool :=
  existsb (Ascii.eqb c) (list_ascii_of_string s).

(** [repr(s)] of a byte string: single quotes around the text, double
    quotes when the text holds a single quote and no double quote. *)
Definition repr (s : string) : string :=
  let dq := ascii_of_nat 34 in
  let q := if has_char "'" s && negb (has_char dq s) then dq else "'"%char in
  String q (fold_right (fun c acc => repr_char q c +:+ acc) (String q "")
                       (list_ascii_of_string s)).

Definition invalid_literal (s : string) : exn :=
  mkExn ValueError ("invalid literal for int() with base 16: " +:+ repr s).

(** [int(s, 16)]: surrounding whitespace, an optional sign, an optional
    [0x] prefix, then one or more hexadecimal digits. *)
Definition int16 (s : string) : result Z :=
  let t := strip s in
  let '(sign, body) :=
    match t with
    | String "-" t' => (-1, t')
    | String "+" t' => (1, t')
    | _ => (1, t)
    end in
  let ds := strip_0x body in
  if is_empty ds then Raise (invalid_literal s)
  else match digits_val 16 ds 0 with
       | Some v => Ok (sign * v)
       | None => Raise (invalid_literal s)
       end.

Definition digit_char (d : Z) : ascii := ascii_of_nat (Z.to_nat (48 + d)).

Fixpoint str_pos (fuel : nat) (n : Z) (acc : string) : string :=
  match fuel with
  | O => acc
  | S fuel' =>
      let acc' := String (digit_char (n mod 10)) acc in
      if n <? 10 then acc' else str_pos fuel' (n / 10) acc'
  end.

(** [str(n)] for an integer: decimal digits, a minus sign when negative.
    The number of digits of [n] is at most its size in bits. *)
Definition str (n : Z) : string :=
  if n <? 0 then String "-" (str_pos (S (Z.to_nat (Z.log2 (- n)))) (- n) "")
  else str_pos (S (Z.to_nat (Z.log2 n))) n "".

End Py.

(** ** Regular expressions: the part of Python's [re] used by the module *)

Module Re.
Import Py.

Inductive re : Type :=
| Eps
| Chr (c : ascii)
| Any                                       (* [.]: any character but \n *)
| CSet (neg : bool) (ranges : list (ascii * ascii))
| Bol                                       (* [^] *)
| Eol                                       (* [$] *)
| Seq (r1 r2 : re)
| Alt (r1 r2 : re)
| Rep (lo : nat) (hi : option nat) (greedy : bool) (r : re)
| Group (n : nat) (r : re).

(** *** Compiling a pattern string *)

Definition digit_set : re := CSet false [("0", "9")]%char.
Definition space_set : re :=
  CSet false [(ascii_of_nat 9, ascii_of_nat 13); (" ", " ")]%char.

Inductive pending : Type := PNone | PChar (c : ascii) | PDash (c : ascii).

Inductive pmode : Type :=
| MNormal
| MEscape
| MClassStart (neg : bool)
| MClass (neg : bool) (rs : list (ascii * ascii)) (p : pending)
| MBrace (lo : string)              (* after [{]: the digits read *)
| MBraceHi (lo hi : string).        (* after [{lo,]: the digits read *)

(** What the last item of the current sequence is: a repeat may not be
    repeated again, and only a greedy repeat takes a [?] suffix. *)
Inductive lastk : Type := LOther | LGreedy | LLazy.

Record frame : Type :=
  mkFrame { fr_group : nat; fr_alts : list re; fr_seq : list re }.

Record pstate : Type := mkP {
  ps_mode : pmode;
  ps_cur : frame;
  ps_stack : list frame;
  ps_ngroups : nat;
  ps_last : lastk
}.

Definition seq_of (items_rev : list re) : re :=
  fold_left (fun acc r => Seq r acc) items_rev Eps.

Definition alt_of (f : frame) : re :=
  fold_left (fun acc r => Alt r acc) (fr_alts f) (seq_of (fr_seq f)).

Definition push_item (r : re) (st : pstate) : pstate :=
  let f := ps_cur st in
  mkP MNormal (mkFrame (fr_group f) (fr_alts f) (r :: fr_seq f))
      (ps_stack st) (ps_ngroups st) LOther.

Definition is_anchor (r : re) : bool :=
  match r with Bol | Eol => true | _ => false end.

Definition quantify (lo : nat) (hi : option nat) (st : pstate)
    : option pstate :=
  let f := ps_cur st in
  match ps_last st, fr_seq f with
  | LOther, r :: rest =>
      if is_anchor r then None
      else Some (mkP MNormal
                   (mkFrame (fr_group f) (fr_alts f)
                            (Rep lo hi true r :: rest))
                   (ps_stack st) (ps_ngroups st) LGreedy)
  | _, _ => None
  end.

Definition make_lazy (st : pstate) : option pstate :=
  let f := ps_cur st in
  match fr_seq f with
  | Rep lo hi true r :: rest =>
      Some (mkP MNormal
              (mkFrame (fr_group f) (fr_alts f) (Rep lo hi false r :: rest))
              (ps_stack st) (ps_ngroups st) LLazy)
  | _ => None
  end.

Definition is_digit (c : ascii) : bool :=
  let n := nat_of_ascii c in ((48 <=? n) && (n <=? 57))%nat.

Definition is_alpha (c : ascii) : bool :=
  let n := nat_of_ascii c in
  (((65 <=? n) && (n <=? 90)) || ((97 <=? n) && (n <=? 122)))%nat.

Definition flush (rs : list (ascii * ascii)) (p : pending)
    : list (ascii * ascii) :=
  match p with
  | PNone => rs
  | PChar c => (c, c) :: rs
  | PDash c => ("-"%char, "-"%char) :: (c, c) :: rs
  end.

Definition class_char (neg : bool) (rs : list (ascii * ascii)) (p : pending)
    (c : ascii) : pmode :=
  match p with
  | PNone => MClass neg rs (PChar c)
  | PChar a => MClass neg ((a, a) :: rs) (PChar c)
  | PDash a => MClass neg ((a, c) :: rs) PNone
  end.

Definition with_mode (m : pmode) (st : pstate) : pstate :=
  mkP m (ps_cur st) (ps_stack st) (ps_ngroups st) (ps_last st).

Definition step_normal (st : pstate) (c : ascii) : option pstate :=
  match c with
  | "\"%char => Some (with_mode MEscape st)
  | "."%char => Some (push_item Any st)
  | "^"%char => Some (push_item Bol st)
  | "$"%char => Some (push_item Eol st)
  | "["%char => Some (with_mode (MClassStart false) st)
  | "*"%char => quantify 0 None st
  | "+"%char => quantify 1 None st
  | "?"%char =>
      match ps_last st with
      | LGreedy => make_lazy st
      | _ => quantify 0 (Some 1%nat) st
      end
  | "{"%char => Some (with_mode (MBrace "") st)
  | "("%char =>
      let n := S (ps_ngroups st) in
      Some (mkP MNormal (mkFrame n [] []) (ps_cur st :: ps_stack st) n LOther)
  | ")"%char =>
      match ps_stack st with
      | parent :: stack' =>
          let g := Group (fr_group (ps_cur st)) (alt_of (ps_cur st)) in
          Some (mkP MNormal
                  (mkFrame (fr_group parent) (fr_alts parent)
                           (g :: fr_seq parent))
                  stack' (ps_ngroups st) LOther)
      | [] => None
      end
  | "|"%char =>
      let f := ps_cur st in
      Some (mkP MNormal
              (mkFrame (fr_group f) (seq_of (fr_seq f) :: fr_alts f) [])
              (ps_stack st) (ps_ngroups st) LOther)
  | _ => Some (push_item (Chr c) st)
  end.

Definition step_escape (st : pstate) (c : ascii) : option pstate :=
  match c with
  | "d"%char => Some (push_item digit_set st)
  | "s"%char => Some (push_item space_set st)
  | "n"%char => Some (push_item (Chr (ascii_of_nat 10)) st)
  | "r"%char => Some (push_item (Chr (ascii_of_nat 13)) st)
  | "t"%char => Some (push_item (Chr (ascii_of_nat 9)) st)
  | _ => if is_digit c || is_alpha c then None
         else Some (push_item (Chr c) st)
  end.

(** The number a text of digits denotes; 0 for the empty text. *)
Definition nat_of_digits (s : string) : nat :=
  fold_left (fun n c => (10 * n + (nat_of_ascii c - 48))%nat)
            (list_ascii_of_string s) 0%nat.

(** The characters of [s] added to the current sequence as literals. *)
Definition literals (s : string) (st : pstate) : pstate :=
  fold_left (fun st c => push_item (Chr c) st) (list_ascii_of_string s) st.

(** A [{] that does not open a repeat [{m}], [{m,}], [{,n}] or [{m,n}]
    is a literal, and so are the characters read after it. *)
Definition close_brace (st : pstate) : pstate :=
  match ps_mode st with
  | MBrace lo => literals ("{" +:+ lo) (with_mode MNormal st)
  | MBraceHi lo hi =>
      literals ("{" +:+ lo +:+ "," +:+ hi) (with_mode MNormal st)
  | _ => st
  end.

(** One character of the pattern.  [None] is a pattern outside the subset
    of the syntax modelled here, or one [re] rejects. *)
Definition step (st : pstate) (c : ascii) : option pstate :=
  match ps_mode st with
  | MNormal => step_normal st c
  | MEscape => step_escape st c
  | MClassStart neg =>
      match c with
      | "^"%char => if neg then Some (with_mode (MClass neg [] (PChar c)) st)
                    else Some (with_mode (MClassStart true) st)
      | "\"%char => None
      | _ => Some (with_mode (MClass neg [] (PChar c)) st)
      end
  | MClass neg rs p =>
      match c with
      | "]"%char => Some (push_item (CSet neg (rev (flush rs p))) st)
      | "\"%char => None
      | "-"%char =>
          match p with
          | PChar a => Some (with_mode (MClass neg rs (PDash a)) st)
          | _ => Some (with_mode (class_char neg rs p c) st)
          end
      | _ => Some (with_mode (class_char neg rs p c) st)
      end
  | MBrace lo =>
      if is_digit c then Some (with_mode (MBrace (snoc lo c)) st)
      else
        match c with
        | "}"%char =>
            if is_empty lo then Some (push_item (Chr c) (close_brace st))
            else quantify (nat_of_digits lo) (Some (nat_of_digits lo))
                          (with_mode MNormal st)
        | ","%char => Some (with_mode (MBraceHi lo "") st)
        | _ => step_normal (close_brace st) c
        end
  | MBraceHi lo hi =>
      if is_digit c then Some (with_mode (MBraceHi lo (snoc hi c)) st)
      else
        match c with
        | "}"%char =>
            if is_empty hi
            then quantify (nat_of_digits lo) None (with_mode MNormal st)
            else if (nat_of_digits hi <? nat_of_digits lo)%nat then None
                 else quantify (nat_of_digits lo) (Some (nat_of_digits hi))
                               (with_mode MNormal st)
        | _ => step_normal (close_brace st) c
        end
  end.

Fixpoint steps (st : pstate) (p : string) : option pstate :=
  match p with
  | EmptyString => Some st
  | String c p' =>
      match step st c with
      | Some st' => steps st' p'
      | None => None
      end
  end.

Definition start : pstate := mkP MNormal (mkFrame 0 [] []) [] 0 LOther.

Definition finish (st : pstate) : option re :=
  let st := close_brace st in
  match ps_mode st, ps_stack st with
  | MNormal, [] => Some (alt_of (ps_cur st))
  | _, _ => None
  end.

(** [re.compile(pattern)] *)
Definition compile (p : string) : option re :=
  match steps start p with
  | Some st => finish st
  | None => None
  end.

(** *** Matching: a backtracking matcher in continuation-passing style *)

Record mstate : Type := mkM {
  ms_prev : option ascii;             (* the character before the position *)
  ms_rest : string;                   (* the text from the position on *)
  ms_groups : gmap nat string         (* groups captured so far *)
}.

Definition in_range (c : ascii) (r : ascii * ascii) : bool :=
  ((nat_of_ascii (fst r) <=? nat_of_ascii c)
   && (nat_of_ascii c <=? nat_of_ascii (snd r)))%nat.

Definition in_set (neg : bool) (rs : list (ascii * ascii)) (c : ascii)
    : bool :=
  xorb neg (existsb (in_range c) rs).

Definition is_newline (c : ascii) : bool := Ascii.eqb c (ascii_of_nat 10).

(** Take one character satisfying [p]. *)
Definition eat {R} (p : ascii -> bool) (st : mstate)
    (k : mstate -> option R) : option R :=
  match ms_rest st with
  | String a s' =>
      if p a then k (mkM (Some a) s' (ms_groups st)) else None
  | EmptyString => None
  end.

Definition at_bol (multiline : bool) (st : mstate) : bool :=
  match ms_prev st with
  | None => true
  | Some c => multiline && is_newline c
  end.

Definition at_eol (multiline : bool) (st : mstate) : bool :=
  match ms_rest st with
  | EmptyString => true
  | String c s' => is_newline c && (multiline || is_empty s')
  end.

(** The text matched between two positions of the same subject. *)
Definition consumed (st st1 : mstate) : string :=
  take_str (String.length (ms_rest st) - String.length (ms_rest st1))
           (ms_rest st).

Definition set_group (n : nat) (st st1 : mstate) : mstate :=
  mkM (ms_prev st1) (ms_rest st1) (<[n := consumed st st1]> (ms_groups st1)).

Definition below (n : nat) (hi : option nat) : bool :=
  match hi with
  | None => true
  | Some h => (n <? h)%nat
  end.

Definition shorter (st1 st : mstate) : bool :=
  (String.length (ms_rest st1) <? String.length (ms_rest st))%nat.

Definition orelse {R} (x : option R) (y : unit -> option R) : option R :=
  match x with
  | Some v => Some v
  | None => y tt
  end.

(** A repeat of [body], [n] iterations done.  A greedy repeat tries one
    more iteration before the rest of the pattern, a lazy one the rest of
    the pattern first.  Past the [lo] mandatory iterations an iteration has
    to consume text, so [fuel] bounded by [lo] plus the length of the text
    is never exhausted. *)
Fixpoint rep_loop {R} (body : mstate -> (mstate -> option R) -> option R)
    (lo : nat) (hi : option nat) (greedy : bool) (k : mstate -> option R)
    (fuel n : nat) (st : mstate) : option R :=
  match fuel with
  | O => None
  | S fuel' =>
      let more (_ : unit) :=
        if below n hi
        then body st (fun st1 =>
               if (n <? lo)%nat || shorter st1 st
               then rep_loop body lo hi greedy k fuel' (S n) st1
               else None)
        else None in
      let stop (_ : unit) := if (lo <=? n)%nat then k st else None in
      if greedy then orelse (more tt) stop else orelse (stop tt) more
  end.

Fixpoint run {R} (multiline : bool) (r : re) {struct r}
    : mstate -> (mstate -> option R) -> option R :=
  match r with
  | Eps => fun st k => k st
  | Chr c => eat (Ascii.eqb c)
  | Any => eat (fun a => negb (is_newline a))
  | CSet neg rs => eat (in_set neg rs)
  | Bol => fun st k => if at_bol multiline st then k st else None
  | Eol => fun st k => if at_eol multiline st then k st else None
  | Seq r1 r2 => fun st k => run multiline r1 st (fun st1 => run multiline r2 st1 k)
  | Alt r1 r2 => fun st k =>
      orelse (run multiline r1 st k) (fun _ => run multiline r2 st k)
  | Rep lo hi greedy r1 => fun st k =>
      rep_loop (run multiline r1) lo hi greedy k
               (S (lo + String.length (ms_rest st))) 0 st
  | Group n r1 => fun st k =>
      run multiline r1 st (fun st1 => k (set_group n st st1))
  end.

(** The groups of a match object; group 0 is the whole match. *)
Definition match_at (multiline : bool) (r : re) (prev : option ascii)
    (s : string) : option (gmap nat string) :=
  let st := mkM prev s ∅ in
  run multiline r st (fun st1 => Some (ms_groups (set_group 0 st st1))).

Fixpoint search_from (multiline : bool) (r : re) (prev : option ascii)
    (s : string) : option (gmap nat string) :=
  orelse (match_at multiline r prev s)
         (fun _ => match s with
                   | String a s' => search_from multiline r (Some a) s'
                   | EmptyString => None
                   end).

Definition bad_pattern : exn := mkExn re_error "bad pattern".

(** [re.match(pattern, s)]: the pattern has to match at the start of [s]. *)
Definition re_match (multiline : bool) (pattern s : string)
    : result (option (gmap nat string)) :=
  match compile pattern with
  | Some r => Ok (match_at multiline r None s)
  | None => Raise bad_pattern
  end.

(** [re.search(pattern, s)]: the first position where the pattern matches. *)
Definition re_search (multiline : bool) (pattern s : string)
    : result (option (gmap nat string)) :=
  match compile pattern with
  | Some r => Ok (search_from multiline r None s)
  | None => Raise bad_pattern
  end.

(** Characters that stand for themselves in a pattern. *)
Definition is_plain (c : ascii) : bool :=
  negb (existsb (Ascii.eqb c)
          ["\"; "."; "^"; "$"; "["; "*"; "+"; "?"; "{"; "("; ")"; "|"]%char).

Definition plain (s : string) : bool :=
  forallb is_plain (list_ascii_of_string s).

(** The pattern of a literal text [s] followed by [r]. *)
Fixpoint lits (s : string) (r : re) : re :=
  match s with
  | EmptyString => r
  | String c s' => Seq (Chr c) (lits s' r)
  end.

(** The items a literal text adds to the sequence being compiled, last
    character first. *)
Definition chars_rev (s : string) : list re :=
  rev (map Chr (list_ascii_of_string s)).

(** A text without a newline: what [.*] can run over. *)
Definition one_line (s : string) : bool :=
  forallb (fun c => negb (is_newline c)) (list_ascii_of_string s).

(** The position after the text [s], read from a position whose previous
    character is [p]. *)
Fixpoint prev_after (p : option ascii) (s : string) : option ascii :=
  match s with
  | EmptyString => p
  | String c s' => prev_after (Some c) s'
  end.

(** What a greedy [.*] does on a one-line text [l] followed by [t]: the
    rest of the pattern is tried after all of [l] first, then after
    shorter and shorter parts of it. *)
Fixpoint longest_first {R} (k : mstate -> option R) (p : option ascii)
    (l t : string) (g : gmap nat string) : option R :=
  match l with
  | EmptyString => k (mkM p t g)
  | String c l' =>
      orelse (longest_first k (Some c) l' t g)
             (fun _ => k (mkM p (String c l' +:+ t) g))
  end.

(** What the pattern of [get_ifmethod] compiles to for an interface name
    of plain characters. *)
Definition ifmethod_re (ifname : string) : re :=
  Seq (Rep 0 None true Any)
    (Seq (Chr (ascii_of_nat 10))
       (lits "iface "
          (lits ifname
             (lits " inet "
                (Seq (Group 1 (Seq (Rep 0 None true Any) Eps)) Eps))))).

(** What the pattern of one component of [is_ipaddr] compiles to:
    [25[0-5]|2[0-4]\d|[0-1]?\d?\d]. *)
Definition octet_re : re :=
  Alt (Seq (Chr "2") (Seq (Chr "5") (Seq (CSet false [("0", "5")]%char) Eps)))
    (Alt (Seq (Chr "2")
            (Seq (CSet false [("0", "4")]%char) (Seq digit_set Eps)))
       (Seq (Rep 0 (Some 1%nat) true (CSet false [("0", "1")]%char))
          (Seq (Rep 0 (Some 1%nat) true digit_set) (Seq digit_set Eps)))).

(** What the pattern of [is_ipaddr] compiles to. *)
Definition ipv4_re : re :=
  Seq Bol
    (Seq (Group 1 octet_re)
       (Seq (Rep 3 (Some 3%nat) true
               (Group 2 (Seq (Chr ".") (Seq (Group 3 octet_re) Eps))))
          (Seq Eol Eps))).

(** A run of single-character tests. *)
Fixpoint eats {R} (ps : list (ascii -> bool)) (k : mstate -> option R)
    : mstate -> option R :=
  match ps with
  | [] => k
  | p :: ps' => fun st => eat p st (eats ps' k)
  end.

(** The text [d] passes the tests [ps], character by character. *)
Fixpoint tests_hold (ps : list (ascii -> bool)) (d : string) : bool :=
  match ps, d with
  | [], EmptyString => true
  | p :: ps', String c d' => p c && tests_hold ps' d'
  | _, _ => false
  end.

(** The ways through [octet_re], in the order the matcher tries them. *)
Definition octet_tests : list (list (ascii -> bool)) :=
  [ [Ascii.eqb "2"; Ascii.eqb "5"; in_set false [("0", "5")]];
    [Ascii.eqb "2"; in_set false [("0", "4")]; in_set false [("0", "9")]];
    [in_set false [("0", "1")]; in_set false [("0", "9")];
     in_set false [("0", "9")]];
    [in_set false [("0", "1")]; in_set false [("0", "9")]];
    [in_set false [("0", "9")]; in_set false [("0", "9")]];
    [in_set false [("0", "9")]] ]%char.

(** The texts [octet_re] matches in full. *)
Definition octet_shape (d : string) : bool :=
  existsb (fun ps => tests_hold ps d) octet_tests.

(** A text of digits. *)
Definition all_digits (s : string) : bool :=
  forallb is_digit (list_ascii_of_string s).

(** A text that does not start with a digit. *)
Definition no_digit_ahead (t : string) : bool :=
  match t with
  | EmptyString => true
  | String c _ => negb (is_digit c)
  end.

(** The digits at the head of a text, and what follows them. *)
Fixpoint span_digits (s : string) : string * string :=
  match s with
  | EmptyString => ("", "")
  | String c s' =>
      if is_digit c
      then let '(d, t) := span_digits s' in (String c d, t)
      else ("", s)
  end.

(** [n] times a dot and a run of digits: the runs, and what follows the
    last one. *)
Fixpoint tail_parts (n : nat) (t : string) : option (list string * string) :=
  match n with
  | O => Some ([], t)
  | S n' =>
      match t with
      | String c s2 =>
          if Ascii.eqb "." c
          then let '(d, t') := span_digits s2 in
               match tail_parts n' t' with
               | Some (l, t'') => Some (d :: l, t'')
               | None => None
               end
          else None
      | EmptyString => None
      end
  end.

(** A text read as four runs of digits separated by dots: the runs, and
    what follows the fourth. *)
Definition scan4 (s : string) : option (list string * string) :=
  let '(d, t) := span_digits s in
  match tail_parts 3 t with
  | Some (l, t') => Some (d :: l, t')
  | None => None
  end.

(** The end of the subject for [$]: the end, or a last newline. *)
Definition at_end (t : string) : bool :=
  match t with
  | EmptyString => true
  | String c t' => is_newline c && is_empty t'
  end.

(** The length of the text left at a position. *)
Definition left_of (st : mstate) : nat := String.length (ms_rest st).

(** Two continuations that agree from a position on. *)
Definition agree_from {R} (st : mstate) (k1 k2 : mstate -> option R)
    : Prop :=
  forall st', (left_of st' <= left_of st)%nat -> k1 st' = k2 st'.

(** A match was found. *)
Definition matched {A} (m : option A) : bool :=
  match m with
  | Some _ => true
  | None => false
  end.

(** What [ipv4_re] accepts, read off a scan of the text: four runs of
    digits that are components, up to the end of the subject. *)
Definition scan_accepts (s : string) : bool :=
  match scan4 s with
  | Some (l, t) => forallb octet_shape l && at_end t
  | None => false
  end.

Definition digit_chars : list ascii :=
  ["0"; "1"; "2"; "3"; "4"; "5"; "6"; "7"; "8"; "9"]%char.

(** The texts of one, two and three digits. *)
Definition digit_strings : list string :=
  let one := map (fun c => String c "") digit_chars in
  let more (l : list string) :=
    flat_map (fun c => map (String c) l) digit_chars in
  one ++ more one ++ more (more one).

(** A test that only digits pass. *)
Definition digit_test (p : ascii -> bool) : Prop :=
  forall c, p c = true -> is_digit c = true.

(** One repetition of [ipv4_re]: a dot and a component. *)
Definition dot_octet : re :=
  Group 2 (Seq (Chr ".") (Seq (Group 3 octet_re) Eps)).

(** The end of [ipv4_re]: [$], then the match is reported. *)
Definition Kend {R} (Kfin : mstate -> option R) : mstate -> option R :=
  fun st => run false (Seq Eol Eps) st Kfin.

(** [m.group(n)] for a group of the pattern: None when it took no part. *)
Definition group (m : gmap nat string) (n : nat) : option string := m !! n.

End Re.


(** ** The socket module: address conversions *)

Module Socket.
Import Py.

(** The longest run of digits of [base] at the head of [s], as [strtoul]
    reads it, and what follows. *)
Fixpoint strtoul_digits (base : Z) (s : string) (acc : Z) : Z * string :=
  match s with
  | EmptyString => (acc, s)
  | String c s' =>
      match digit_val c with
      | Some d => if d <? base then strtoul_digits base s' (acc * base + d)
                  else (acc, s)
      | None => (acc, s)
      end
  end.

Definition is_hex_digit (c : ascii) : bool :=
  match digit_val c with
  | Some d => d <? 16
  | None => false
  end.

(** [0x] or [0X] followed by a hexadecimal digit. *)
Definition starts_hex (s : string) : bool :=
  match s with
  | String z (String x (String h _)) =>
      Ascii.eqb z "0" && (Ascii.eqb x "x" || Ascii.eqb x "X")
      && is_hex_digit h
  | _ => false
  end.

(** [strtoul(s, &end, 0)] on a string that starts with a digit: [0x] means
    hexadecimal, a leading [0] octal, anything else decimal. *)
Definition strtoul0 (s : string) : Z * string :=
  if starts_hex s then strtoul_digits 16 (drop_str 2 s) 0
  else if startswith s "0" then strtoul_digits 8 s 0
  else strtoul_digits 10 s 0.

(** The parts of [a.b.c.d], [a.b.c], [a.b] or [a]: the leading parts, each
    at most 255, the last part, and the text left after it. *)
Fixpoint aton_parts (fuel : nat) (s : string) (parts : list Z)
    : option (list Z * Z * string) :=
  match fuel with
  | O => None
  | S fuel' =>
      match s with
      | String c _ =>
          if Re.is_digit c then
            let '(val, rest) := strtoul0 s in
            match rest with
            | String c' rest' =>
                if Ascii.eqb c' "." then
                  if (3 <=? length parts)%nat || (255 <? val) then None
                  else aton_parts fuel' rest' (parts ++ [val])
                else Some (parts, val, rest)
            | EmptyString => Some (parts, val, rest)
            end
          else None
      | EmptyString => None
      end
  end.

Definition byte_chr (n : Z) : ascii := ascii_of_nat (Z.to_nat (n mod 256)).

Definition pack (v : Z) : string :=
  String (byte_chr (v / 16777216))
    (String (byte_chr (v / 65536))
       (String (byte_chr (v / 256)) (String (byte_chr v) ""))).

Definition has_nul (s : string) : bool :=
  existsb (Ascii.eqb (ascii_of_nat 0)) (list_ascii_of_string s).

(** Where [strtoul] stops whatever the base: at the end of the text, or
    at a character that is not a digit of any base. *)
Definition stops (t : string) : bool :=
  match t with
  | EmptyString => true
  | String c _ => negb (bool_decide (is_Some (digit_val c)))
  end.

Definition illegal_address : exn :=
  mkExn socket_error "illegal IP address string passed to inet_aton".

(** [socket.inet_aton(ip)], the C library's [inet_aton] (inet(3)): numbers
    in C notation separated by dots; the last number fills the bytes the
    leading ones leave; the address ends the string or is followed by
    white space. *)
Definition inet_aton (ip : string) : result string :=
  if has_nul ip
  then Raise (mkExn TypeError "must be string without null bytes")
  else
    match aton_parts 4 ip [] with
    | Some (parts, val, rest) =>
        let trailing_ok :=
          match rest with
          | EmptyString => true
          | String c _ => isspace c
          end in
        let room := 256 ^ (4 - Z.of_nat (length parts)) in
        if trailing_ok && (val <? room)
        then Ok (pack (fold_left (fun acc p => acc * 256 + p) parts 0
                       * room + val))
        else Raise illegal_address
    | None => Raise illegal_address
    end.

Definition byte_val (c : ascii) : Z := Z.of_nat (nat_of_ascii c).

(** [socket.inet_ntoa(packed)] *)
Definition inet_ntoa (packed : string) : result string :=
  match list_ascii_of_string packed with
  | [a; b; c; d] =>
      Ok (join "." (map (fun x => str (byte_val x)) [a; b; c; d]))
  | _ => Raise (mkExn socket_error "packed IP wrong length for inet_ntoa")
  end.

End Socket.

(** ** ifutil.py *)

Import Py.

Definition SIOCGIFADDR : Z := 0x8915.
Definition SIOCGIFNETMASK : Z := 0x891b.
Definition SIOCGIFBRDADDR : Z := 0x8919.

(** [class Error(Exception)] *)
Definition Error : pyclass := Derived "Error" Exception.

(** Modelled from the spec: [executil.ExecError], the distinguishable error
    the command runner raises when a command exits with a non-zero status;
    taken to derive from [Exception]. *)
Definition ExecError : pyclass := Derived "ExecError" Exception.

(** *** Read-only queries

    What the queries read from the machine: the output of [route -n], the
    per-interface text [conffiles.Interfaces().conf] (a dictionary keyed by
    interface name), directories and files. *)
Record host : Type := mkHost {
  h_route : result string;                 (* executil.getoutput("route -n") *)
  h_interfaces : result (gmap string string);  (* conffiles.Interfaces().conf *)
  h_dirs : gmap string (list string);      (* directory path -> its entries *)
  h_files : gmap string string             (* file path -> its content *)
}.

(** [os.path.exists(path)] *)
Definition path_exists (h : host) (path : string) : bool :=
  bool_decide (is_Some (h_dirs h !! path))
  || bool_decide (is_Some (h_files h !! path)).

(** [os.listdir(path)] *)
Definition listdir (h : host) (path : string) : result (list string) :=
  match h_dirs h !! path with
  | Some entries => Ok entries
  | None =>
      if bool_decide (is_Some (h_files h !! path))
      then Raise (mkExn OSError ("[Errno 20] Not a directory: "
                                 +:+ repr path))
      else Raise (mkExn OSError ("[Errno 2] No such file or directory: "
                                 +:+ repr path))
  end.

(** [file(path).readlines()] *)
Definition file_readlines (h : host) (path : string)
    : result (list string) :=
  match h_files h !! path with
  | Some content => Ok (readlines content)
  | None =>
      if bool_decide (is_Some (h_dirs h !! path))
      then Raise (mkExn IOError ("[Errno 21] Is a directory: "
                                 +:+ repr path))
      else Raise (mkExn IOError ("[Errno 2] No such file or directory: "
                                 +:+ repr path))
  end.

(** [os.path.join(a, b)] *)
Definition path_join (a b : string) : string :=
  if startswith b "/" then b
  else if is_empty a || endswith a "/" then a +:+ b
  else a +:+ "/" +:+ b.

(** [d[key]] on a dictionary with string values; the text of a KeyError
    is the [repr] of the key. *)
Definition dict_getitem (d : gmap string string) (key : string)
    : result string :=
  match d !! key with
  | Some v => Ok v
  | None => Raise (mkExn KeyError (repr key))
  end.

(** The loop of [Netconf.get_gateway] over the lines of the routing table. *)
Fixpoint gateway_scan (ifname : string) (lines : list string)
    : result (option string) :=
  match lines with
  | [] => Ok None
  | line :: rest =>
      bind (Re.re_search true ("^0.0.0.0\s+(.*?)\s+(.*)\s+" +:+ ifname) line)
        (fun m =>
           match m with
           | Some mo => Ok (Re.group mo 1)
           | None => gateway_scan ifname rest
           end)
  end.

(** [Netconf(ifname).get_gateway()] *)
Definition get_gateway (h : host) (ifname : string)
    : result (option string) :=
  match h_route h with
  | Raise e => if isinstance e ExecError then Ok None else Raise e
  | Ok output => gateway_scan ifname (splitlines output)
  end.

(** The inner function [_parse_resolv] of [get_nameserver], on the lines
    read from the file... *)
Fixpoint parse_resolv_lines (lines : list string) : result (option string) :=
  match lines with
  | [] => Ok None
  | line :: rest =>
      if startswith line "nameserver"
      then bind (getitem (split (strip line)) 1) (fun ns => Ok (Some ns))
      else parse_resolv_lines rest
  end.

(** ... and on a path. *)
Definition _parse_resolv (h : host) (path : string)
    : result (option string) :=
  bind (file_readlines h path) parse_resolv_lines.

(** The first loop of [get_nameserver]: the [dns-nameservers] line of the
    interface's text.  [None] when the loop ends without returning. *)
Fixpoint static_scan (lines : list string) : result (option string) :=
  match lines with
  | [] => Ok None
  | line :: rest =>
      let line := strip line in
      if startswith line "dns-nameservers"
      then bind (getitem (split line) 1) (fun ns => Ok (Some ns))
      else static_scan rest
  end.

(** The directory of the per-interface resolvconf files. *)
Definition rundir : string := "/etc/resolvconf/run/interface".

(** The directory entries the second loop of [get_nameserver] reads:
    those its test does not skip. *)
Definition candidate (ifname f : string) : bool :=
  negb (negb (startswith f ifname) || endswith f ".inet").

(** The second loop: the resolvconf files of the interface. *)
Fixpoint resolvconf_scan (h : host) (ifname path : string)
    (entries : list string) : result (option string) :=
  match entries with
  | [] => Ok None
  | f :: rest =>
      if negb (startswith f ifname) || endswith f ".inet"
      then resolvconf_scan h ifname path rest
      else
        bind (_parse_resolv h (path_join path f)) (fun nameserver =>
          if truthy nameserver then Ok nameserver
          else resolvconf_scan h ifname path rest)
  end.

(** [Netconf(ifname).get_nameserver()] *)
Definition get_nameserver (h : host) (ifname : string)
    : result (option string) :=
  (* /etc/network/interfaces (static) *)
  bind (h_interfaces h) (fun conf =>
  bind (dict_getitem conf ifname) (fun text =>
  bind (static_scan (splitlines text)) (fun static =>
  match static with
  | Some ns => Ok (Some ns)
  | None =>
      (* resolvconf (dhcp) *)
      let path := rundir in
      bind (if path_exists h path
            then bind (listdir h path) (resolvconf_scan h ifname path)
            else Ok None) (fun dynamic =>
      match dynamic with
      | Some ns => Ok (Some ns)
      | None =>
          (* /etc/resolv.conf (fallback) *)
          bind (_parse_resolv h "/etc/resolv.conf") (fun nameserver =>
          if truthy nameserver then Ok nameserver else Ok None)
      end)
  end))).

(** A line of the interface's text that is not its [dns-nameservers]
    line. *)
Definition no_directive (line : string) : Prop :=
  startswith (strip line) "dns-nameservers" = false.

(** An entry of the run directory that yields no nameserver: it is not a
    candidate, or the resolver file has no [nameserver] line. *)
Definition yields_nothing (h : host) (ifname f : string) : Prop :=
  candidate ifname f = false
  \/ _parse_resolv h (path_join rundir f) = Ok None.

(** [get_ifmethod(ifname)] *)
Definition get_ifmethod (h : host) (ifname : string)
    : result (option string) :=
  bind (h_interfaces h) (fun conf =>
  if negb (bool_decide (is_Some (conf !! ifname))) then Ok None
  else
    bind (dict_getitem conf ifname) (fun text =>
    bind (Re.re_match false
            (".*" +:+ LF +:+ "iface " +:+ ifname +:+ " inet (.*)") text)
      (fun m =>
         match m with
         | Some mo => Ok (Re.group mo 1)
         | None => Ok None
         end))).

(** The default route as the routing table's columns give it: the gateway
    column of the first line whose destination column is [0.0.0.0] and
    whose last column is the interface.  Stated from the documentation of
    the query, to compare [get_gateway] with. *)
Fixpoint gateway_by_columns (ifname : string) (lines : list string)
    : option string :=
  match lines with
  | [] => None
  | line :: rest =>
      let cols := split line in
      if bool_decide (cols !! 0%nat = Some "0.0.0.0"
                      /\ last cols = Some ifname)
      then cols !! 1%nat
      else gateway_by_columns ifname rest
  end.

(** *** Connection records *)

Record Connection : Type := mkConnection {
  proto : string;
  lhost : string; lport : Z;
  rhost : string; rport : Z;
  status : string
}.

(** [Connection._int2host(host)] *)
Definition _int2host (host : Z) : string :=
  join "." (map str [Z.land (Z.shiftr host 0) 0xff;
                     Z.land (Z.shiftr host 8) 0xff;
                     Z.land (Z.shiftr host 16) 0xff;
                     Z.land (Z.shiftr host 24) 0xff]).

(** [Connection._map_hostport(attrib)]; unpacking [host, port = ...] needs
    exactly two items. *)
Definition _map_hostport (attrib : string) : result (string * Z) :=
  match split1 ":" attrib with
  | [host; port] =>
      bind (int16 host) (fun host =>
      bind (int16 port) (fun port =>
      Ok (_int2host host, port)))
  | _ => Raise (mkExn ValueError "need more than 1 value to unpack")
  end.

Definition status_table : gmap string string :=
  <["01" := "ESTABLISHED"]> (<["0A" := "LISTENING"]> (<["10" := "WAITING"]> ∅)).

(** [Connection._map_status(attrib)] *)
Definition _map_status (attrib : string) : string :=
  match try_except (dict_getitem status_table attrib) KeyError
          (fun _ => Ok "UNKNOWN") with
  | Ok s => s
  | Raise _ => "UNKNOWN"
  end.

(** [Connection(proto, attribs)]; the [debug] printout is left out. *)
Definition Connection_init (proto : string) (attribs : list string)
    : result Connection :=
  bind (getitem attribs 1) (fun a1 =>
  bind (_map_hostport a1) (fun l =>
  bind (getitem attribs 2) (fun a2 =>
  bind (_map_hostport a2) (fun r =>
  bind (getitem attribs 3) (fun a3 =>
  Ok (mkConnection proto (fst l) (snd l) (fst r) (snd r)
        (_map_status a3))))))).

(** A non-empty string of hexadecimal digits, as the kernel prints the
    hosts and ports of its connection tables. *)
Definition is_hex (s : string) : bool :=
  negb (is_empty s)
  && forallb Socket.is_hex_digit (list_ascii_of_string s).

(** The number a string of hexadecimal digits denotes, by position. *)
Fixpoint hexval (s : string) : Z :=
  match s with
  | EmptyString => 0
  | String c s' =>
      default 0 (digit_val c) * 16 ^ Z.of_nat (String.length s') + hexval s'
  end.

(** Byte [k] of a host number, byte 0 the least significant. *)
Definition octet (host : Z) (k : Z) : Z := (host / 256 ^ k) mod 256.

Definition dotted_quad (host : Z) : string :=
  join "." (map (fun k => str (octet host k)) [0; 1; 2; 3]).

(** Modelled from the spec: the re-encoding of a dotted quad into the
    eight hexadecimal digits of the connection table ("hex -> dotted-quad
    -> hex"), which [ifutil.py] does not contain; the digits are in the
    kernel's upper case.  [split_on], [decimal], [hex_char] and [hex2] are
    its parts. *)
Fixpoint split_on (sep : ascii) (s : string) : list string :=
  match s with
  | EmptyString => [""]
  | String c s' =>
      if Ascii.eqb c sep then "" :: split_on sep s'
      else match split_on sep s' with
           | w :: ws => String c w :: ws
           | [] => [String c ""]
           end
  end.

Definition decimal (s : string) : option Z :=
  if is_empty s then None else digits_val 10 s 0.

Definition hex_char (d : Z) : ascii :=
  nth (Z.to_nat d)
      ["0"; "1"; "2"; "3"; "4"; "5"; "6"; "7"; "8"; "9";
       "A"; "B"; "C"; "D"; "E"; "F"]%char "0"%char.

Definition hex2 (b : Z) : string :=
  String (hex_char (b / 16)) (String (hex_char (b mod 16)) "").

Definition host2hex (host : string) : option string :=
  match map decimal (split_on "." host) with
  | [Some a; Some b; Some c; Some d] =>
      if forallb (fun x => x <? 256) [a; b; c; d]
      then Some (hex2 d +:+ hex2 c +:+ hex2 b +:+ hex2 a)
      else None
  | _ => None
  end.

(** [s.upper()] *)
Definition upper_char (c : ascii) : ascii :=
  let n := nat_of_ascii c in
  if ((97 <=? n) && (n <=? 122))%nat then ascii_of_nat (n - 32) else c.

Fixpoint upper (s : string) : string :=
  match s with
  | EmptyString => EmptyString
  | String c s' => String (upper_char c) (upper s')
  end.

(** A text without a dot. *)
Definition no_dot (s : string) : bool :=
  forallb (fun c => negb (Ascii.eqb c ".")) (list_ascii_of_string s).

(** [str] prints the byte [b] without a dot and so that it reads back. *)
Definition byte_prints (b : Z) : bool :=
  no_dot (str b) && bool_decide (decimal (str b) = Some b).

(** The row of [/proc/net/tcp] of the documentation, split into words. *)
Definition listening_row : list string :=
  split "1: 0100007F:0050 00000000:0000 0A 00000000:00000000 00:00000000 00000000     0        0 12345 1 ...".

(** One to three digits whose decimal value is at most 255. *)
Definition octet_digits (o : string) : bool :=
  negb (is_empty o) && (String.length o <=? 3)%nat && Re.all_digits o
  && match digits_val 10 o 0 with
     | Some v => v <=? 255
     | None => false
     end.

(** A numeral as C reads it: after a leading zero the digits are octal. *)
Definition c_numeral (o : string) : bool :=
  match o with
  | String "0" o' =>
      forallb (fun c => negb (Ascii.eqb c "8" || Ascii.eqb c "9"))
              (list_ascii_of_string o')
  | _ => true
  end.

Definition octet_ok (o : string) : bool := octet_digits o && c_numeral o.

(** What [strtoul] reads of a text of digits: in octal after a leading
    zero, in decimal otherwise. *)
Definition c_read (o : string) : Z * string :=
  if startswith o "0" then Socket.strtoul_digits 8 o 0
  else Socket.strtoul_digits 10 o 0.

(** What [strtoul] makes of a component: it reads all of a C numeral, to
    a value of at most 255, and stops at a digit of anything else. *)
Definition reads_well (o : string) : bool :=
  if c_numeral o
  then is_empty (snd (c_read o))
       && (0 <=? fst (c_read o)) && (fst (c_read o) <=? 255)
  else match snd (c_read o) with
       | String c _ => Re.is_digit c
       | EmptyString => false
       end.

(** The checks on a text of one to three digits that the properties of
    [is_ipaddr] rest on: the tests of the pattern pick the texts of value
    at most 255, and [strtoul] reads those well. *)
Definition octet_checks (o : string) : bool :=
  Bool.eqb (Re.octet_shape o) (octet_digits o)
  && implb (octet_digits o) (reads_well o).

(** Four components separated by dots, each one to three digits of value
    at most 255. *)
Definition dotted_decimal (s : string) : bool :=
  match split_on "." s with
  | [a; b; c; d] => forallb octet_digits [a; b; c; d]
  | _ => false
  end.

(** The same, each component a numeral as C reads it. *)
Definition quad_ok (s : string) : bool :=
  match split_on "." s with
  | [a; b; c; d] => forallb octet_ok [a; b; c; d]
  | _ => false
  end.

(** [is_ipaddr(ip)] *)
Definition ipv4 : string :=
  "^(25[0-5]|2[0-4]\d|[0-1]?\d?\d)(\.(25[0-5]|2[0-4]\d|[0-1]?\d?\d)){3}$".

Definition is_ipaddr (ip : string) : result bool :=
  bind (Re.re_match false ipv4 ip) (fun m =>
  match m with
  | None => Ok false
  | Some _ =>
      try_except (bind (Socket.inet_aton ip) (fun packed => Ok true))
        socket_error (fun _ => Ok false)
  end).

(** *** Operations that change the machine

    The collaborators ([executil], [conffiles.Interfaces], the socket and
    [fcntl.ioctl]) are reached through calls.  A [behaviour] answers a call
    from the calls made before it; the log of calls is the state the
    operations thread. *)

Inductive call : Type :=
| Getoutput (command : string) (args : list string)  (* executil.getoutput *)
| System (command : string)                          (* executil.system *)
| Interfaces_new                                     (* conffiles.Interfaces() *)
| Interfaces_set_manual (ifname : string)
| Interfaces_set_static (ifname addr netmask gateway nameserver : string)
| Interfaces_set_dhcp (ifname : string)
| Socket_new                      (* socket.socket(AF_INET, SOCK_DGRAM) *)
| Ioctl (request : Z) (ifreq : string).              (* fcntl.ioctl *)

Definition behaviour : Type := list call -> call -> result string.

Definition M (A : Type) : Type := list call -> result A * list call.

Definition ret {A} (a : A) : M A := fun log => (Ok a, log).

Definition raise {A} (e : exn) : M A := fun log => (Raise e, log).

Definition and_then {A B} (x : M A) (f : A -> M B) : M B :=
  fun log =>
    match x log with
    | (Ok a, log') => f a log'
    | (Raise e, log') => (Raise e, log')
    end.

Notation "x <~ y ; z" := (and_then y (fun x => z))
  (at level 20, y at level 100, z at level 200, only parsing).

(** [try: body except cls, e: handler(e)] *)
Definition mtry {A} (body : M A) (cls : pyclass) (handler : exn -> M A)
    : M A :=
  fun log =>
    match body log with
    | (Ok a, log') => (Ok a, log')
    | (Raise e, log') =>
        if isinstance e cls then handler e log' else (Raise e, log')
    end.

Definition perform (b : behaviour) (c : call) : M string :=
  fun log => (b log c, log ++ [c]).

Definition lift {A} (x : result A) : M A := fun log => (x, log).

(** [Netconf.__init__]: [self.ifreq = (self.ifname + '\0'*32)[:32]] *)
Definition ifreq (ifname : string) : string :=
  slice (ifname +:+ string_of_list_ascii (repeat (ascii_of_nat 0) 32)) 0 32.

(** [Netconf(ifname)._get_addr(attrname)] *)
Definition _get_addr (b : behaviour) (ifname : string) (attrname : Z)
    : M (option string) :=
  r <~ mtry (_ <~ perform b Socket_new;
             result <~ perform b (Ioctl attrname (ifreq ifname));
             ret (Some result))
            IOError (fun _ => ret None);
  match r with
  | None => ret None
  | Some result =>
      a <~ lift (Socket.inet_ntoa (slice result 20 24)); ret (Some a)
  end.

(** [Netconf(ifname).addr], through [__getattr__]. *)
Definition Netconf_addr (b : behaviour) (ifname : string)
    : M (option string) :=
  _get_addr b ifname SIOCGIFADDR.

Definition ifup (b : behaviour) (ifname : string) : M string :=
  perform b (Getoutput "ifup" [ifname]).

Definition ifdown (b : behaviour) (ifname : string) : M string :=
  perform b (Getoutput "ifdown" [ifname]).

(** A mutating operation returns [None] by falling off its end, or the
    text of the exception its handler caught. *)
Definition unconfigure_if (b : behaviour) (ifname : string)
    : M (option string) :=
  mtry (_ <~ ifdown b ifname;
        _ <~ perform b Interfaces_new;
        _ <~ perform b (Interfaces_set_manual ifname);
        _ <~ perform b (System ("ifconfig " +:+ ifname +:+ " 0.0.0.0"));
        _ <~ ifup b ifname;
        ret None)
       Exception (fun e => ret (Some (exn_str e))).

Definition set_static (b : behaviour)
    (ifname addr netmask gateway nameserver : string) : M (option string) :=
  mtry (_ <~ ifdown b ifname;
        _ <~ perform b Interfaces_new;
        _ <~ perform b (Interfaces_set_static ifname addr netmask gateway
                                              nameserver);
        _ <~ ifup b ifname;
        ret None)
       Exception (fun e => ret (Some (exn_str e))).

Definition set_dhcp (b : behaviour) (ifname : string) : M (option string) :=
  mtry (_ <~ ifdown b ifname;
        _ <~ perform b Interfaces_new;
        _ <~ perform b (Interfaces_set_dhcp ifname);
        output <~ ifup b ifname;
        addr <~ Netconf_addr b ifname;
        if negb (truthy addr)
        then raise (mkExn Error ("Error obtaining IP address" +:+ LF +:+ LF
                                 +:+ output))
        else ret None)
       Exception (fun e => ret (Some (exn_str e))).

(** The calls of the three operations, in program order. *)
Definition unconfigure_calls (ifname : string) : list call :=
  [Getoutput "ifdown" [ifname];
   Interfaces_new;
   Interfaces_set_manual ifname;
   System ("ifconfig " +:+ ifname +:+ " 0.0.0.0");
   Getoutput "ifup" [ifname]].

Definition static_calls (ifname addr netmask gateway nameserver : string)
    : list call :=
  [Getoutput "ifdown" [ifname];
   Interfaces_new;
   Interfaces_set_static ifname addr netmask gateway nameserver;
   Getoutput "ifup" [ifname]].

Definition dhcp_calls (ifname : string) : list call :=
  [Getoutput "ifdown" [ifname];
   Interfaces_new;
   Interfaces_set_dhcp ifname;
   Getoutput "ifup" [ifname]].

(** The answer of a behaviour to the call at position [i] of [cs], the
    calls before it having been made from [log] on. *)
Definition answer (b : behaviour) (log cs : list call) (i : nat)
    : option (result string) :=
  match cs !! i with
  | Some c => Some (b (log ++ take i cs) c)
  | None => None
  end.

(** Every call of [cs], made from [log] on, returns. *)
Definition all_return (b : behaviour) (log cs : list call) : Prop :=
  forall i, (i < length cs)%nat -> exists v, answer b log cs i = Some (Ok v).

(** [e] is raised by the first call of [cs] that raises. *)
Definition first_raise (b : behaviour) (log cs : list call) (e : exn)
    : Prop :=
  exists n, answer b log cs n = Some (Raise e) /\
    forall i, (i < n)%nat -> exists v, answer b log cs i = Some (Ok v).

(** A behaviour whose calls raise instances of [Exception] only. *)
Definition only_exceptions (b : behaviour) : Prop :=
  forall log c e, b log c = Raise e -> isinstance e Exception = true.

(** What [set_dhcp] reports when the interface got no address. *)
Definition no_address (output : string) : string :=
  "Error obtaining IP address" +:+ LF +:+ LF +:+ output.

(** What an operation reports after the straight-line calls [cs]: None
    when all of them return, the text of the exception of the first call
    that raises otherwise. *)
Definition reports (b : behaviour) (log cs : list call)
    (r : option string) : Prop :=
  (all_return b log cs /\ r = None)
  \/ (exists e, first_raise b log cs e /\ r = Some (exn_str e)).

(** The calls of a list made one after the other, the answers collected;
    the straight-line parts of the operations are instances of it. *)
Fixpoint perform_all (b : behaviour) (cs : list call) : M (list string) :=
  match cs with
  | [] => ret []
  | c :: cs' =>
      v <~ perform b c;
      vs <~ perform_all b cs';
      ret (v :: vs)
  end.

(** *** Sample machines *)

Definition lines (ls : list string) : string :=
  fold_right (fun l acc => l +:+ LF +:+ acc) "" ls.

(** A host with one statically configured interface. *)
Definition office : host :=
  mkHost
    (Ok (lines
      ["Kernel IP routing table";
       "Destination     Gateway         Genmask         Flags Metric Ref    Use Iface";
       "0.0.0.0   192.168.1.1   0.0.0.0   UG    0   0   0   eth0";
       "192.168.1.0     0.0.0.0         255.255.255.0   U     0      0        0 eth0"]))
    (Ok (<["eth0" := lines ["auto eth0";
                            "iface eth0 inet static";
                            "    address 192.168.1.2";
                            "    netmask 255.255.255.0";
                            "    gateway 192.168.1.1";
                            "    dns-nameservers 8.8.8.8"]]> ∅))
    (<[rundir := ["eth0.dhclient"; "eth0.inet"]]> ∅)
    (<["/etc/resolv.conf" := lines ["nameserver 1.1.1.1"]]>
       (<["/etc/resolvconf/run/interface/eth0.dhclient" :=
            lines ["nameserver 9.9.9.9"]]> ∅)).

(** A host whose interface is configured by DHCP and that has no
    [/etc/resolv.conf]. *)
Definition no_resolv_conf : host :=
  mkHost (Ok "")
    (Ok (<["eth0" := lines ["auto eth0"; "iface eth0 inet dhcp"]]> ∅))
    ∅ ∅.

(** A host whose default route leaves through a VLAN of [eth0]. *)
Definition vlan_table : string :=
  lines
    ["Kernel IP routing table";
     "Destination     Gateway         Genmask         Flags Metric Ref    Use Iface";
     "0.0.0.0         10.0.0.1        0.0.0.0         UG    0      0        0 eth0.100";
     "10.0.0.0        0.0.0.0         255.255.255.0   U     0      0        0 eth0.100";
     "192.168.1.0     0.0.0.0         255.255.255.0   U     0      0        0 eth0"].

Definition vlan_host : host := mkHost (Ok vlan_table) (Ok ∅) ∅ ∅.

(** An entry of the interfaces file with a line between [auto] and
    [iface]. *)
Definition hotplug_host : host :=
  mkHost (Ok "")
    (Ok (<["eth0" := lines ["auto eth0"; "allow-hotplug eth0";
                            "iface eth0 inet dhcp"]]> ∅))
    ∅ ∅.

(** A command runner interrupted from the keyboard while [ifdown] runs. *)
Definition interrupted : behaviour :=
  fun log c =>
    match c with
    | Getoutput "ifdown" _ => Raise (mkExn KeyboardInterrupt "")
    | _ => Ok ""
    end.

(** A machine on which every call returns and prints nothing. *)
Definition quiet : behaviour := fun _ _ => Ok "".

(** A machine on which every command succeeds and [ifup] prints the
    transcript of the DHCP client; the interface has no address when
    [leased] is false. *)
Definition dhcp_machine (leased : bool) : behaviour :=
  fun log c =>
    match c with
    | Getoutput "ifup" _ => Ok "DHCPDISCOVER on eth0"
    | Ioctl _ _ =>
        if leased
        then Ok (string_of_list_ascii
                   (repeat (ascii_of_nat 0) 20
                    ++ map ascii_of_nat [192; 168; 1; 7]%nat
                    ++ repeat (ascii_of_nat 0) 8))
        else Raise (mkExn IOError
                      "[Errno 99] Cannot assign requested address")
    | _ => Ok ""
    end.


(** *** The remaining queries *)

(** [Netconf.ATTRIBS.ADDRS] *)
Definition ADDRS : gmap string Z :=
  <["addr" := SIOCGIFADDR]>
    (<["netmask" := SIOCGIFNETMASK]> (<["brdaddr" := SIOCGIFBRDADDR]> ∅)).

(** The gateway and the nameserver queries as an attribute access runs
    them, their calls to the collaborators entering the log: the command
    runner is asked for [route -n] and its answer scanned as in
    [get_gateway]; the configuration store is opened with
    [conffiles.Interfaces()], and what it and the files hold is read from
    the host as in [get_nameserver]. *)
Module Logged.

Definition get_gateway (b : behaviour) (ifname : string)
    : M (option string) :=
  r <~ mtry (output <~ perform b (Getoutput "route -n" []);
             ret (Some output))
            ExecError (fun _ => ret None);
  match r with
  | None => ret None
  | Some output => lift (gateway_scan ifname (splitlines output))
  end.

Definition get_nameserver (b : behaviour) (h : host) (ifname : string)
    : M (option string) :=
  _ <~ perform b Interfaces_new;
  lift (get_nameserver h ifname).

End Logged.

(** [Netconf(ifname).__getattr__(attrname)]: the addresses through
    [_get_addr], the gateway and the nameserver through their queries;
    for any other name the method falls off its end and returns None. *)
Definition __getattr__ (b : behaviour) (h : host) (ifname attrname : string)
    : M (option string) :=
  match ADDRS !! attrname with
  | Some request => _get_addr b ifname request
  | None =>
      if String.eqb attrname "gateway" then Logged.get_gateway b ifname
      else if String.eqb attrname "nameserver"
      then Logged.get_nameserver b h ifname
      else ret None
  end.

(** [get_ipconf(ifname)]: the tuple is evaluated from left to right. *)
Definition get_ipconf (b : behaviour) (h : host) (ifname : string)
    : M (option string * option string * option string * option string) :=
  addr <~ __getattr__ b h ifname "addr";
  netmask <~ __getattr__ b h ifname "netmask";
  gateway <~ __getattr__ b h ifname "gateway";
  nameserver <~ __getattr__ b h ifname "nameserver";
  ret (addr, netmask, gateway, nameserver).

Fixpoint split_sep_go (sep : ascii) (s cur : string) : list string :=
  match s with
  | EmptyString => [cur]
  | String c s' =>
      if Ascii.eqb c sep then cur :: split_sep_go sep s' ""
      else split_sep_go sep s' (snoc cur c)
  end.

(** [s.split(sep)] for a one-character separator. *)
Definition split_sep (sep : ascii) (s : string) : list string :=
  split_sep_go sep s "".

(** [a, b = items]: unpacking needs exactly two items. *)
Definition unpack2 {A} (items : list A) : result (A * A) :=
  match items with
  | [] => Raise (mkExn ValueError "need more than 0 values to unpack")
  | [_] => Raise (mkExn ValueError "need more than 1 value to unpack")
  | [a; b] => Ok (a, b)
  | _ => Raise (mkExn ValueError "too many values to unpack")
  end.

(** The loop of [get_ifnames] over the lines of [/proc/net/dev]. *)
Fixpoint ifnames_scan (lines : list string) (ifnames : list string)
    : result (list string) :=
  match lines with
  | [] => Ok ifnames
  | line :: rest =>
      bind (try_except
              (bind (unpack2 (split_sep ":" (strip line))) (fun p =>
               Ok (ifnames ++ [fst p])))
              ValueError (fun _ => Ok ifnames))
           (ifnames_scan rest)
  end.

(** [get_ifnames()] *)
Definition get_ifnames (h : host) : result (list string) :=
  bind (file_readlines h "/proc/net/dev") (fun lines =>
  ifnames_scan lines []).

(** The inner loop of [get_connections] over the rows of one table. *)
Fixpoint connections_scan (proto : string) (lines : list string)
    (connections : list Connection) : result (list Connection) :=
  match lines with
  | [] => Ok connections
  | line :: rest =>
      bind (Connection_init proto (split line)) (fun conn =>
      connections_scan proto rest (connections ++ [conn]))
  end.

(** The outer loop, over the tables; [readlines()[1:]] drops the header
    line of a table. *)
Fixpoint tables_scan (h : host) (protos : list string)
    (connections : list Connection) : result (list Connection) :=
  match protos with
  | [] => Ok connections
  | proto :: rest =>
      bind (file_readlines h ("/proc/net/" +:+ proto)) (fun lines =>
      bind (connections_scan proto (drop 1 lines) connections)
        (tables_scan h rest))
  end.

(** [get_connections()] *)
Definition get_connections (h : host) : result (list Connection) :=
  tables_scan h ["tcp"; "tcp6"; "udp"] [].

(** *** Notions the properties of the queries are stated with *)

(** The calls of [set_dhcp] with those of its address query. *)
Definition dhcp_all_calls (ifname : string) : list call :=
  dhcp_calls ifname ++ [Socket_new; Ioctl SIOCGIFADDR (ifreq ifname)].

(** The first calls of [get_ipconf]: the address, then the netmask. *)
Definition ipconf_calls (ifname : string) : list call :=
  [Socket_new; Ioctl SIOCGIFADDR (ifreq ifname);
   Socket_new; Ioctl SIOCGIFNETMASK (ifreq ifname)].

(** The call of the gateway query. *)
Definition route_call : call := Getoutput "route -n" [].

(** A resolver file whose first line starting with [nameserver] names
    [ns]. *)
Definition first_nameserver (content ns : string) : Prop :=
  exists before line after,
    readlines content = before ++ line :: after
    /\ Forall (fun l => startswith l "nameserver" = false) before
    /\ startswith line "nameserver" = true
    /\ split (strip line) !! 1%nat = Some ns.

(** A resolver file without a line starting with [nameserver]. *)
Definition no_nameserver (content : string) : Prop :=
  Forall (fun l => startswith l "nameserver" = false) (readlines content).

(** An entry of the run directory that gives no nameserver: it is not a
    candidate, or its file has no [nameserver] line. *)
Definition holds_nothing (h : host) (ifname f : string) : Prop :=
  candidate ifname f = false
  \/ exists content,
       h_files h !! path_join rundir f = Some content
       /\ no_nameserver content.

(** The nameserver as the documented precedence gives it, an absent
    source passed over: the static entry of the interface, then the
    resolver files of the interface in the run directory, then the
    fallback file.  Stated from the documentation of the query, to
    compare [get_nameserver] with. *)
Fixpoint first_argument (keyword : string) (lines : list string)
    : option string :=
  match lines with
  | [] => None
  | line :: rest =>
      if startswith (strip line) keyword
      then split (strip line) !! 1%nat
      else first_argument keyword rest
  end.

Definition resolver_file (h : host) (path : string) : option string :=
  match h_files h !! path with
  | Some content => first_argument "nameserver" (readlines content)
  | None => None
  end.

Fixpoint first_found {A B} (f : A -> option B) (l : list A) : option B :=
  match l with
  | [] => None
  | x :: rest =>
      match f x with
      | Some y => Some y
      | None => first_found f rest
      end
  end.

Definition nameserver_by_precedence (h : host) (ifname : string)
    : option string :=
  let static :=
    match h_interfaces h with
    | Ok conf =>
        match conf !! ifname with
        | Some text => first_argument "dns-nameservers" (splitlines text)
        | None => None
        end
    | Raise _ => None
    end in
  let dynamic :=
    first_found (fun f => resolver_file h (path_join rundir f))
      (filter (fun f => candidate ifname f = true)
              (default [] (h_dirs h !! rundir))) in
  match static, dynamic with
  | Some ns, _ => Some ns
  | None, Some ns => Some ns
  | None, None => resolver_file h "/etc/resolv.conf"
  end.

(** The text of four bytes in decimal, joined with dots. *)
Definition dotted (a0 a1 a2 a3 : ascii) : string :=
  join "." (map (fun c => str (Socket.byte_val c)) [a0; a1; a2; a3]).

(** What [str] prints for the byte [v] is a component [is_ipaddr]
    accepts: digits the pattern takes, and a numeral as C reads it. *)
Definition byte_text (v : Z) : bool :=
  Re.all_digits (str v) && Re.octet_shape (str v) && c_numeral (str v).

(** White space only, possibly none. *)
Definition spaces (s : string) : bool :=
  forallb isspace (list_ascii_of_string s).

(** A text without white space. *)
Definition no_space (s : string) : bool :=
  forallb (fun c => negb (isspace c)) (list_ascii_of_string s).

(** White space, at least one character of it. *)
Definition blank (s : string) : bool := negb (is_empty s) && spaces s.

(** A word: at least one character, none of them white space. *)
Definition word (s : string) : bool := negb (is_empty s) && no_space s.

(** A row of the routing table for the default route: the destination
    [0.0.0.0], the gateway, further columns, then the interface name;
    the columns are separated by white space. *)
Definition default_row (row ifname gw : string) : Prop :=
  exists ws1 ws2 mid ws3 tail,
    row = "0.0.0.0" +:+ ws1 +:+ gw +:+ ws2 +:+ mid +:+ ws3 +:+ ifname
          +:+ tail
    /\ blank ws1 = true /\ word gw = true /\ blank ws2 = true
    /\ Re.one_line mid = true /\ blank ws3 = true.

(** The number of colons of a text. *)
Definition colons (s : string) : nat :=
  length (filter (fun c => Ascii.eqb c ":" = true) (list_ascii_of_string s)).

(** A row of [/proc/net/dev] for the interface [name]: padding, the name,
    a colon and the counters. *)
Definition dev_row (line name : string) : Prop :=
  exists pad stats,
    line = pad +:+ name +:+ ":" +:+ stats
    /\ spaces pad = true /\ lstrip name = name
    /\ colons name = 0%nat /\ colons stats = 0%nat.

(** The lines of [/proc/net/dev] and the names they give: a line that
    does not have exactly one colon gives none. *)
Inductive dev_lines : list string -> list string -> Prop :=
| dev_end : dev_lines [] []
| dev_skip line rest names :
    colons line <> 1%nat -> dev_lines rest names ->
    dev_lines (line :: rest) names
| dev_name line name rest names :
    dev_row line name -> dev_lines rest names ->
    dev_lines (line :: rest) (name :: names).

(** The four values [_map_status] gives. *)
Definition statuses : list string :=
  ["ESTABLISHED"; "LISTENING"; "WAITING"; "UNKNOWN"].

(** The rows of a table, its header line dropped, and the connections
    they decode to. *)
Definition decoded (proto content : string) (conns : list Connection)
    : Prop :=
  Forall2 (fun line conn => Connection_init proto (split line) = Ok conn)
          (drop 1 (readlines content)) conns.

(** What the pattern of [get_gateway] compiles to for an interface name
    of plain characters. *)
Definition gateway_re (ifname : string) : Re.re :=
  Re.Seq Re.Bol
    (Re.lits "0"
       (Re.Seq Re.Any
          (Re.lits "0"
             (Re.Seq Re.Any
                (Re.lits "0"
                   (Re.Seq Re.Any
                      (Re.lits "0"
                         (Re.Seq (Re.Rep 1 None true Re.space_set)
                            (Re.Seq
                               (Re.Group 1
                                  (Re.Seq (Re.Rep 0 None false Re.Any)
                                     Re.Eps))
                               (Re.Seq (Re.Rep 1 None true Re.space_set)
                                  (Re.Seq
                                     (Re.Group 2
                                        (Re.Seq (Re.Rep 0 None true Re.Any)
                                           Re.Eps))
                                     (Re.Seq
                                        (Re.Rep 1 None true Re.space_set)
                                        (Re.lits ifname Re.Eps))))))))))))).

(** The groups a pattern can set. *)
Fixpoint groups_of (r : Re.re) : list nat :=
  match r with
  | Re.Seq r1 r2 | Re.Alt r1 r2 => groups_of r1 ++ groups_of r2
  | Re.Rep _ _ _ r1 => groups_of r1
  | Re.Group n r1 => n :: groups_of r1
  | _ => []
  end.

(** A machine with its [/proc] tables. *)
Definition proc_host : host :=
  mkHost (Ok "") (Ok ∅) ∅
    (<["/proc/net/dev" :=
         lines ["Inter-|   Receive                |  Transmit";
                " face |bytes    packets errs drop|bytes    packets errs drop";
                "    lo:    1500      12    0    0     1500      12    0    0";
                "  eth0: 7654321    9876    0    0   123456    5432    0    0"]]>
       (<["/proc/net/tcp" :=
            lines ["  sl  local_address rem_address   st";
                   "   0: 0100007F:0050 00000000:0000 0A";
                   "   1: 0201A8C0:0016 0301A8C0:C5A4 01"]]>
          (<["/proc/net/tcp6" :=
               lines ["  sl  local_address rem_address   st"]]>
             (<["/proc/net/udp" :=
                  lines ["  sl  local_address rem_address   st";
                         "   5: 00000000:0044 00000000:0000 07"]]> ∅)))).

(** A machine without a default route. *)
Definition lan_host : host :=
  mkHost
    (Ok (lines
      ["Kernel IP routing table";
       "Destination     Gateway         Genmask         Flags Metric Ref    Use Iface";
       "192.168.1.0     0.0.0.0         255.255.255.0   U     0      0        0 eth0"]))
    (Ok ∅) ∅ ∅.

(** An entry whose [dns-nameservers] line has no value. *)
Definition no_value_host : host :=
  mkHost (Ok "")
    (Ok (<["eth0" := lines ["auto eth0"; "iface eth0 inet static";
                            "    dns-nameservers"]]> ∅))
    ∅ ∅.

(** A machine configured by DHCP: the store has an entry for [eth0]
    only; the run directory holds resolver files for [eth0] and
    [eth1]. *)
Definition dhcp_host : host :=
  mkHost (Ok "")
    (Ok (<["eth0" := lines ["auto eth0"; "iface eth0 inet dhcp"]]> ∅))
    (<[rundir := ["eth0.inet"; "eth1.dhclient"; "eth0.dhclient"]]> ∅)
    (<["/etc/resolv.conf" := lines ["nameserver 1.1.1.1"]]>
       (<["/etc/resolvconf/run/interface/eth0.inet" :=
            lines ["nameserver 5.5.5.5"]]>
          (<["/etc/resolvconf/run/interface/eth1.dhclient" :=
               lines ["nameserver 7.7.7.7"]]>
             (<["/etc/resolvconf/run/interface/eth0.dhclient" :=
                  lines ["# Generated by dhclient";
                         "nameserver 9.9.9.9";
                         "nameserver 9.9.9.10"]]> ∅)))).

(** A machine without the run directory: only the fallback file names a
    nameserver. *)
Definition fallback_host : host :=
  mkHost (Ok "")
    (Ok (<["eth0" := lines ["auto eth0"; "iface eth0 inet dhcp"]]> ∅))
    ∅
    (<["/etc/resolv.conf" := lines ["search example.org";
                                    "nameserver 1.1.1.1"]]> ∅).

(** The collaborators of a host on which no interface has an address:
    [route -n] prints the routing table of the host, the socket opens,
    every [ioctl] fails and every other call returns. *)
Definition no_address_machine (h : host) : behaviour :=
  fun log c =>
    match c with
    | Getoutput "route -n" [] => h_route h
    | Ioctl _ _ =>
        Raise (mkExn IOError "[Errno 99] Cannot assign requested address")
    | _ => Ok ""
    end.

(** The same with addresses: every [ioctl] answers [192.168.1.7]. *)
Definition address_machine (h : host) : behaviour :=
  fun log c =>
    match c with
    | Getoutput "route -n" [] => h_route h
    | Ioctl _ _ =>
        Ok (string_of_list_ascii
              (repeat (ascii_of_nat 0) 20
               ++ map ascii_of_nat [192; 168; 1; 7]%nat
               ++ repeat (ascii_of_nat 0) 8))
    | _ => Ok ""
    end.

(** * Properties *)

(** ** Exceptions and the call log *)

Lemma answer_cons (b : behaviour) (log : list call) c cs i :
  answer b log (c :: cs) (S i) = answer b (log ++ [c]) cs i.
Proof.
  unfold answer. cbn. destruct (cs !! i); [|reflexivity].
  rewrite <- app_assoc. reflexivity.
Qed.

Lemma answer_0 (b : behaviour) (log : list call) c cs :
  answer b log (c :: cs) 0 = Some (b log c).
Proof. unfold answer. cbn. rewrite app_nil_r. reflexivity. Qed.

Lemma perform_all_cons (b : behaviour) c cs log :
  perform_all b (c :: cs) log =
    match b log c with
    | Ok v =>
        match perform_all b cs (log ++ [c]) with
        | (Ok vs, log') => (Ok (v :: vs), log')
        | (Raise e, log') => (Raise e, log')
        end
    | Raise e => (Raise e, log ++ [c])
    end.
Proof.
  cbn. unfold and_then, perform. destruct (b log c); [|reflexivity].
  destruct (perform_all b cs (log ++ [c])) as [[vs|e] log']; reflexivity.
Qed.

(** A straight-line run of calls either makes them all, each returning, or
    stops at the first call that raises: the log then ends with that call
    and the exception is the one the call raised. *)
Lemma perform_all_spec (b : behaviour) (cs : list call) :
  forall log,
    (exists vs, perform_all b cs log = (Ok vs, log ++ cs) /\
       forall i, (i < length cs)%nat ->
         exists v, answer b log cs i = Some (Ok v) /\ vs !! i = Some v)
    \/ (exists n e, (n < length cs)%nat /\
          perform_all b cs log = (Raise e, log ++ take (S n) cs) /\
          answer b log cs n = Some (Raise e) /\
          forall i, (i < n)%nat -> exists v, answer b log cs i = Some (Ok v)).
Proof.
  induction cs as [|c cs IH]; intros log.
  - left. exists []. cbn. rewrite app_nil_r. split; [reflexivity|].
    intros i Hi. lia.
  - rewrite perform_all_cons.
    destruct (b log c) as [v|e] eqn:Ec.
    + destruct (IH (log ++ [c]))
        as [(vs & Hrun & Hall)|(n & e & Hn & Hrun & Hn' & Hlt)].
      * left. exists (v :: vs). rewrite Hrun.
        rewrite <- app_assoc. split; [reflexivity|].
        intros [|i] Hi.
        -- exists v. rewrite answer_0, Ec. split; reflexivity.
        -- rewrite answer_cons. apply Hall. simpl in Hi. lia.
      * right. exists (S n), e. rewrite Hrun.
        rewrite <- app_assoc. split; [simpl; lia|]. split; [reflexivity|].
        rewrite answer_cons. split; [assumption|].
        intros [|i] Hi.
        -- exists v. rewrite answer_0, Ec. reflexivity.
        -- rewrite answer_cons. apply Hlt. lia.
    + right. exists 0%nat, e. split; [simpl; lia|]. split; [reflexivity|].
      rewrite answer_0, Ec. split; [reflexivity|]. intros i Hi. lia.
Qed.

Ltac next_call b :=
  match goal with
  | |- context [b ?l ?c] => destruct (b l c); cbn; try reflexivity
  end.

Lemma unconfigure_if_unfold (b : behaviour) (ifname : string) log :
  unconfigure_if b ifname log =
    mtry (_ <~ perform_all b (unconfigure_calls ifname); ret None)
         Exception (fun e => ret (Some (exn_str e))) log.
Proof.
  unfold unconfigure_if, unconfigure_calls, ifdown, ifup.
  cbn [perform_all]. unfold mtry, and_then, perform, ret.
  repeat next_call b.
Qed.

(** ** Unconfigure: order of the steps, abort without rollback *)

(** C8.  [unconfigure_if] makes a prefix of its five calls, in program
    order and nothing else: every call before the last one made returned,
    and either all five were made and returned (the result is None), or the
    last call made raised and nothing follows it in the log; what earlier
    calls did stays in the log, no compensating call is made. *)
Theorem unconfigure_if_steps (b : behaviour) (ifname : string)
    (log : list call) :
  let cs := unconfigure_calls ifname in
  let out := unconfigure_if b ifname log in
  exists n : nat,
    (1 <= n <= 5)%nat /\
    snd out = log ++ take n cs /\
    (forall i, (S i < n)%nat -> exists v, answer b log cs i = Some (Ok v)) /\
    ((n = 5%nat /\ (exists v, answer b log cs 4 = Some (Ok v)) /\
      fst out = Ok None)
     \/ (exists e, answer b log cs (n - 1) = Some (Raise e) /\
           fst out = if isinstance e Exception
                     then Ok (Some (exn_str e)) else Raise e)).
Proof.
  cbv zeta. rewrite unconfigure_if_unfold.
  destruct (perform_all_spec b (unconfigure_calls ifname) log)
    as [(vs & Hrun & Hall)|(n & e & Hn & Hrun & Hn' & Hlt)].
  - exists 5%nat. unfold mtry, and_then. rewrite Hrun. cbn.
    split; [lia|]. split; [reflexivity|].
    split; [intros i Hi; destruct (Hall i) as (v & Hv & _); [cbn; lia|eauto]|].
    left. split; [reflexivity|]. split; [|reflexivity].
    destruct (Hall 4%nat) as (v & Hv & _); [cbn; lia|eauto].
  - exists (S n). unfold mtry, and_then. rewrite Hrun.
    cbn in Hn. split; [lia|].
    split; [destruct (isinstance e Exception); reflexivity|].
    split; [intros i Hi; apply Hlt; lia|].
    right. exists e. replace (S n - 1)%nat with n by lia.
    split; [assumption|]. destruct (isinstance e Exception); reflexivity.
Qed.

Lemma set_static_unfold (b : behaviour)
    (ifname addr netmask gateway nameserver : string) log :
  set_static b ifname addr netmask gateway nameserver log =
    mtry (_ <~ perform_all b
                 (static_calls ifname addr netmask gateway nameserver);
          ret None)
         Exception (fun e => ret (Some (exn_str e))) log.
Proof.
  unfold set_static, static_calls, ifdown, ifup.
  cbn [perform_all]. unfold mtry, and_then, perform, ret.
  repeat next_call b.
Qed.

Lemma set_dhcp_unfold (b : behaviour) (ifname : string) log :
  set_dhcp b ifname log =
    mtry (outs <~ perform_all b (dhcp_calls ifname);
          addr <~ Netconf_addr b ifname;
          if negb (truthy addr)
          then raise (mkExn Error (no_address (default "" (outs !! 3%nat))))
          else ret None)
         Exception (fun e => ret (Some (exn_str e))) log.
Proof.
  unfold set_dhcp, dhcp_calls, ifdown, ifup.
  cbn [perform_all]. unfold mtry, and_then, perform, ret.
  repeat next_call b.
Qed.

(** [str] never returns the empty string, so neither does [inet_ntoa]. *)
Lemma str_pos_nonempty (fuel : nat) (n : Z) (acc : string) :
  is_empty acc = false -> is_empty (str_pos fuel n acc) = false.
Proof.
  revert n acc. induction fuel as [|fuel IH]; intros n acc Hacc; cbn.
  - assumption.
  - destruct (n <? 10); [reflexivity|]. apply IH. reflexivity.
Qed.

Lemma str_nonempty (n : Z) : is_empty (str n) = false.
Proof.
  unfold str. destruct (n <? 0); [reflexivity|].
  cbn [str_pos]. destruct (n <? 10); [reflexivity|].
  apply str_pos_nonempty. reflexivity.
Qed.

Lemma is_empty_app_l (s t : string) :
  is_empty s = false -> is_empty (s +:+ t) = false.
Proof. destruct s; [discriminate|reflexivity]. Qed.

Lemma inet_ntoa_nonempty (packed a : string) :
  Socket.inet_ntoa packed = Ok a -> is_empty a = false.
Proof.
  unfold Socket.inet_ntoa.
  destruct (list_ascii_of_string packed) as [|c1 [|c2 [|c3 [|c4 [|c5 l]]]]];
    try discriminate.
  intros [= <-]. cbn [map join]. apply is_empty_app_l, str_nonempty.
Qed.

Lemma Netconf_addr_truthy (b : behaviour) ifname log a log' :
  Netconf_addr b ifname log = (Ok (Some a), log') ->
  truthy (Some a) = true.
Proof.
  unfold Netconf_addr, _get_addr, and_then, mtry, perform, ret, lift.
  destruct (b log Socket_new) as [v|e].
  - destruct (b (log ++ [Socket_new]) (Ioctl SIOCGIFADDR (ifreq ifname)))
      as [v'|e'].
    + destruct (Socket.inet_ntoa (slice v' 20 24)) as [x|e''] eqn:Hn;
        [|discriminate].
      intros [= <- _]. cbn. rewrite (inet_ntoa_nonempty _ _ Hn). reflexivity.
    + destruct (isinstance e' IOError); discriminate.
  - destruct (isinstance e IOError); discriminate.
Qed.

(** The address query raises what a call raised, unless the class is
    [IOError], or the [socket.error] of [inet_ntoa]. *)
Lemma Netconf_addr_raises (b : behaviour) ifname log e log' :
  only_exceptions b ->
  Netconf_addr b ifname log = (Raise e, log') ->
  isinstance e Exception = true.
Proof.
  intros Hb.
  unfold Netconf_addr, _get_addr, and_then, mtry, perform, ret, lift.
  destruct (b log Socket_new) as [v|e1] eqn:E1.
  - destruct (b (log ++ [Socket_new]) (Ioctl SIOCGIFADDR (ifreq ifname)))
      as [v'|e2] eqn:E2.
    + unfold Socket.inet_ntoa.
      destruct (list_ascii_of_string (slice v' 20 24))
        as [|c1 [|c2 [|c3 [|c4 [|c5 l]]]]]; try discriminate;
        intros [= <- _]; reflexivity.
    + destruct (isinstance e2 IOError); [discriminate|].
      intros [= <- _]. eapply Hb, E2.
  - destruct (isinstance e1 IOError); [discriminate|].
    intros [= <- _]. eapply Hb, E1.
Qed.

(** ** Set-dhcp: the address is checked after the interface is up *)

(** C3.  When the four calls of [set_dhcp] return, [out] being what [ifup]
    printed, the address of the interface is queried next, on the log the
    four calls leave, and nothing is called after the query.  If the query
    finds no address the result is a non-empty message that ends with
    [out]; if it finds one the result is None. *)
Theorem set_dhcp_checks_address (b : behaviour) (ifname : string)
    (log : list call) (out : string) :
  all_return b log (dhcp_calls ifname) ->
  answer b log (dhcp_calls ifname) 3 = Some (Ok out) ->
  let query := Netconf_addr b ifname (log ++ dhcp_calls ifname) in
  snd (set_dhcp b ifname log) = snd query /\
  (fst query = Ok None ->
     fst (set_dhcp b ifname log) = Ok (Some (no_address out)) /\
     is_empty (no_address out) = false /\
     exists text, no_address out = text +:+ out) /\
  (forall a, fst query = Ok (Some a) ->
     fst (set_dhcp b ifname log) = Ok None).
Proof.
  intros Hall Hout query. rewrite set_dhcp_unfold.
  destruct (perform_all_spec b (dhcp_calls ifname) log)
    as [(vs & Hrun & Hvs)|(n & e & Hn & _ & Hraise & _)].
  2:{ destruct (Hall n Hn) as (v & Hv). congruence. }
  destruct (Hvs 3%nat) as (v & Hv & Hv3); [cbn; lia|].
  assert (v = out) as -> by congruence.
  unfold mtry, and_then. rewrite Hrun. fold query. rewrite Hv3. cbn [default].
  destruct query as [[[a|]|e] log'] eqn:Hq; cbn [fst snd].
  - rewrite (Netconf_addr_truthy _ _ _ _ _ Hq). cbn.
    split; [reflexivity|]. split; [discriminate|]. intros a' [= <-].
    reflexivity.
  - cbn. split; [reflexivity|]. split; [|discriminate]. intros _.
    split; [reflexivity|]. split; [reflexivity|].
    exists ("Error obtaining IP address" +:+ LF +:+ LF). reflexivity.
  - split; [destruct (isinstance e Exception); reflexivity|].
    split; [discriminate|]. intros a [=].
Qed.

Lemma set_dhcp_checks_address_witness :
  fst (set_dhcp (dhcp_machine false) "eth0" [])
    = Ok (Some (no_address "DHCPDISCOVER on eth0")) /\
  fst (set_dhcp (dhcp_machine true) "eth0" []) = Ok None.
Proof.
  split.
  - refine (proj1 (proj1 (proj2
      (set_dhcp_checks_address (dhcp_machine false) "eth0" []
         "DHCPDISCOVER on eth0" _ _)) _)).
    + intros i Hi. unfold answer.
      destruct i as [|[|[|[|i]]]]; cbn in Hi |- *; eauto; lia.
    + reflexivity.
    + reflexivity.
  - refine (proj2 (proj2
      (set_dhcp_checks_address (dhcp_machine true) "eth0" []
         "DHCPDISCOVER on eth0" _ _)) "192.168.1.7" _).
    + intros i Hi. unfold answer.
      destruct i as [|[|[|[|i]]]]; cbn in Hi |- *; eauto; lia.
    + reflexivity.
    + reflexivity.
Defined.

Lemma first_raise_exception (b : behaviour) log cs e :
  only_exceptions b -> first_raise b log cs e ->
  isinstance e Exception = true.
Proof.
  intros Hb (n & Hn & _). unfold answer in Hn.
  destruct (cs !! n); [|discriminate]. injection Hn as Hn. eapply Hb, Hn.
Qed.

Lemma perform_all_cases (b : behaviour) (cs : list call) log :
  (exists vs, perform_all b cs log = (Ok vs, log ++ cs) /\
     all_return b log cs /\
     forall i v, answer b log cs i = Some (Ok v) -> vs !! i = Some v)
  \/ (exists e log', perform_all b cs log = (Raise e, log') /\
        first_raise b log cs e).
Proof.
  destruct (perform_all_spec b cs log)
    as [(vs & Hrun & Hvs)|(n & e & Hn & Hrun & Hraise & Hlt)].
  - left. exists vs. split; [assumption|]. split.
    + intros i Hi. destruct (Hvs i Hi) as (v & Hv & _). eauto.
    + intros i v Hv. assert (i < length cs)%nat as Hi.
      { unfold answer in Hv. destruct (cs !! i) eqn:E; [|discriminate].
        eapply lookup_lt_Some, E. }
      destruct (Hvs i Hi) as (v' & Hv' & Hl). congruence.
  - right. exists e, (log ++ take (S n) cs). split; [assumption|].
    exists n. split; assumption.
Qed.

Lemma straight_line_reports (b : behaviour) (cs : list call) log :
  only_exceptions b ->
  exists r,
    fst (mtry (_ <~ perform_all b cs; ret None) Exception
              (fun e => ret (Some (exn_str e))) log) = Ok r /\
    reports b log cs r.
Proof.
  intros Hb. unfold mtry, and_then, ret.
  destruct (perform_all_cases b cs log)
    as [(vs & -> & Hall & _)|(e & log' & -> & Hraise)].
  - exists None. split; [reflexivity|]. left. split; [assumption|reflexivity].
  - rewrite (first_raise_exception _ _ _ _ Hb Hraise).
    exists (Some (exn_str e)). split; [reflexivity|]. right. eauto.
Qed.

(** ** The mutating operations report instead of raising *)

(** C2 fails as stated: the handlers are [except Exception], which lets
    an exception outside that class through, such as the KeyboardInterrupt
    of a command interrupted from the keyboard. *)
Lemma mutating_ops_may_raise :
  ~ (forall (b : behaviour) (ifname : string) (log : list call),
       exists r, fst (unconfigure_if b ifname log) = Ok r).
Proof.
  intros H. destruct (H interrupted "eth0" []) as [r Hr]. discriminate Hr.
Qed.

(** C2, amended.  When the collaborators raise instances of [Exception]
    only, none of the three operations raises.  [unconfigure_if] and
    [set_static] return None when all their calls return and the text of
    the exception of the first call that raises otherwise.  So does
    [set_dhcp] for its four calls; when they all return it reports the
    text of what the address query raised, the no-address message with the
    output of [ifup] when the query found no address, and None when it
    found one. *)
Theorem mutating_ops_report (b : behaviour)
    (ifname addr netmask gateway nameserver : string) (log : list call) :
  only_exceptions b ->
  (exists r, fst (unconfigure_if b ifname log) = Ok r /\
     reports b log (unconfigure_calls ifname) r) /\
  (exists r,
     fst (set_static b ifname addr netmask gateway nameserver log) = Ok r /\
     reports b log (static_calls ifname addr netmask gateway nameserver) r) /\
  (exists r, fst (set_dhcp b ifname log) = Ok r /\
     ((exists e, first_raise b log (dhcp_calls ifname) e /\
                 r = Some (exn_str e))
      \/ (all_return b log (dhcp_calls ifname) /\
          match fst (Netconf_addr b ifname (log ++ dhcp_calls ifname)) with
          | Raise e => r = Some (exn_str e)
          | Ok None =>
              exists out,
                answer b log (dhcp_calls ifname) 3 = Some (Ok out) /\
                r = Some (no_address out)
          | Ok (Some _) => r = None
          end))).
Proof.
  intros Hb. split; [|split].
  - rewrite unconfigure_if_unfold. apply straight_line_reports, Hb.
  - rewrite set_static_unfold. apply straight_line_reports, Hb.
  - rewrite set_dhcp_unfold. unfold mtry, and_then.
    destruct (perform_all_cases b (dhcp_calls ifname) log)
      as [(vs & -> & Hall & Hvs)|(e & log' & -> & Hraise)].
    2:{ rewrite (first_raise_exception _ _ _ _ Hb Hraise).
        exists (Some (exn_str e)). split; [reflexivity|]. left. eauto. }
    destruct (Hall 3%nat) as (out & Hout); [cbn; lia|].
    rewrite (Hvs _ _ Hout). cbn [default].
    destruct (Netconf_addr b ifname (log ++ dhcp_calls ifname))
      as [[[a|]|e] log'] eqn:Hq; cbn [fst].
    + rewrite (Netconf_addr_truthy _ _ _ _ _ Hq). cbn.
      exists None. split; [reflexivity|]. right. split; [assumption|].
      reflexivity.
    + cbn. exists (Some (no_address out)). split; [reflexivity|]. right.
      split; [assumption|]. exists out. split; [assumption|reflexivity].
    + rewrite (Netconf_addr_raises _ _ _ _ _ Hb Hq).
      exists (Some (exn_str e)). split; [reflexivity|]. right.
      split; [assumption|reflexivity].
Qed.

Lemma only_exceptions_quiet : only_exceptions quiet.
Proof. intros log c e H. discriminate H. Qed.

Lemma mutating_ops_report_witness :
  fst (unconfigure_if quiet "eth0" []) = Ok None /\
  fst (set_static quiet "eth0" "192.168.1.2" "255.255.255.0" "192.168.1.1"
         "8.8.8.8" []) = Ok None /\
  exists r, fst (set_dhcp quiet "eth0" []) = Ok r.
Proof.
  pose proof (mutating_ops_report quiet "eth0" "192.168.1.2" "255.255.255.0"
                "192.168.1.1" "8.8.8.8" [] only_exceptions_quiet)
    as (_ & _ & (r & Hr & _)).
  split; [reflexivity|]. split; [reflexivity|]. exists r. exact Hr.
Defined.

(** ** Words and lines *)

Lemma split_go_nonempty (s cur : string) :
  Forall (fun w => is_empty w = false) (split_go s cur).
Proof.
  revert cur. induction s as [|c s IH]; intros cur; cbn.
  - destruct (is_empty cur) eqn:E; [constructor|].
    constructor; [assumption|constructor].
  - destruct (isspace c); [|apply IH].
    destruct (is_empty cur) eqn:E; [apply IH|].
    constructor; [assumption|apply IH].
Qed.

Lemma split_word_nonempty (s : string) (i : nat) (w : string) :
  split s !! i = Some w -> is_empty w = false.
Proof.
  intros H. pose proof (split_go_nonempty s "") as Hall.
  rewrite Forall_forall in Hall. apply Hall.
  eapply list_elem_of_lookup_2, H.
Qed.

Lemma getitem_Some {A} (l : list A) (i : nat) (x : A) :
  l !! i = Some x -> getitem l i = Ok x.
Proof. unfold getitem. intros ->. reflexivity. Qed.

(** ** Nameserver: static entry, then resolvconf, then resolv.conf *)

Section Nameserver.

Variable h : host.
Variable ifname : string.

Lemma static_scan_first (before : list string) line after ns :
  Forall no_directive before ->
  startswith (strip line) "dns-nameservers" = true ->
  split (strip line) !! 1%nat = Some ns ->
  static_scan (before ++ line :: after) = Ok (Some ns).
Proof.
  intros Hb Hl Hns. induction Hb as [|l before Hl' _ IH]; cbn.
  - rewrite Hl, (getitem_Some _ _ _ Hns). reflexivity.
  - rewrite Hl'. exact IH.
Qed.

Lemma static_scan_none (ls : list string) :
  Forall no_directive ls -> static_scan ls = Ok None.
Proof.
  intros H. induction H as [|l ls Hl _ IH]; cbn; [reflexivity|].
  rewrite Hl. exact IH.
Qed.

Lemma parse_resolv_truthy (path ns : string) :
  _parse_resolv h path = Ok (Some ns) -> truthy (Some ns) = true.
Proof.
  unfold _parse_resolv. destruct (file_readlines h path) as [ls|e];
    [cbn|discriminate].
  induction ls as [|l ls IH]; cbn; [discriminate|].
  destruct (startswith l "nameserver"); [|exact IH].
  unfold getitem. destruct (split (strip l) !! 1%nat) as [w|] eqn:E;
    [|discriminate].
  intros [= <-]. cbn. rewrite (split_word_nonempty _ _ _ E). reflexivity.
Qed.

Lemma resolvconf_scan_first (skipped : list string) f rest ns :
  Forall (yields_nothing h ifname) skipped ->
  candidate ifname f = true ->
  _parse_resolv h (path_join rundir f) = Ok (Some ns) ->
  resolvconf_scan h ifname rundir (skipped ++ f :: rest) = Ok (Some ns).
Proof.
  intros Hs Hf Hns. unfold candidate in Hf. apply negb_true_iff in Hf.
  induction Hs as [|g skipped Hg _ IH]; cbn.
  - rewrite Hf, Hns. cbn [bind]. rewrite (parse_resolv_truthy _ _ Hns).
    reflexivity.
  - destruct Hg as [Hg|Hg].
    + unfold candidate in Hg. apply negb_false_iff in Hg. rewrite Hg.
      exact IH.
    + destruct (negb (startswith g ifname) || endswith g ".inet");
        [exact IH|]. rewrite Hg. cbn. exact IH.
Qed.

Lemma resolvconf_scan_none (entries : list string) :
  Forall (yields_nothing h ifname) entries ->
  resolvconf_scan h ifname rundir entries = Ok None.
Proof.
  intros Hs. induction Hs as [|g entries Hg _ IH]; cbn; [reflexivity|].
  destruct Hg as [Hg|Hg].
  - unfold candidate in Hg. apply negb_false_iff in Hg. rewrite Hg.
    exact IH.
  - destruct (negb (startswith g ifname) || endswith g ".inet");
      [exact IH|]. rewrite Hg. cbn. exact IH.
Qed.

Lemma path_exists_dir (entries : list string) :
  h_dirs h !! rundir = Some entries -> path_exists h rundir = true.
Proof.
  intros H. unfold path_exists. rewrite H. reflexivity.
Qed.

Lemma parse_resolv_first (path content ns : string) :
  h_files h !! path = Some content -> first_nameserver content ns ->
  _parse_resolv h path = Ok (Some ns).
Proof using Type.
  intros Hfile (before & line & after & Hlines & Hbefore & Hline & Hns).
  unfold _parse_resolv, file_readlines. rewrite Hfile. cbn [bind].
  rewrite Hlines. clear Hlines.
  induction Hbefore as [|l before Hl _ IH]; cbn [app parse_resolv_lines].
  - rewrite Hline, (getitem_Some _ _ _ Hns). reflexivity.
  - rewrite Hl. exact IH.
Qed.

Lemma parse_resolv_none (path content : string) :
  h_files h !! path = Some content -> no_nameserver content ->
  _parse_resolv h path = Ok None.
Proof using Type.
  intros Hfile Hnone.
  unfold _parse_resolv, file_readlines. rewrite Hfile. cbn [bind].
  induction Hnone as [|l ls Hl _ IH]; cbn [parse_resolv_lines];
    [reflexivity|].
  rewrite Hl. exact IH.
Qed.

Lemma holds_yields (f : string) :
  holds_nothing h ifname f -> yields_nothing h ifname f.
Proof using Type.
  intros [Hc|(content & Hfile & Hnone)]; [left; exact Hc|right].
  apply (parse_resolv_none _ _ Hfile Hnone).
Qed.

(** X23.  For an interface with text in the configuration store:
    - the first line of the text that, stripped, starts with
      [dns-nameservers] decides: its second word is the answer, whatever
      the directories and files hold; so a line [dns-nameservers 8.8.8.8]
      answers [8.8.8.8];
    - without such a line, the first entry of the run directory that
      starts with the interface name, does not end with [.inet] and whose
      file has a line starting with [nameserver] decides: the answer is
      the second word of the first such line of that file;
    - without such an entry either (or without the directory), the answer
      is read the same way from [/etc/resolv.conf], and is None when that
      file has no line starting with [nameserver]. *)
Theorem get_nameserver_precedence (conf : gmap string string)
    (text : string) :
  h_interfaces h = Ok conf ->
  conf !! ifname = Some text ->
  (forall before line after ns,
     splitlines text = before ++ line :: after ->
     Forall no_directive before ->
     startswith (strip line) "dns-nameservers" = true ->
     split (strip line) !! 1%nat = Some ns ->
     get_nameserver h ifname = Ok (Some ns)) /\
  (forall before line after,
     splitlines text = before ++ line :: after ->
     Forall no_directive before ->
     strip line = "dns-nameservers 8.8.8.8" ->
     get_nameserver h ifname = Ok (Some "8.8.8.8")) /\
  (Forall no_directive (splitlines text) ->
   (forall entries skipped f rest content ns,
      h_dirs h !! rundir = Some entries ->
      entries = skipped ++ f :: rest ->
      Forall (holds_nothing h ifname) skipped ->
      candidate ifname f = true ->
      h_files h !! path_join rundir f = Some content ->
      first_nameserver content ns ->
      get_nameserver h ifname = Ok (Some ns)) /\
   (forall content,
      path_exists h rundir = false
      \/ (exists entries, h_dirs h !! rundir = Some entries
                          /\ Forall (holds_nothing h ifname) entries) ->
      h_files h !! "/etc/resolv.conf" = Some content ->
      (forall ns, first_nameserver content ns ->
                  get_nameserver h ifname = Ok (Some ns))
      /\ (no_nameserver content -> get_nameserver h ifname = Ok None))).
Proof using Type.
  intros Hconf Htext.
  assert (forall before line after ns,
     splitlines text = before ++ line :: after ->
     Forall no_directive before ->
     startswith (strip line) "dns-nameservers" = true ->
     split (strip line) !! 1%nat = Some ns ->
     get_nameserver h ifname = Ok (Some ns)) as Hstatic.
  { intros before line after ns Hlines Hb Hl Hns.
    unfold get_nameserver, dict_getitem. rewrite Hconf. cbn [bind].
    rewrite Htext. cbn [bind].
    rewrite Hlines, (static_scan_first _ _ _ _ Hb Hl Hns). reflexivity. }
  split; [exact Hstatic|]. split.
  { intros before line after Hlines Hb Hl.
    apply (Hstatic before line after "8.8.8.8" Hlines Hb);
      rewrite Hl; reflexivity. }
  intros Hnone. split.
  - intros entries skipped f rest content ns Hdir -> Hs Hf Hfile Hns.
    unfold get_nameserver, dict_getitem. rewrite Hconf. cbn [bind].
    rewrite Htext. cbn [bind]. rewrite (static_scan_none _ Hnone).
    cbn [bind]. rewrite (path_exists_dir _ Hdir). unfold listdir.
    rewrite Hdir. cbn [bind].
    rewrite (resolvconf_scan_first skipped f rest ns);
      [reflexivity| |exact Hf|exact (parse_resolv_first _ _ _ Hfile Hns)].
    eapply Forall_impl; [exact Hs|]. exact holds_yields.
  - intros content Hdyn Hfile.
    assert (forall r, _parse_resolv h "/etc/resolv.conf" = Ok r ->
              get_nameserver h ifname = Ok r) as Hfall.
    { intros r Hr.
      unfold get_nameserver, dict_getitem. rewrite Hconf. cbn [bind].
      rewrite Htext. cbn [bind]. rewrite (static_scan_none _ Hnone).
      cbn [bind].
      assert ((if path_exists h rundir
               then bind (listdir h rundir)
                      (resolvconf_scan h ifname rundir)
               else Ok None) = Ok None) as ->.
      { destruct Hdyn as [->|(entries & Hdir & Hs)]; [reflexivity|].
        rewrite (path_exists_dir _ Hdir). unfold listdir. rewrite Hdir.
        cbn [bind]. apply resolvconf_scan_none.
        eapply Forall_impl; [exact Hs|]. exact holds_yields. }
      cbn [bind]. rewrite Hr. cbn [bind].
      destruct r as [ns|]; [|reflexivity].
      rewrite (parse_resolv_truthy _ _ Hr). reflexivity. }
    split.
    + intros ns Hns. apply Hfall, (parse_resolv_first _ _ _ Hfile Hns).
    + intros Hno. apply Hfall, (parse_resolv_none _ _ Hfile Hno).
Qed.

End Nameserver.

Lemma get_nameserver_precedence_witness :
  get_nameserver office "eth0" = Ok (Some "8.8.8.8")
  /\ get_nameserver dhcp_host "eth0" = Ok (Some "9.9.9.9")
  /\ get_nameserver fallback_host "eth0" = Ok (Some "1.1.1.1").
Proof.
  split; [|split].
  - refine (proj1 (proj2 (get_nameserver_precedence office "eth0"
              (<["eth0" := lines ["auto eth0";
                                  "iface eth0 inet static";
                                  "    address 192.168.1.2";
                                  "    netmask 255.255.255.0";
                                  "    gateway 192.168.1.1";
                                  "    dns-nameservers 8.8.8.8"]]> ∅)
              _ _ _))
            ["auto eth0"; "iface eth0 inet static";
             "    address 192.168.1.2"; "    netmask 255.255.255.0";
             "    gateway 192.168.1.1"]
            "    dns-nameservers 8.8.8.8" [] _ _ _).
    + reflexivity.
    + reflexivity.
    + reflexivity.
    + repeat constructor.
    + reflexivity.
  - refine (proj1 (proj2 (proj2 (get_nameserver_precedence dhcp_host "eth0"
              (<["eth0" := lines ["auto eth0"; "iface eth0 inet dhcp"]]> ∅)
              _ eq_refl eq_refl)) _)
            ["eth0.inet"; "eth1.dhclient"; "eth0.dhclient"]
            ["eth0.inet"; "eth1.dhclient"] "eth0.dhclient" []
            (lines ["# Generated by dhclient"; "nameserver 9.9.9.9";
                    "nameserver 9.9.9.10"])
            "9.9.9.9" eq_refl eq_refl _ eq_refl eq_refl _).
    + vm_compute. repeat constructor.
    + repeat constructor; left; reflexivity.
    + exists ["# Generated by dhclient" +:+ LF],
        ("nameserver 9.9.9.9" +:+ LF), ["nameserver 9.9.9.10" +:+ LF].
      split; [reflexivity|]. split; [repeat constructor|].
      split; reflexivity.
  - refine (proj1 (proj2 (proj2 (proj2 (get_nameserver_precedence
              fallback_host "eth0"
              (<["eth0" := lines ["auto eth0"; "iface eth0 inet dhcp"]]> ∅)
              _ eq_refl eq_refl)) _)
            (lines ["search example.org"; "nameserver 1.1.1.1"])
            (or_introl eq_refl) eq_refl) "1.1.1.1" _).
    + vm_compute. repeat constructor.
    + exists ["search example.org" +:+ LF], ("nameserver 1.1.1.1" +:+ LF),
        []. split; [reflexivity|]. split; [repeat constructor|].
      split; reflexivity.
Defined.

(** ** Nameserver: an interface without an entry in the store *)

(** C1 at its failing input.  [get_nameserver] indexes the dictionary of
    the configuration store before anything else and without the
    [has_key] test of [get_ifmethod]: for an interface without an entry
    it raises KeyError, whatever the run directory and the fallback file
    hold, where the documented precedence passes on to them.  On
    [dhcp_host] the store has an entry for [eth0] only: for [eth0] the
    query and the documented precedence agree on the resolver file of the
    interface; for [eth1], whose resolver file names [7.7.7.7], the query
    raises. *)
Theorem get_nameserver_needs_entry :
  (forall (h : host) (conf : gmap string string) (ifname : string),
     h_interfaces h = Ok conf -> conf !! ifname = None ->
     get_nameserver h ifname = Raise (mkExn KeyError (repr ifname)))
  /\ get_nameserver dhcp_host "eth1" = Raise (mkExn KeyError "'eth1'")
  /\ nameserver_by_precedence dhcp_host "eth1" = Some "7.7.7.7"
  /\ get_nameserver dhcp_host "eth0" = Ok (Some "9.9.9.9")
  /\ nameserver_by_precedence dhcp_host "eth0" = Some "9.9.9.9".
Proof.
  split.
  - intros h conf ifname Hconf Hnone.
    unfold get_nameserver, dict_getitem. rewrite Hconf. cbn [bind].
    rewrite Hnone. reflexivity.
  - repeat split; vm_compute; reflexivity.
Qed.

(** ** Nameserver: what the query raises *)

(** C5 at its failing inputs.  [get_nameserver] indexes the dictionary of
    the configuration store without the [has_key] test of
    [get_ifmethod], and opens the resolver files without a handler: an
    interface without an entry raises KeyError, a missing
    [/etc/resolv.conf] raises IOError. *)
Theorem get_nameserver_raises :
  get_nameserver office "eth1" = Raise (mkExn KeyError "'eth1'") /\
  get_ifmethod office "eth1" = Ok None /\
  get_nameserver no_resolv_conf "eth0" =
    Raise (mkExn IOError
             "[Errno 2] No such file or directory: '/etc/resolv.conf'").
Proof. split; [|split]; vm_compute; reflexivity. Qed.

(** ** Gateway *)

(** The routing table of the documentation: [eth0] has the default route,
    [eth1] has none. *)
Lemma get_gateway_office :
  get_gateway office "eth0" = Ok (Some "192.168.1.1") /\
  get_gateway office "eth1" = Ok None.
Proof. split; vm_compute; reflexivity. Qed.

(** C4 at its failing input.  The pattern ends with the interface name
    and no anchor, so the name only has to start the last column: with the
    default route on [eth0.100], the query for [eth0] answers that route's
    gateway although no line of the table has [eth0] as its interface and
    [0.0.0.0] as its destination. *)
Theorem get_gateway_prefix_match :
  get_gateway vlan_host "eth0" = Ok (Some "10.0.0.1") /\
  gateway_by_columns "eth0" (splitlines vlan_table) = None.
Proof. split; vm_compute; reflexivity. Qed.

(** ** Hexadecimal fields *)

Lemma append_assoc (a b c : string) : (a +:+ b) +:+ c = a +:+ (b +:+ c).
Proof.
  induction a as [|x a IH]; [reflexivity|].
  change (String x ((a +:+ b) +:+ c) = String x (a +:+ (b +:+ c))).
  f_equal. exact IH.
Qed.

Lemma append_nil_r (a : string) : a +:+ "" = a.
Proof.
  induction a as [|x a IH]; [reflexivity|].
  change (String x (a +:+ "") = String x a). f_equal. exact IH.
Qed.

Lemma snoc_append (cur : string) (c : ascii) (s : string) :
  snoc cur c +:+ s = cur +:+ String c s.
Proof. unfold snoc. rewrite append_assoc. reflexivity. Qed.

Lemma hex_digit_val (c : ascii) :
  Socket.is_hex_digit c = true ->
  exists d, digit_val c = Some d /\ 0 <= d < 16 /\ hex_char d = upper_char c.
Proof.
  destruct c as [[] [] [] [] [] [] [] []]; intros H; vm_compute in H;
    try discriminate H; clear H; eexists;
    (split; [vm_compute; reflexivity|]);
    (split; [lia|vm_compute; reflexivity]).
Qed.

Lemma hex_digit_plain (c : ascii) :
  Socket.is_hex_digit c = true ->
  isspace c = false /\ Ascii.eqb c ":" = false /\ Ascii.eqb c "-" = false
  /\ Ascii.eqb c "+" = false /\ Ascii.eqb c "x" = false
  /\ Ascii.eqb c "X" = false.
Proof.
  destruct c as [[] [] [] [] [] [] [] []]; intros H; vm_compute in H;
    try discriminate H; clear H; repeat split.
Qed.

Lemma is_hex_cons (c : ascii) (s : string) :
  is_hex (String c s) = true ->
  Socket.is_hex_digit c = true
  /\ forallb Socket.is_hex_digit (list_ascii_of_string s) = true.
Proof. unfold is_hex. cbn. intros H. apply andb_true_iff in H. exact H. Qed.

Lemma digits_val_hexval (s : string) :
  forallb Socket.is_hex_digit (list_ascii_of_string s) = true ->
  forall acc,
    digits_val 16 s acc
    = Some (acc * 16 ^ Z.of_nat (String.length s) + hexval s).
Proof.
  induction s as [|c s IH]; intros Hs acc.
  - cbn. apply (f_equal Some). lia.
  - cbn in Hs. apply andb_true_iff in Hs as [Hc Hs].
    destruct (hex_digit_val c Hc) as (d & Hd & Hrange & _).
    cbn [digits_val hexval String.length]. rewrite Hd. cbn [default].
    assert ((d <? 16) = true) as -> by (apply Z.ltb_lt; lia).
    rewrite (IH Hs). apply (f_equal Some).
    rewrite Nat2Z.inj_succ, Z.pow_succ_r by lia. unfold id. ring.
Qed.

Lemma rstrip_plain (s : string) :
  forallb (fun c => negb (isspace c)) (list_ascii_of_string s) = true ->
  rstrip s = s.
Proof.
  induction s as [|c s IH]; cbn; [reflexivity|].
  intros H. apply andb_true_iff in H as [Hc Hs].
  apply negb_true_iff in Hc. rewrite Hc, (IH Hs). reflexivity.
Qed.

Lemma hex_no_space (s : string) :
  forallb Socket.is_hex_digit (list_ascii_of_string s) = true ->
  forallb (fun c => negb (isspace c)) (list_ascii_of_string s) = true.
Proof.
  induction s as [|c s IH]; cbn; [reflexivity|].
  intros H. apply andb_true_iff in H as [Hc Hs].
  destruct (hex_digit_plain c Hc) as (-> & _). cbn. apply IH, Hs.
Qed.

(** [int(s, 16)] of hexadecimal digits is the number they denote. *)
Lemma int16_hex (s : string) : is_hex s = true -> int16 s = Ok (hexval s).
Proof.
  destruct s as [|c s]; [discriminate|]. intros H.
  destruct (is_hex_cons c s H) as [Hc Hs].
  destruct (hex_digit_plain c Hc) as (Hsp & _ & Hm & Hp & Hx & HX).
  unfold int16, strip.
  rewrite rstrip_plain by (apply hex_no_space; cbn; rewrite Hc; exact Hs).
  cbn [lstrip]. rewrite Hsp.
  assert (forall A (x y : string -> A) (z : A),
            match String c s with
            | String "-" t' => x t'
            | String "+" t' => y t'
            | _ => z
            end = z) as Hsign.
  { intros A x y z.
    destruct c as [[] [] [] [] [] [] [] []]; try reflexivity;
      discriminate. }
  rewrite (Hsign _ (fun t' => (-1, t')) (fun t' => (1, t')) (1, String c s)).
  assert (strip_0x (String c s) = String c s) as ->.
  { destruct s as [|c' s']; [destruct c as [[] [] [] [] [] [] [] []];
      reflexivity|].
    cbn in Hs. apply andb_true_iff in Hs as [Hc' _].
    destruct (hex_digit_plain c' Hc') as (_ & _ & _ & _ & Hx' & HX').
    destruct c as [[] [] [] [] [] [] [] []]; try reflexivity;
      destruct c' as [[] [] [] [] [] [] [] []]; try reflexivity;
      discriminate. }
  cbn [is_empty].
  rewrite digits_val_hexval by (cbn; rewrite Hc; exact Hs).
  f_equal. lia.
Qed.

Lemma split1_go_colon (h p cur : string) :
  forallb Socket.is_hex_digit (list_ascii_of_string h) = true ->
  split1_go ":" (h +:+ String ":" p) cur = [cur +:+ h; p].
Proof.
  revert cur. induction h as [|c h IH]; intros cur Hh.
  - cbn. rewrite append_nil_r. reflexivity.
  - cbn in Hh. apply andb_true_iff in Hh as [Hc Hh].
    destruct (hex_digit_plain c Hc) as (_ & Hcolon & _).
    simpl. rewrite Hcolon, (IH _ Hh), snoc_append.
    reflexivity.
Qed.

Lemma octet_shift (host : Z) (k : Z) :
  0 <= k -> Z.land (Z.shiftr host (8 * k)) 255 = octet host k.
Proof.
  intros Hk. unfold octet. change 255 with (Z.ones 8).
  rewrite Z.land_ones by lia. rewrite Z.shiftr_div_pow2 by lia.
  replace (2 ^ (8 * k)) with (256 ^ k); [reflexivity|].
  change 256 with (2 ^ 8). rewrite <- Z.pow_mul_r by lia. reflexivity.
Qed.

Lemma int2host_dotted (host : Z) : _int2host host = dotted_quad host.
Proof.
  unfold _int2host, dotted_quad. cbn [map].
  rewrite <- (octet_shift host 0), <- (octet_shift host 1),
    <- (octet_shift host 2), <- (octet_shift host 3) by lia.
  reflexivity.
Qed.

Lemma map_hostport_hex (h p : string) :
  is_hex h = true -> is_hex p = true ->
  _map_hostport (h +:+ ":" +:+ p) = Ok (dotted_quad (hexval h), hexval p).
Proof.
  intros Hh Hp. unfold _map_hostport, split1.
  assert (forallb Socket.is_hex_digit (list_ascii_of_string h) = true) as Hh'.
  { unfold is_hex in Hh. apply andb_true_iff in Hh as [_ Hh]. exact Hh. }
  change (h +:+ ":" +:+ p) with (h +:+ String ":" p).
  rewrite (split1_go_colon h p "" Hh'). change ("" +:+ h) with h.
  rewrite (int16_hex h Hh), (int16_hex p Hp). cbn [bind].
  rewrite int2host_dotted. reflexivity.
Qed.

Lemma octet_bits (host k i : Z) :
  0 <= k -> 0 <= i < 8 ->
  Z.testbit (octet host k) i = Z.testbit host (8 * k + i).
Proof.
  intros Hk Hi. rewrite <- octet_shift by lia.
  rewrite Z.land_spec, Z.shiftr_spec by lia.
  change 255 with (Z.ones 8). rewrite Z.ones_spec_low by lia.
  rewrite andb_true_r. f_equal. lia.
Qed.

(** ** Connection rows *)

(** C6.  A row whose local and remote fields are hexadecimal digits
    around a colon gives the connection whose ports are the numbers the
    port digits denote and whose hosts are the four bytes of the number
    the host digits denote, least significant byte first, in decimal and
    joined with dots; byte [k] holds the bits [8k] to [8k+7] of the
    number.  The row of the documentation gives [127.0.0.1], port 80,
    [LISTENING]. *)
Theorem Connection_decodes (proto idx lh lp rh rp st : string)
    (more : list string) :
  is_hex lh = true -> is_hex lp = true ->
  is_hex rh = true -> is_hex rp = true ->
  Connection_init proto
    (idx :: (lh +:+ ":" +:+ lp) :: (rh +:+ ":" +:+ rp) :: st :: more)
  = Ok (mkConnection proto (dotted_quad (hexval lh)) (hexval lp)
          (dotted_quad (hexval rh)) (hexval rp) (_map_status st))
  /\ (forall host, _int2host host = dotted_quad host)
  /\ (forall host k i, 0 <= k -> 0 <= i < 8 ->
        Z.testbit (octet host k) i = Z.testbit host (8 * k + i))
  /\ Connection_init "tcp" listening_row
     = Ok (mkConnection "tcp" "127.0.0.1" 80 "0.0.0.0" 0 "LISTENING").
Proof.
  intros Hlh Hlp Hrh Hrp. split; [|split; [|split]].
  - unfold Connection_init. cbn [getitem lookup list_lookup bind].
    rewrite (map_hostport_hex lh lp Hlh Hlp). cbn [bind].
    rewrite (map_hostport_hex rh rp Hrh Hrp). reflexivity.
  - exact int2host_dotted.
  - exact octet_bits.
  - vm_compute. reflexivity.
Qed.

Lemma Connection_decodes_witness :
  Connection_init "tcp" ["1:"; "0100007F:0050"; "00000000:0000"; "0A"]
  = Ok (mkConnection "tcp" "127.0.0.1" 80 "0.0.0.0" 0 "LISTENING").
Proof.
  exact (proj1 (Connection_decodes "tcp" "1:" "0100007F" "0050" "00000000"
                  "0000" "0A" [] eq_refl eq_refl eq_refl eq_refl)).
Defined.

(** ** Decimal printing *)

Lemma digit_char_val (d : Z) :
  0 <= d < 10 -> digit_val (digit_char d) = Some d.
Proof.
  intros H.
  assert (d = 0 \/ d = 1 \/ d = 2 \/ d = 3 \/ d = 4 \/ d = 5 \/ d = 6
          \/ d = 7 \/ d = 8 \/ d = 9) as Hd by lia.
  repeat (destruct Hd as [->|Hd]; [reflexivity|]). subst d. reflexivity.
Qed.

(** The digits [str_pos] puts in front of [acc] read as [n]. *)
Lemma str_pos_reads (fuel : nat) :
  forall n acc a,
    0 <= n < 10 ^ Z.of_nat fuel ->
    exists k, 0 <= k /\
      digits_val 10 (str_pos fuel n acc) a
      = digits_val 10 acc (a * 10 ^ k + n).
Proof.
  induction fuel as [|fuel IH]; intros n acc a Hn.
  - change (10 ^ Z.of_nat 0) with 1 in Hn. exists 0. split; [lia|].
    cbn [str_pos]. replace (a * 10 ^ 0 + n) with a by lia. reflexivity.
  - cbn [str_pos]. destruct (n <? 10) eqn:E.
    + apply Z.ltb_lt in E. exists 1. split; [lia|].
      cbn [digits_val]. rewrite Z.mod_small by lia.
      rewrite digit_char_val by lia.
      replace (n <? 10) with true by (symmetry; apply Z.ltb_lt; lia).
      replace (a * 10 ^ 1 + n) with (a * 10 + n) by lia. reflexivity.
    + apply Z.ltb_ge in E.
      rewrite Nat2Z.inj_succ, Z.pow_succ_r in Hn by lia.
      destruct (IH (n / 10) (String (digit_char (n mod 10)) acc) a)
        as (k & Hk & ->).
      { split; [apply Z.div_pos; lia|].
        apply Z.div_lt_upper_bound; lia. }
      exists (k + 1). split; [lia|].
      cbn [digits_val]. rewrite digit_char_val by (apply Z.mod_pos_bound; lia).
      replace (n mod 10 <? 10) with true
        by (symmetry; apply Z.ltb_lt, Z.mod_pos_bound; lia).
      replace (a * 10 ^ (k + 1) + n)
        with ((a * 10 ^ k + n / 10) * 10 + n mod 10); [reflexivity|].
      rewrite Z.pow_add_r by lia.
      pose proof (Z.div_mod n 10 ltac:(lia)). lia.
Qed.

(** [str] prints every digit of a natural number: the text reads back as
    the number. *)
Lemma str_reads_back (n : Z) : 0 <= n -> decimal (str n) = Some n.
Proof.
  intros Hn. unfold decimal. rewrite str_nonempty. unfold str.
  replace (n <? 0) with false by (symmetry; apply Z.ltb_ge; lia).
  destruct (str_pos_reads (S (Z.to_nat (Z.log2 n))) n "" 0) as (k & _ & ->).
  - split; [lia|].
    rewrite Nat2Z.inj_succ, Z2Nat.id by apply Z.log2_nonneg.
    destruct (Z.eq_dec n 0) as [->|Hne]; [reflexivity|].
    pose proof (Z.log2_spec n ltac:(lia)) as [_ Hlt].
    eapply Z.lt_le_trans; [exact Hlt|].
    apply Z.pow_le_mono_l. lia.
  - cbn [digits_val]. replace (0 * 10 ^ k + n) with n by lia. reflexivity.
Qed.

(** ** The round trip of a host *)

Lemma split_on_no_dot (a : string) :
  no_dot a = true -> split_on "." a = [a].
Proof.
  induction a as [|c a IH]; [reflexivity|].
  unfold no_dot. cbn. intros H. apply andb_true_iff in H as [Hc Ha].
  apply negb_true_iff in Hc. rewrite Hc, (IH Ha). reflexivity.
Qed.

Lemma split_on_dot (a rest : string) :
  no_dot a = true ->
  split_on "." (a +:+ String "." rest) = a :: split_on "." rest.
Proof.
  induction a as [|c a IH]; [reflexivity|].
  unfold no_dot. cbn. intros H. apply andb_true_iff in H as [Hc Ha].
  apply negb_true_iff in Hc. simpl. rewrite Hc, (IH Ha). reflexivity.
Qed.

(** What [str] prints for a byte reads back as the byte and has no dot:
    checked on the 256 bytes. *)
Lemma bytes_print :
  forallb byte_prints (map Z.of_nat (seq 0 256)) = true.
Proof. vm_compute. reflexivity. Qed.

Lemma byte_print (b : Z) :
  0 <= b < 256 -> no_dot (str b) = true /\ decimal (str b) = Some b.
Proof.
  intros Hb. pose proof bytes_print as H.
  rewrite forallb_forall in H.
  assert (byte_prints b = true) as Hp.
  { apply H. replace b with (Z.of_nat (Z.to_nat b)) by lia.
    apply in_map, in_seq. lia. }
  unfold byte_prints in Hp. apply andb_true_iff in Hp as [H1 H2].
  apply bool_decide_eq_true in H2. split; assumption.
Qed.

Lemma octet_range (host k : Z) : 0 <= octet host k < 256.
Proof. unfold octet. apply Z.mod_pos_bound. lia. Qed.

(** Re-encoding the dotted quad of a host number gives the two digits of
    each of its four bytes, most significant byte first. *)
Lemma host2hex_dotted (host : Z) :
  host2hex (dotted_quad host)
  = Some (hex2 (octet host 3) +:+ hex2 (octet host 2)
          +:+ hex2 (octet host 1) +:+ hex2 (octet host 0)).
Proof.
  destruct (byte_print _ (octet_range host 0)) as [N0 D0].
  destruct (byte_print _ (octet_range host 1)) as [N1 D1].
  destruct (byte_print _ (octet_range host 2)) as [N2 D2].
  destruct (byte_print _ (octet_range host 3)) as [N3 D3].
  unfold host2hex, dotted_quad. cbn [map join].
  change (str (octet host 0) +:+ "." +:+ str (octet host 1) +:+ "."
          +:+ str (octet host 2) +:+ "." +:+ str (octet host 3))
    with (str (octet host 0) +:+ String "."
            (str (octet host 1) +:+ String "."
               (str (octet host 2) +:+ String "." (str (octet host 3))))).
  rewrite !split_on_dot, split_on_no_dot by assumption.
  cbn [map]. rewrite D0, D1, D2, D3. cbn [forallb].
  pose proof (octet_range host 0). pose proof (octet_range host 1).
  pose proof (octet_range host 2). pose proof (octet_range host 3).
  repeat match goal with
         | |- context [?x <? 256] =>
             replace (x <? 256) with true by (symmetry; apply Z.ltb_lt; lia)
         end.
  reflexivity.
Qed.

Lemma hex2_digits (c1 c0 : ascii) (d1 d0 : Z) :
  0 <= d1 < 16 -> 0 <= d0 < 16 ->
  hex_char d1 = upper_char c1 -> hex_char d0 = upper_char c0 ->
  hex2 (16 * d1 + d0) = String (upper_char c1) (String (upper_char c0) "").
Proof.
  intros H1 H0 E1 E0. unfold hex2.
  replace ((16 * d1 + d0) / 16) with d1
    by (apply Z.div_unique with (r := d0); lia).
  replace ((16 * d1 + d0) mod 16) with d0
    by (apply Z.mod_unique with (q := d1); lia).
  rewrite E1, E0. reflexivity.
Qed.

Lemma octets_of_bytes (b3 b2 b1 b0 : Z) :
  0 <= b3 < 256 -> 0 <= b2 < 256 -> 0 <= b1 < 256 -> 0 <= b0 < 256 ->
  let host := ((b3 * 256 + b2) * 256 + b1) * 256 + b0 in
  octet host 0 = b0 /\ octet host 1 = b1 /\ octet host 2 = b2
  /\ octet host 3 = b3.
Proof.
  intros H3 H2 H1 H0 host. unfold octet, host.
  change (256 ^ 0) with 1. change (256 ^ 1) with 256.
  change (256 ^ 2) with 65536. change (256 ^ 3) with 16777216.
  repeat split.
  - rewrite Z.div_1_r. symmetry.
    apply Z.mod_unique with (q := (b3 * 256 + b2) * 256 + b1); lia.
  - replace ((((b3 * 256 + b2) * 256 + b1) * 256 + b0) / 256)
      with ((b3 * 256 + b2) * 256 + b1)
      by (apply Z.div_unique with (r := b0); lia).
    symmetry. apply Z.mod_unique with (q := b3 * 256 + b2); lia.
  - replace ((((b3 * 256 + b2) * 256 + b1) * 256 + b0) / 65536)
      with (b3 * 256 + b2)
      by (apply Z.div_unique with (r := b1 * 256 + b0); lia).
    symmetry. apply Z.mod_unique with (q := b3); lia.
  - replace ((((b3 * 256 + b2) * 256 + b1) * 256 + b0) / 16777216)
      with b3
      by (apply Z.div_unique with (r := (b2 * 256 + b1) * 256 + b0); lia).
    symmetry. apply Z.mod_unique with (q := 0); lia.
Qed.

(** Decoding eight hexadecimal digits and encoding the dotted quad gives
    the digits back in upper case. *)
Lemma decode_encode (H : string) :
  String.length H = 8%nat -> is_hex H = true ->
  host2hex (_int2host (hexval H)) = Some (upper H).
Proof.
  intros Hlen Hhex.
  rewrite int2host_dotted, host2hex_dotted.
  destruct H as [|c7 [|c6 [|c5 [|c4 [|c3 [|c2 [|c1 [|c0 [|c H]]]]]]]]];
    try discriminate Hlen. clear Hlen.
  unfold is_hex in Hhex. cbn in Hhex.
  apply andb_true_iff in Hhex as [H7 Hhex].
  apply andb_true_iff in Hhex as [H6 Hhex].
  apply andb_true_iff in Hhex as [H5 Hhex].
  apply andb_true_iff in Hhex as [H4 Hhex].
  apply andb_true_iff in Hhex as [H3 Hhex].
  apply andb_true_iff in Hhex as [H2 Hhex].
  apply andb_true_iff in Hhex as [H1 Hhex].
  apply andb_true_iff in Hhex as [H0 _].
  destruct (hex_digit_val c7 H7) as (d7 & V7 & R7 & U7).
  destruct (hex_digit_val c6 H6) as (d6 & V6 & R6 & U6).
  destruct (hex_digit_val c5 H5) as (d5 & V5 & R5 & U5).
  destruct (hex_digit_val c4 H4) as (d4 & V4 & R4 & U4).
  destruct (hex_digit_val c3 H3) as (d3 & V3 & R3 & U3).
  destruct (hex_digit_val c2 H2) as (d2 & V2 & R2 & U2).
  destruct (hex_digit_val c1 H1) as (d1 & V1 & R1 & U1).
  destruct (hex_digit_val c0 H0) as (d0 & V0 & R0 & U0).
  assert (hexval (String c7 (String c6 (String c5 (String c4
            (String c3 (String c2 (String c1 (String c0 ""))))))))
          = (((16 * d7 + d6) * 256 + (16 * d5 + d4)) * 256
              + (16 * d3 + d2)) * 256 + (16 * d1 + d0)) as Hval.
  { cbn [hexval String.length].
    rewrite V7, V6, V5, V4, V3, V2, V1, V0. cbn [default]. unfold id.
    change (Z.of_nat 7) with 7. change (Z.of_nat 6) with 6.
    change (Z.of_nat 5) with 5. change (Z.of_nat 4) with 4.
    change (Z.of_nat 3) with 3. change (Z.of_nat 2) with 2.
    change (Z.of_nat 1) with 1. change (Z.of_nat 0) with 0.
    change (16 ^ 7) with 268435456. change (16 ^ 6) with 16777216.
    change (16 ^ 5) with 1048576. change (16 ^ 4) with 65536.
    change (16 ^ 3) with 4096. change (16 ^ 2) with 256.
    change (16 ^ 1) with 16. change (16 ^ 0) with 1. lia. }
  rewrite Hval.
  destruct (octets_of_bytes (16 * d7 + d6) (16 * d5 + d4) (16 * d3 + d2)
              (16 * d1 + d0)) as (-> & -> & -> & ->); try lia.
  rewrite (hex2_digits c7 c6), (hex2_digits c5 c4), (hex2_digits c3 c2),
    (hex2_digits c1 c0) by assumption.
  reflexivity.
Qed.

(** So the decoding loses nothing: hosts that print alike have the same
    digits, up to the case of the letters. *)
Lemma decode_injective (H1 H2 : string) :
  String.length H1 = 8%nat -> is_hex H1 = true ->
  String.length H2 = 8%nat -> is_hex H2 = true ->
  _int2host (hexval H1) = _int2host (hexval H2) ->
  upper H1 = upper H2.
Proof.
  intros L1 X1 L2 X2 E.
  pose proof (decode_encode H1 L1 X1) as E1.
  pose proof (decode_encode H2 L2 X2) as E2.
  rewrite E in E1. congruence.
Qed.

(** C7.  Eight hexadecimal digits decode to a dotted quad that encodes
    back to the same eight digits in upper case, the form the kernel
    prints: on upper-case digits the round trip is the identity. *)
Theorem host_round_trip (H : string) :
  String.length H = 8%nat -> is_hex H = true ->
  exists host,
    int16 H = Ok host /\
    host2hex (_int2host host) = Some (upper H) /\
    (upper H = H -> host2hex (_int2host host) = Some H).
Proof.
  intros Hlen Hhex. exists (hexval H).
  split; [apply int16_hex, Hhex|].
  pose proof (decode_encode H Hlen Hhex) as Hrt.
  split; [exact Hrt|]. intros Hup. rewrite Hrt, Hup. reflexivity.
Qed.

Lemma host_round_trip_witness :
  exists host,
    int16 "0100007F" = Ok host /\
    host2hex (_int2host host) = Some "0100007F".
Proof.
  destruct (host_round_trip "0100007F" eq_refl eq_refl)
    as (host & Hint & _ & Hcanon).
  exists host. split; [exact Hint|]. apply Hcanon. reflexivity.
Defined.

(** ** Patterns: compiling literal text *)

Module ReFacts.
Import Re.

Lemma append_cons (c : ascii) (s t : string) :
  String c s +:+ t = String c (s +:+ t).
Proof. reflexivity. Qed.

Lemma steps_app (a b : string) : forall st,
  steps st (a +:+ b)
  = match steps st a with
    | Some st' => steps st' b
    | None => None
    end.
Proof.
  induction a as [|c a IH]; intros st; [reflexivity|].
  simpl. destruct (step st c); [apply IH|reflexivity].
Qed.

Lemma step_plain (c : ascii) f stack n l :
  is_plain c = true ->
  step (mkP MNormal f stack n l) c
  = Some (push_item (Chr c) (mkP MNormal f stack n l)).
Proof.
  intros Hc.
  destruct c as [[] [] [] [] [] [] [] []]; try reflexivity;
    vm_compute in Hc; discriminate Hc.
Qed.

(** Literal text adds its characters to the sequence being read. *)
Lemma steps_plain (s : string) : forall g alts seq stack n,
  plain s = true ->
  steps (mkP MNormal (mkFrame g alts seq) stack n LOther) s
  = Some (mkP MNormal (mkFrame g alts (chars_rev s ++ seq)) stack n LOther).
Proof.
  induction s as [|c s IH]; intros g alts seq stack n Hs; [reflexivity|].
  unfold plain in Hs. cbn in Hs. apply andb_true_iff in Hs as [Hc Hs].
  cbn [steps]. rewrite (step_plain _ _ _ _ _ Hc).
  unfold push_item. cbn [ps_cur ps_stack ps_ngroups fr_group fr_alts fr_seq].
  rewrite (IH _ _ _ _ _ Hs). unfold chars_rev.
  cbn [list_ascii_of_string map rev].
  rewrite <- app_assoc. reflexivity.
Qed.

Lemma seq_chars (s : string) : forall acc,
  fold_left (fun a r => Seq r a) (chars_rev s) acc = lits s acc.
Proof.
  unfold chars_rev. induction s as [|c s IH]; intros acc; [reflexivity|].
  cbn [list_ascii_of_string map rev lits].
  rewrite fold_left_app. cbn [fold_left]. rewrite IH. reflexivity.
Qed.

Lemma lits_append (a b : string) (r : re) :
  lits (a +:+ b) r = lits a (lits b r).
Proof.
  induction a as [|c a IH]; [reflexivity|].
  rewrite append_cons. cbn [lits]. rewrite IH. reflexivity.
Qed.

Lemma compile_ifmethod (ifname : string) :
  plain ifname = true ->
  compile (".*" +:+ LF +:+ "iface " +:+ ifname +:+ " inet (.*)")
  = Some (ifmethod_re ifname).
Proof.
  intros Hp. unfold compile.
  change (".*" +:+ LF +:+ "iface " +:+ ifname +:+ " inet (.*)")
    with ((".*" +:+ LF +:+ "iface ") +:+ (ifname +:+ " inet (.*)")).
  rewrite steps_app.
  change (steps start (".*" +:+ LF +:+ "iface "))
    with (Some (mkP MNormal
                  (mkFrame 0 [] (chars_rev "iface "
                                 ++ [Chr (ascii_of_nat 10);
                                     Rep 0 None true Any]))
                  [] 0 LOther)).
  cbv beta iota. rewrite steps_app, (steps_plain _ _ _ _ _ _ Hp).
  cbn [steps step step_normal ps_mode ps_cur ps_stack ps_ngroups ps_last
       push_item quantify fr_group fr_alts fr_seq is_anchor with_mode].
  unfold finish, close_brace, alt_of, seq_of. cbv zeta.
  cbn [ps_mode ps_stack ps_cur fr_alts fr_seq fold_left].
  rewrite !fold_left_app. rewrite !seq_chars. reflexivity.
Qed.

(** ** Patterns: matching *)

Section Matching.

Context {R : Type}.
Variable multiline : bool.

Lemma eat_hit (p : ascii -> bool) q a s g (k : mstate -> option R) :
  p a = true -> eat p (mkM q (String a s) g) k = k (mkM (Some a) s g).
Proof. unfold eat. cbn. intros ->. reflexivity. Qed.

Lemma eat_miss (p : ascii -> bool) q a s g (k : mstate -> option R) :
  p a = false -> eat p (mkM q (String a s) g) k = None.
Proof. unfold eat. cbn. intros ->. reflexivity. Qed.

Lemma eat_nil (p : ascii -> bool) q g (k : mstate -> option R) :
  eat p (mkM q "" g) k = None.
Proof. reflexivity. Qed.

(** Literal text matches itself and nothing else. *)
Lemma run_lits (s : string) (r : re) : forall q t g (k : mstate -> option R),
  run multiline (lits s r) (mkM q (s +:+ t) g) k
  = run multiline r (mkM (prev_after q s) t g) k.
Proof.
  induction s as [|c s IH]; intros q t g k; [reflexivity|].
  cbn [lits run]. rewrite append_cons.
  rewrite eat_hit by apply Ascii.eqb_refl. apply IH.
Qed.

Lemma run_lits_miss (s : string) (r : re) :
  forall q t g (k : mstate -> option R),
    String.prefix s t = false ->
    run multiline (lits s r) (mkM q t g) k = None.
Proof.
  induction s as [|c s IH]; intros q t g k Hp; [destruct t; discriminate|].
  cbn [lits run]. destruct t as [|a t]; [reflexivity|].
  cbn in Hp. destruct (Ascii.eqb c a) eqn:E.
  - rewrite eat_hit by exact E. apply IH.
    destruct (ascii_dec c a) as [_|Hne]; [exact Hp|].
    apply Ascii.eqb_eq in E. contradiction.
  - apply eat_miss, E.
Qed.

(** A greedy [.*] on a one-line text followed by the end of the subject
    or by a newline. *)
Lemma rep_loop_any (k : mstate -> option R) (t : string) g :
  (t = "" \/ exists t', t = String (ascii_of_nat 10) t') ->
  forall l fuel n q,
    one_line l = true ->
    (String.length l < fuel)%nat ->
    rep_loop (eat (fun a => negb (is_newline a))) 0 None true k fuel n
             (mkM q (l +:+ t) g)
    = longest_first k q l t g.
Proof.
  intros Ht. induction l as [|c l IH]; intros fuel n q Hl Hfuel.
  - destruct fuel as [|fuel]; [cbn in Hfuel; lia|].
    cbn [rep_loop below longest_first]. rewrite ?append_cons.
    destruct Ht as [->|(t' & ->)]; reflexivity.
  - destruct fuel as [|fuel]; [cbn in Hfuel; lia|].
    unfold one_line in Hl. cbn in Hl. apply andb_true_iff in Hl as [Hc Hl].
    cbn [rep_loop below longest_first]. rewrite ?append_cons.
    rewrite eat_hit by exact Hc.
    unfold shorter. cbn [ms_rest String.length].
    replace ((n <? 0)%nat || (String.length (l +:+ t)
                              <? S (String.length (l +:+ t)))%nat)
      with true
      by (symmetry; apply orb_true_iff; right; apply Nat.ltb_lt; lia).
    rewrite (IH fuel (S n) (Some c) Hl) by (cbn in Hfuel; lia).
    reflexivity.
Qed.

Lemma length_append (a b : string) :
  String.length (a +:+ b) = (String.length a + String.length b)%nat.
Proof.
  induction a as [|c a IH]; [reflexivity|]. simpl. rewrite IH. reflexivity.
Qed.

Lemma run_star_any (k : mstate -> option R) (l t : string) q g :
  one_line l = true ->
  (t = "" \/ exists t', t = String (ascii_of_nat 10) t') ->
  run multiline (Rep 0 None true Any) (mkM q (l +:+ t) g) k
  = longest_first k q l t g.
Proof.
  intros Hl Ht. cbn [run ms_rest]. apply rep_loop_any; [exact Ht|exact Hl|].
  rewrite length_append. lia.
Qed.

Lemma longest_first_hit (k : mstate -> option R) (l t : string) g v :
  forall q,
    k (mkM (prev_after q l) t g) = Some v ->
    longest_first k q l t g = Some v.
Proof.
  induction l as [|c l IH]; intros q Hk; [exact Hk|].
  cbn [longest_first]. rewrite (IH (Some c) Hk). reflexivity.
Qed.

(** When the rest of the pattern cannot start inside [l], only the
    position after [l] counts. *)
Lemma longest_first_end (k : mstate -> option R) (l t : string) g :
  (forall q c s, is_newline c = false -> k (mkM q (String c s) g) = None) ->
  forall q,
    one_line l = true ->
    longest_first k q l t g = k (mkM (prev_after q l) t g).
Proof.
  intros Hk. induction l as [|c l IH]; intros q Hl; [reflexivity|].
  unfold one_line in Hl. cbn in Hl. apply andb_true_iff in Hl as [Hc Hl].
  apply negb_true_iff in Hc.
  cbn [longest_first prev_after]. rewrite (IH (Some c) Hl).
  rewrite ?append_cons. rewrite (Hk q c _ Hc).
  destruct (k (mkM (prev_after (Some c) l) t g)); reflexivity.
Qed.

End Matching.

End ReFacts.

(** ** Patterns: the fuel of repeats *)

Module ReFuel.
Import Re.

Section Fuel.

Context {R : Type}.
Variable multiline : bool.

Lemma eat_local (p : ascii -> bool) st (k1 k2 : mstate -> option R) :
  agree_from st k1 k2 -> eat p st k1 = eat p st k2.
Proof.
  intros H. unfold eat. destruct (ms_rest st) as [|a s] eqn:E; [reflexivity|].
  destruct (p a); [|reflexivity]. apply H. unfold left_of. rewrite E. cbn. lia.
Qed.

Lemma rep_loop_local (body : mstate -> (mstate -> option R) -> option R)
    lo hi greedy :
  (forall st (k1 k2 : mstate -> option R),
     agree_from st k1 k2 -> body st k1 = body st k2) ->
  forall fuel n st (k1 k2 : mstate -> option R),
    agree_from st k1 k2 ->
    rep_loop body lo hi greedy k1 fuel n st
    = rep_loop body lo hi greedy k2 fuel n st.
Proof.
  intros Hbody. induction fuel as [|fuel IH]; intros n st k1 k2 H;
    [reflexivity|].
  cbn [rep_loop].
  assert (body st
            (fun st1 => if (n <? lo)%nat || shorter st1 st
                        then rep_loop body lo hi greedy k1 fuel (S n) st1
                        else None)
          = body st
              (fun st1 => if (n <? lo)%nat || shorter st1 st
                          then rep_loop body lo hi greedy k2 fuel (S n) st1
                          else None)) as ->.
  { apply Hbody. intros st1 Hst1.
    destruct ((n <? lo)%nat || shorter st1 st); [|reflexivity].
    apply IH. intros st' Hst'. apply H. lia. }
  rewrite (H st) by lia. reflexivity.
Qed.

(** The matcher calls the rest of the pattern at positions from its own
    position on only. *)
Lemma run_local (r : re) :
  forall st (k1 k2 : mstate -> option R),
    agree_from st k1 k2 -> run multiline r st k1 = run multiline r st k2.
Proof.
  induction r as [|c| |neg rs| | |r1 IH1 r2 IH2|r1 IH1 r2 IH2
                  |lo hi greedy r1 IH1|n r1 IH1];
    intros st k1 k2 H; cbn [run].
  - apply H. lia.
  - apply eat_local, H.
  - apply eat_local, H.
  - apply eat_local, H.
  - destruct (at_bol multiline st); [apply H; lia|reflexivity].
  - destruct (at_eol multiline st); [apply H; lia|reflexivity].
  - apply IH1. intros st1 Hst1. apply IH2. intros st2 Hst2. apply H. lia.
  - rewrite (IH1 st k1 k2 H), (IH2 st k1 k2 H). reflexivity.
  - apply rep_loop_local; [exact IH1|exact H].
  - apply IH1. intros st1 Hst1. apply H. exact Hst1.
Qed.

Lemma rep_loop_S (body : mstate -> (mstate -> option R) -> option R)
    lo hi (greedy : bool) (k : mstate -> option R) fuel n st :
  rep_loop body lo hi greedy k (S fuel) n st
  = let more (_ : unit) :=
      if below n hi
      then body st (fun st1 =>
             if (n <? lo)%nat || shorter st1 st
             then rep_loop body lo hi greedy k fuel (S n) st1
             else None)
      else None in
    let stop (_ : unit) := if (lo <=? n)%nat then k st else None in
    if greedy then orelse (more tt) stop else orelse (stop tt) more.
Proof. reflexivity. Qed.

(** The fuel of a repeat is never used up: from the bound the matcher
    starts with, more fuel changes nothing. *)
Lemma rep_loop_fuel (r : re) lo hi greedy (k : mstate -> option R) :
  forall fuel n st,
    (lo - n + left_of st < fuel)%nat ->
    rep_loop (run multiline r) lo hi greedy k (S fuel) n st
    = rep_loop (run multiline r) lo hi greedy k fuel n st.
Proof.
  induction fuel as [|fuel IH]; intros n st Hfuel; [lia|].
  rewrite (rep_loop_S _ _ _ _ _ (S fuel)), (rep_loop_S _ _ _ _ _ fuel).
  cbv zeta.
  assert (run multiline r st
            (fun st1 => if (n <? lo)%nat || shorter st1 st
                        then rep_loop (run multiline r) lo hi greedy k
                                      (S fuel) (S n) st1
                        else None)
          = run multiline r st
              (fun st1 => if (n <? lo)%nat || shorter st1 st
                          then rep_loop (run multiline r) lo hi greedy k
                                        fuel (S n) st1
                          else None)) as ->; [|reflexivity].
  apply run_local. intros st1 Hst1.
  destruct ((n <? lo)%nat || shorter st1 st) eqn:E; [|reflexivity].
  apply IH. apply orb_true_iff in E as [E|E].
  - apply Nat.ltb_lt in E. lia.
  - unfold shorter in E. apply Nat.ltb_lt in E. unfold left_of in *. lia.
Qed.

Lemma rep_loop_more_fuel (r : re) lo hi greedy (k : mstate -> option R)
    (extra : nat) (st : mstate) :
  rep_loop (run multiline r) lo hi greedy k
           (extra + S (lo + left_of st)) 0 st
  = run multiline (Rep lo hi greedy r) st k.
Proof.
  cbn [run]. fold (left_of st). induction extra as [|extra IH];
    [reflexivity|].
  rewrite <- IH. apply rep_loop_fuel. lia.
Qed.

End Fuel.

End ReFuel.

(** ** The configuration method of an interface *)

Lemma span_line (text : string) :
  exists l t, text = l +:+ t /\ Re.one_line l = true
              /\ (t = "" \/ exists t', t = String (ascii_of_nat 10) t').
Proof.
  induction text as [|c text (l & t & -> & Hl & Ht)].
  - exists "", "". repeat split. left. reflexivity.
  - destruct (Re.is_newline c) eqn:E.
    + exists "", (String c (l +:+ t)). repeat split. right.
      apply Ascii.eqb_eq in E. subst c. eauto.
    + exists (String c l), t. repeat split; [|exact Ht].
      unfold Re.one_line. cbn. rewrite E. exact Hl.
Qed.

Lemma prefix_append (s t : string) :
  String.prefix s t = true -> exists tail, t = s +:+ tail.
Proof.
  revert t. induction s as [|c s IH]; intros t H.
  - exists t. reflexivity.
  - destruct t as [|a t]; [discriminate|]. cbn in H.
    destruct (ascii_dec c a) as [->|]; [|discriminate].
    destruct (IH t H) as (tail & ->). exists tail. reflexivity.
Qed.

Lemma take_str_append (a b : string) :
  take_str (String.length (a +:+ b) - String.length b) (a +:+ b) = a.
Proof.
  rewrite ReFacts.length_append.
  replace (String.length a + String.length b - String.length b)%nat
    with (String.length a) by lia.
  induction a as [|c a IH]; [destruct b; reflexivity|].
  cbn. f_equal. exact IH.
Qed.

Lemma newline_miss {R} q c s g (k : Re.mstate -> option R) :
  Re.is_newline c = false ->
  Re.eat (Ascii.eqb (ascii_of_nat 10)) (Re.mkM q (String c s) g) k = None.
Proof.
  intros H. apply ReFacts.eat_miss. rewrite Ascii.eqb_sym. exact H.
Qed.

(** The pattern matches a text whose second line starts with
    [iface <name> inet ]; group 1 is the rest of that line. *)
Lemma ifmethod_match (ifname first method rest : string) :
  Re.one_line first = true -> Re.one_line method = true ->
  (rest = "" \/ exists rest', rest = String (ascii_of_nat 10) rest') ->
  exists mo,
    Re.match_at false (Re.ifmethod_re ifname) None
      (first +:+ LF +:+ "iface " +:+ ifname +:+ " inet " +:+ method +:+ rest)
    = Some mo /\ Re.group mo 1 = Some method.
Proof.
  intros Hfirst Hmethod Hrest. eexists. split.
  - unfold Re.match_at, Re.ifmethod_re. cbn [Re.run].
    erewrite ReFacts.rep_loop_any;
      [|right; eexists; reflexivity|exact Hfirst
       |cbn [Re.ms_rest]; rewrite ReFacts.length_append; lia].
    rewrite ReFacts.longest_first_end;
      [|intros q c s Hc; apply newline_miss, Hc|exact Hfirst].
    change (LF +:+ "iface " +:+ ifname +:+ " inet " +:+ method +:+ rest)
      with (String (ascii_of_nat 10)
              ("iface " +:+ ifname +:+ " inet " +:+ method +:+ rest)).
    rewrite ReFacts.eat_hit by reflexivity.
    rewrite !ReFacts.run_lits. cbn [Re.run].
    erewrite ReFacts.rep_loop_any;
      [|exact Hrest|exact Hmethod
       |cbn [Re.ms_rest]; rewrite ReFacts.length_append; lia].
    erewrite ReFacts.longest_first_hit; reflexivity.
  - unfold Re.group, Re.set_group. cbn [Re.ms_groups].
    rewrite lookup_insert_ne by discriminate.
    rewrite lookup_insert_eq. f_equal. unfold Re.consumed. cbn [Re.ms_rest].
    apply take_str_append.
Qed.

(** It matches no other text. *)
Lemma ifmethod_no_match (ifname text : string) :
  (forall first tail,
     Re.one_line first = true ->
     text <> first +:+ LF +:+ "iface " +:+ ifname +:+ " inet " +:+ tail) ->
  Re.match_at false (Re.ifmethod_re ifname) None text = None.
Proof.
  intros Hno. destruct (span_line text) as (l & t & -> & Hl & Ht).
  unfold Re.match_at, Re.ifmethod_re. cbn [Re.run].
  erewrite ReFacts.rep_loop_any;
    [|exact Ht|exact Hl|cbn [Re.ms_rest]; rewrite ReFacts.length_append; lia].
  rewrite ReFacts.longest_first_end;
    [|intros q c s Hc; apply newline_miss, Hc|exact Hl].
  destruct Ht as [->|(t' & ->)]; [reflexivity|].
  rewrite ReFacts.eat_hit by reflexivity.
  destruct (String.prefix ("iface " +:+ ifname +:+ " inet ") t') eqn:Hp.
  - apply prefix_append in Hp as (tail & ->). exfalso.
    apply (Hno l tail Hl). rewrite !append_assoc. reflexivity.
  - rewrite <- !ReFacts.lits_append.
    apply ReFacts.run_lits_miss, Hp.
Qed.

(** C9 fails as stated: an [iface] line that is not the second line of
    the text is not found. *)
Lemma get_ifmethod_misses_third_line :
  In "iface eth0 inet dhcp"
     (splitlines (lines ["auto eth0"; "allow-hotplug eth0";
                         "iface eth0 inet dhcp"]))
  /\ get_ifmethod hotplug_host "eth0" = Ok None.
Proof. split; [vm_compute; tauto|vm_compute; reflexivity]. Qed.

(** C9, amended.  For an interface name of plain characters,
    [get_ifmethod] returns None when the store has no entry for the
    interface; when the second line of the entry's text is
    [iface <name> inet <method>] it returns the method, the rest of that
    line; and it returns None when the text has no such second line. *)
Theorem get_ifmethod_second_line (h : host) (ifname : string)
    (conf : gmap string string) :
  Re.plain ifname = true ->
  h_interfaces h = Ok conf ->
  (conf !! ifname = None -> get_ifmethod h ifname = Ok None) /\
  (forall text, conf !! ifname = Some text ->
     (forall first method rest,
        text = first +:+ LF +:+ "iface " +:+ ifname +:+ " inet "
               +:+ method +:+ rest ->
        Re.one_line first = true -> Re.one_line method = true ->
        (rest = "" \/ exists rest', rest = LF +:+ rest') ->
        get_ifmethod h ifname = Ok (Some method)) /\
     ((forall first tail,
         Re.one_line first = true ->
         text <> first +:+ LF +:+ "iface " +:+ ifname +:+ " inet " +:+ tail) ->
      get_ifmethod h ifname = Ok None)).
Proof.
  intros Hplain Hconf. split.
  - intros Hnone. unfold get_ifmethod. rewrite Hconf. cbn [bind].
    rewrite Hnone. reflexivity.
  - intros text Htext.
    assert (get_ifmethod h ifname
            = Ok (match Re.match_at false (Re.ifmethod_re ifname)
                          None text with
                  | Some mo => Re.group mo 1
                  | None => None
                  end)) as ->.
    { unfold get_ifmethod, dict_getitem. rewrite Hconf. cbn [bind].
      rewrite Htext. cbn [bind].
      replace (bool_decide (is_Some (Some text))) with true
        by (symmetry; apply bool_decide_eq_true; eauto).
      cbn [negb]. unfold Re.re_match.
      rewrite (ReFacts.compile_ifmethod _ Hplain). cbn [bind].
      destruct (Re.match_at false (Re.ifmethod_re ifname) None text);
        reflexivity. }
    split.
    + intros first method rest -> Hfirst Hmethod Hrest.
      destruct (ifmethod_match ifname first method rest Hfirst Hmethod Hrest)
        as (mo & -> & ->). reflexivity.
    + intros Hno. rewrite (ifmethod_no_match _ _ Hno). reflexivity.
Qed.

Lemma get_ifmethod_second_line_witness :
  get_ifmethod no_resolv_conf "eth0" = Ok (Some "dhcp").
Proof.
  refine (proj1 (proj2 (get_ifmethod_second_line no_resolv_conf "eth0"
            (<["eth0" := lines ["auto eth0"; "iface eth0 inet dhcp"]]> ∅)
            _ _) (lines ["auto eth0"; "iface eth0 inet dhcp"]) _)
          "auto eth0" "dhcp" LF _ _ _ _).
  - reflexivity.
  - reflexivity.
  - reflexivity.
  - reflexivity.
  - reflexivity.
  - reflexivity.
  - right. exists "". reflexivity.
Defined.

(** ** The pattern of an address *)

Module Ipv4Facts.
Import Re ReFacts.

Lemma compile_ipv4 : compile ipv4 = Some ipv4_re.
Proof. vm_compute. reflexivity. Qed.

Lemma octet_tests_digit :
  Forall (Forall digit_test) octet_tests.
Proof.
  assert (forall p : ascii -> bool,
            (forall c, implb (p c) (is_digit c) = true) -> digit_test p) as H.
  { intros p Hp c Hc. specialize (Hp c). rewrite Hc in Hp. exact Hp. }
  repeat constructor; apply H; intros c;
    destruct c as [[] [] [] [] [] [] [] []]; reflexivity.
Qed.

Section Octet.

Context {R : Type}.

Lemma eat_cons (p : ascii -> bool) q a s g (K : mstate -> option R) :
  eat p (mkM q (String a s) g) K
  = if p a then K (mkM (Some a) s g) else None.
Proof. reflexivity. Qed.

(** An optional character. *)
Lemma rep_opt (p : ascii -> bool) (K : mstate -> option R) (st : mstate) :
  rep_loop (eat p) 0 (Some 1%nat) true K
           (S (0 + String.length (ms_rest st))) 0 st
  = orelse (eat p st K) (fun _ => K st).
Proof.
  destruct st as [q [|a s] g]; [reflexivity|].
  cbn [rep_loop below Nat.ltb Nat.leb orb ms_rest eat ms_groups plus
       String.length].
  destruct (p a); [|reflexivity].
  unfold shorter. cbn [ms_rest String.length].
  replace (String.length s <? S (String.length s))%nat with true
    by (symmetry; apply Nat.ltb_lt; lia).
  cbn [orb rep_loop below Nat.ltb Nat.leb orelse]. reflexivity.
Qed.

Lemma eat_orelse (p : ascii -> bool) (st : mstate)
    (f g : mstate -> option R) :
  eat p st (fun s => orelse (f s) (fun _ => g s))
  = orelse (eat p st f) (fun _ => eat p st g).
Proof.
  unfold eat. destruct (ms_rest st) as [|a s]; [reflexivity|].
  destruct (p a); reflexivity.
Qed.

Lemma eat_ext (p : ascii -> bool) (st : mstate) (f g : mstate -> option R) :
  (forall s, f s = g s) -> eat p st f = eat p st g.
Proof.
  intros H. unfold eat. destruct (ms_rest st) as [|a s]; [reflexivity|].
  destruct (p a); [apply H|reflexivity].
Qed.

Lemma orelse_assoc (a : option R) (b c : unit -> option R) :
  orelse (orelse a b) c = orelse a (fun _ => orelse (b tt) c).
Proof. destruct a; reflexivity. Qed.

Lemma orelse_none_r (a : option R) : orelse a (fun _ => None) = a.
Proof. destruct a; reflexivity. Qed.

(** The pattern of a component is its six ways, tried in order. *)
Lemma run_octet_ways (K : mstate -> option R) (st : mstate) :
  run false octet_re st K
  = fold_right (fun ps acc => orelse (eats ps K st) (fun _ => acc)) None
               octet_tests.
Proof.
  unfold octet_re, digit_set, octet_tests. cbn [run fold_right eats].
  rewrite rep_opt.
  rewrite (eat_ext (in_set false [("0", "1")]%char) st _
             (fun s => orelse
                         (eat (in_set false [("0", "9")]%char) s
                            (fun s2 => eat (in_set false [("0", "9")]%char)
                                           s2 K))
                         (fun _ => eat (in_set false [("0", "9")]%char) s K)))
    by (intros s; apply rep_opt).
  rewrite eat_orelse, rep_opt, orelse_assoc.
  rewrite orelse_none_r. reflexivity.
Qed.

(** A run of digit tests on a run of digits [d] that ends where [t]
    starts: when the rest of the pattern cannot start at a digit, the
    tests have to take all of [d]. *)
Lemma eats_digits (K : mstate -> option R) (t : string) g :
  no_digit_ahead t = true ->
  (forall q c u, is_digit c = true -> K (mkM q (String c u) g) = None) ->
  forall ps, Forall digit_test ps ->
  forall d q, all_digits d = true ->
    eats ps K (mkM q (d +:+ t) g)
    = if tests_hold ps d then K (mkM (prev_after q d) t g) else None.
Proof.
  intros Ht Hk ps Hps. induction Hps as [|p ps Hp _ IH]; intros d q Hd.
  - destruct d as [|c d]; [reflexivity|].
    unfold all_digits in Hd. cbn in Hd. apply andb_true_iff in Hd as [Hc _].
    cbn [eats tests_hold]. rewrite append_cons. apply Hk, Hc.
  - cbn [eats]. destruct d as [|c d].
    + change ("" +:+ t) with t. cbn [tests_hold].
      destruct t as [|c u]; [reflexivity|].
      cbn in Ht. apply negb_true_iff in Ht.
      apply eat_miss. destruct (p c) eqn:E; [|reflexivity].
      rewrite (Hp c E) in Ht. discriminate Ht.
    + unfold all_digits in Hd. cbn in Hd.
      apply andb_true_iff in Hd as [_ Hd].
      rewrite append_cons, eat_cons. cbn [tests_hold prev_after].
      destruct (p c); [apply IH, Hd|reflexivity].
Qed.

(** The pattern of a component on a run of digits. *)
Lemma run_octet_re (K : mstate -> option R) q (d t : string) g :
  all_digits d = true ->
  no_digit_ahead t = true ->
  (forall q' c u, is_digit c = true -> K (mkM q' (String c u) g) = None) ->
  run false octet_re (mkM q (d +:+ t) g) K
  = if octet_shape d then K (mkM (prev_after q d) t g) else None.
Proof.
  intros Hd Ht Hk. rewrite run_octet_ways.
  pose proof octet_tests_digit as Hall. unfold octet_shape.
  induction Hall as [|ps pss Hps _ IH]; [reflexivity|].
  cbn [fold_right existsb]. rewrite IH.
  rewrite (eats_digits K t g Ht Hk ps Hps d q Hd).
  destruct (tests_hold ps d), (K (mkM (prev_after q d) t g)),
    (existsb (fun ps0 => tests_hold ps0 d) pss); reflexivity.
Qed.

Lemma consumed_append q q' (d t : string) g g' :
  consumed (mkM q (d +:+ t) g) (mkM q' t g') = d.
Proof. unfold consumed. cbn [ms_rest]. apply take_str_append. Qed.

(** The same inside a group: the group records the digits. *)
Lemma run_octet_group (n : nat) (K : mstate -> option R) q (d t : string) g :
  all_digits d = true ->
  no_digit_ahead t = true ->
  (forall q' c u g', is_digit c = true ->
     K (mkM q' (String c u) g') = None) ->
  run false (Group n octet_re) (mkM q (d +:+ t) g) K
  = if octet_shape d then K (mkM (prev_after q d) t (<[n := d]> g))
    else None.
Proof.
  intros Hd Ht Hk. cbn [run]. rewrite run_octet_re; [|exact Hd|exact Ht|].
  - unfold set_group. cbn [ms_prev ms_rest ms_groups].
    rewrite consumed_append. reflexivity.
  - intros q' c u Hc. apply Hk, Hc.
Qed.

(** *** The three repetitions and the end of the subject *)

Lemma span_digits_spec (s : string) :
  forall d t, span_digits s = (d, t) ->
    s = d +:+ t /\ all_digits d = true /\ no_digit_ahead t = true.
Proof.
  induction s as [|c s IH]; intros d t.
  - intros [= <- <-]. repeat split.
  - cbn [span_digits]. destruct (is_digit c) eqn:Hc.
    + destruct (span_digits s) as [d' t'].
      destruct (IH d' t' eq_refl) as (-> & Hd & Ht).
      intros [= <- <-]. repeat split; [|exact Ht].
      unfold all_digits. cbn. rewrite Hc. exact Hd.
    + intros [= <- <-]. repeat split. cbn. rewrite Hc. reflexivity.
Qed.

Variable Kfin : mstate -> option R.
Hypothesis Kfin_matches : forall st, matched (Kfin st) = true.

Lemma digit_no_dot (c : ascii) :
  is_digit c = true -> Ascii.eqb "." c = false /\ is_newline c = false.
Proof.
  destruct c as [[] [] [] [] [] [] [] []]; intros H; vm_compute in H;
    try discriminate H; split; reflexivity.
Qed.

(** The repetitions cannot start at a digit, nor can the subject end
    there. *)
Lemma loop_digit_none (fuel n : nat) q c u g :
  is_digit c = true ->
  rep_loop (run false dot_octet) 3 (Some 3%nat) true (Kend Kfin) fuel n
           (mkM q (String c u) g) = None.
Proof.
  intros Hc. destruct (digit_no_dot c Hc) as [Hdot Hnl].
  destruct fuel as [|fuel]; [reflexivity|].
  cbn [rep_loop]. unfold dot_octet at 1. cbn [run].
  rewrite eat_miss by exact Hdot.
  unfold Kend. cbn [run]. unfold at_eol. cbn [ms_rest]. rewrite Hnl.
  cbn [andb].
  destruct (below n (Some 3%nat)), (3 <=? n)%nat; reflexivity.
Qed.

Lemma loop_tail (n : nat) :
  forall fuel q t g,
    (n <= 3)%nat -> (n < fuel)%nat ->
    matched (rep_loop (run false dot_octet) 3 (Some 3%nat) true (Kend Kfin) fuel
                      (3 - n) (mkM q t g))
    = match tail_parts n t with
      | Some (l, t') => forallb octet_shape l && at_end t'
      | None => false
      end.
Proof using Kfin_matches.
  induction n as [|n IH]; intros fuel q t g Hn Hfuel.
  - destruct fuel as [|fuel]; [lia|].
    cbn [rep_loop Nat.sub below Nat.ltb Nat.leb orelse tail_parts forallb
         andb].
    unfold Kend. cbn [run]. unfold at_eol, at_end. cbn [ms_rest].
    destruct t as [|c t]; [apply Kfin_matches|].
    cbn [orb]. destruct (is_newline c && is_empty t); [apply Kfin_matches|].
    reflexivity.
  - destruct fuel as [|fuel]; [lia|].
    assert (exists m, (3 - S n = m)%nat /\ (m < 3)%nat /\ (S m = 3 - n)%nat)
      as (m & -> & Hm & Hm') by (exists (3 - S n)%nat; lia).
    cbn [rep_loop].
    replace (below m (Some 3%nat)) with true
      by (symmetry; apply Nat.ltb_lt; exact Hm).
    replace (3 <=? m)%nat with false by (symmetry; apply Nat.leb_gt; exact Hm).
    replace (m <? 3)%nat with true by (symmetry; apply Nat.ltb_lt; exact Hm).
    cbn [orb]. rewrite orelse_none_r.
    unfold dot_octet at 1. cbn [run tail_parts].
    destruct t as [|c s2]; [reflexivity|].
    rewrite eat_cons. destruct (Ascii.eqb "." c); [|reflexivity].
    destruct (span_digits s2) as [d t'] eqn:Hspan.
    destruct (span_digits_spec s2 d t' Hspan) as (-> & Hd & Ht').
    change (run false octet_re (mkM (Some c) (d +:+ t') g)
              (fun st1 => rep_loop (run false dot_octet) 3 (Some 3%nat) true
                            (Kend Kfin) fuel (S m)
                            (set_group 2 (mkM q (String c (d +:+ t')) g)
                               (set_group 3 (mkM (Some c) (d +:+ t') g) st1))))
      with (run false (Group 3 octet_re) (mkM (Some c) (d +:+ t') g)
              (fun st1 => rep_loop (run false dot_octet) 3 (Some 3%nat) true
                            (Kend Kfin) fuel (S m)
                            (set_group 2 (mkM q (String c (d +:+ t')) g)
                               st1))).
    rewrite run_octet_group; [|exact Hd|exact Ht'|].
    + unfold set_group at 1. cbn [ms_prev ms_rest ms_groups].
      rewrite Hm'.
      destruct (octet_shape d) eqn:Hshape.
      * rewrite IH by lia.
        destruct (tail_parts n t') as [[l t'']|]; [|reflexivity].
        cbn [forallb]. rewrite Hshape. reflexivity.
      * destruct (tail_parts n t') as [[l t'']|]; [|reflexivity].
        cbn [forallb]. rewrite Hshape. reflexivity.
    + intros q' c' u g' Hc'. unfold set_group. cbn [ms_prev ms_rest ms_groups].
      apply loop_digit_none, Hc'.
Qed.

End Octet.

Lemma match_ipv4_unfold (s : string) :
  match_at false ipv4_re None s
  = run false (Group 1 octet_re) (mkM None s ∅)
      (fun st1 =>
         rep_loop (run false dot_octet) 3 (Some 3%nat) true
           (Kend (fun st2 =>
                    Some (ms_groups (set_group 0 (mkM None s ∅) st2))))
           (S (3 + String.length (ms_rest st1))) 0 st1).
Proof. reflexivity. Qed.

(** What [re.match] finds with the pattern of [is_ipaddr]. *)
Lemma match_ipv4 (s : string) :
  matched (match_at false ipv4_re None s) = scan_accepts s.
Proof.
  rewrite match_ipv4_unfold. unfold scan_accepts, scan4.
  destruct (span_digits s) as [d t] eqn:Hspan.
  destruct (span_digits_spec s d t Hspan) as (-> & Hd & Ht).
  rewrite run_octet_group; [|exact Hd|exact Ht|].
  - cbn [ms_rest]. destruct (octet_shape d) eqn:Hshape.
    + rewrite (loop_tail
                 (fun st2 =>
                    Some (ms_groups (set_group 0 (mkM None (d +:+ t) ∅) st2)))
                 (fun _ => eq_refl) 3) by lia.
      destruct (tail_parts 3 t) as [[l t']|]; [|reflexivity].
      cbn [forallb]. rewrite Hshape. reflexivity.
    + destruct (tail_parts 3 t) as [[l t']|]; [|reflexivity].
      cbn [forallb]. rewrite Hshape. reflexivity.
  - intros q' c u g' Hc. apply loop_digit_none, Hc.
Qed.

End Ipv4Facts.

(** ** Numerals of one to three digits *)

Lemma digit_enum (c : ascii) :
  Re.is_digit c = true -> In c Re.digit_chars.
Proof.
  destruct c as [[] [] [] [] [] [] [] []]; intros H; vm_compute in H;
    try discriminate H; vm_compute; tauto.
Qed.

Lemma digit_strings_enum (d : string) :
  Re.all_digits d = true -> d <> "" -> (String.length d <= 3)%nat ->
  In d Re.digit_strings.
Proof.
  unfold Re.all_digits, Re.digit_strings. intros Hd Hne Hlen.
  destruct d as [|c1 [|c2 [|c3 [|c4 d]]]]; [congruence| | | |cbn in Hlen; lia];
    cbn in Hd;
    repeat match type of Hd with
           | (_ && _) = true =>
               let H := fresh "H" in
               apply andb_true_iff in Hd as [H Hd];
               apply digit_enum in H
           end.
  - apply in_or_app. left.
    apply (in_map (fun c => String c "")). assumption.
  - apply in_or_app. right. apply in_or_app. left.
    apply in_flat_map. exists c1. split; [assumption|].
    apply (in_map (String c1)), (in_map (fun c => String c "")). assumption.
  - apply in_or_app. right. apply in_or_app. right.
    apply in_flat_map. exists c1. split; [assumption|].
    apply (in_map (String c1)), in_flat_map. exists c2.
    split; [assumption|].
    apply (in_map (String c2)), (in_map (fun c => String c "")). assumption.
Qed.

Lemma octet_checks_all :
  forallb octet_checks Re.digit_strings = true.
Proof. vm_compute. reflexivity. Qed.

Lemma octet_checked (d : string) :
  Re.all_digits d = true -> d <> "" -> (String.length d <= 3)%nat ->
  octet_checks d = true.
Proof.
  intros Hd Hne Hlen. pose proof octet_checks_all as H.
  rewrite forallb_forall in H. apply H.
  apply digit_strings_enum; assumption.
Qed.

Lemma octet_shape_nonempty (d : string) :
  Re.octet_shape d = true -> d <> "" /\ (String.length d <= 3)%nat.
Proof.
  destruct d as [|c1 [|c2 [|c3 [|c4 d]]]]; cbn [String.length];
    try (intros _; split; [discriminate|lia]).
  - discriminate.
  - unfold Re.octet_shape, Re.octet_tests.
    cbn [existsb Re.tests_hold]. rewrite ?andb_false_r. discriminate.
Qed.

(** On digits, the tests of the pattern pick the texts of one to three
    digits and value at most 255; [strtoul] reads those well. *)
Lemma octet_shape_facts (d : string) :
  Re.all_digits d = true -> Re.octet_shape d = true ->
  octet_digits d = true /\ reads_well d = true.
Proof.
  intros Hd Hs. destruct (octet_shape_nonempty d Hs) as [Hne Hlen].
  pose proof (octet_checked d Hd Hne Hlen) as Hc.
  unfold octet_checks in Hc. rewrite Hs in Hc.
  apply andb_true_iff in Hc as [H1 H2].
  destruct (octet_digits d); [|discriminate H1]. split; [reflexivity|].
  exact H2.
Qed.

Lemma octet_digits_shape (d : string) :
  octet_digits d = true -> Re.octet_shape d = true.
Proof.
  intros H. pose proof H as H'. unfold octet_digits in H'.
  apply andb_true_iff in H' as [H' _]. apply andb_true_iff in H' as [H' Hd].
  apply andb_true_iff in H' as [Hne Hlen].
  assert (octet_checks d = true) as Hc.
  { apply octet_checked; [exact Hd| |apply Nat.leb_le, Hlen].
    intros ->. discriminate Hne. }
  unfold octet_checks in Hc. rewrite H in Hc.
  apply andb_true_iff in Hc as [H1 _].
  destruct (Re.octet_shape d); [reflexivity|discriminate H1].
Qed.

(** ** [inet_aton] on four components *)

Module AtonFacts.
Import Socket.

Lemma strtoul_digits_stop (base : Z) (t : string) (acc : Z) :
  stops t = true -> strtoul_digits base t acc = (acc, t).
Proof.
  destruct t as [|c t]; [reflexivity|]. cbn.
  destruct (digit_val c); [discriminate|reflexivity].
Qed.

Lemma strtoul_digits_app (base : Z) (t : string) :
  stops t = true ->
  forall d acc,
    strtoul_digits base (d +:+ t) acc
    = (fst (strtoul_digits base d acc), snd (strtoul_digits base d acc) +:+ t).
Proof.
  intros Ht. induction d as [|c d IH]; intros acc.
  - change ("" +:+ t) with t. rewrite strtoul_digits_stop by exact Ht.
    reflexivity.
  - rewrite ReFacts.append_cons. cbn [strtoul_digits].
    destruct (digit_val c) as [v|]; [|reflexivity].
    destruct (v <? base); [apply IH|reflexivity].
Qed.

Lemma digit_not_x (c : ascii) :
  Re.is_digit c = true ->
  (Ascii.eqb c "x" || Ascii.eqb c "X") = false
  /\ Ascii.eqb c (ascii_of_nat 0) = false.
Proof.
  destruct c as [[] [] [] [] [] [] [] []]; intros H; vm_compute in H;
    try discriminate H; split; reflexivity.
Qed.

Lemma stop_not_x (c : ascii) :
  digit_val c = None -> (Ascii.eqb c "x" || Ascii.eqb c "X") = false.
Proof.
  destruct c as [[] [] [] [] [] [] [] []]; intros H; vm_compute in H;
    try discriminate H; reflexivity.
Qed.

(** [strtoul] on a component followed by a dot, a newline or the end. *)
Lemma strtoul0_component (d t : string) :
  Re.all_digits d = true -> d <> "" -> stops t = true ->
  strtoul0 (d +:+ t) = (fst (c_read d), snd (c_read d) +:+ t).
Proof.
  intros Hd Hne Ht. unfold strtoul0, c_read.
  destruct d as [|c1 d]; [congruence|].
  assert (starts_hex (String c1 d +:+ t) = false) as ->.
  { rewrite ReFacts.append_cons. unfold starts_hex.
    destruct d as [|c2 d].
    - change ("" +:+ t) with t. destruct t as [|c [|h t]]; [reflexivity..|].
      cbn in Ht. destruct (digit_val c) eqn:E; [discriminate|].
      rewrite (stop_not_x c E), andb_false_r. reflexivity.
    - rewrite ReFacts.append_cons.
      unfold Re.all_digits in Hd. cbn in Hd.
      apply andb_true_iff in Hd as [_ Hd]. apply andb_true_iff in Hd as [H2 _].
      destruct (digit_not_x c2 H2) as [-> _].
      destruct (d +:+ t); [reflexivity|]. rewrite andb_false_r. reflexivity. }
  unfold startswith. rewrite ReFacts.append_cons. cbn [String.prefix].
  assert (forall x, String.prefix "" x = true) as Hnil
    by (intros []; reflexivity).
  destruct (ascii_dec "0" c1); rewrite ?Hnil;
    apply (strtoul_digits_app _ t Ht (String c1 d)).
Qed.

Lemma has_nul_app (a b : string) :
  has_nul (a +:+ b) = has_nul a || has_nul b.
Proof.
  unfold has_nul. induction a as [|c a IH]; [reflexivity|].
  rewrite ReFacts.append_cons. cbn. rewrite IH, orb_assoc. reflexivity.
Qed.

Lemma digits_no_nul (d : string) :
  Re.all_digits d = true -> has_nul d = false.
Proof.
  unfold Re.all_digits, has_nul. induction d as [|c d IH]; [reflexivity|].
  cbn. intros H. apply andb_true_iff in H as [Hc Hd].
  destruct (digit_not_x c Hc) as [_ Hz]. rewrite Ascii.eqb_sym, Hz.
  apply IH, Hd.
Qed.

Lemma at_end_cases (t : string) :
  Re.at_end t = true -> t = "" \/ t = LF.
Proof.
  destruct t as [|c [|c' t]]; [left; reflexivity| |].
  - cbn. rewrite andb_true_r. intros H. apply Ascii.eqb_eq in H. subst c.
    right. reflexivity.
  - cbn. rewrite andb_false_r. discriminate.
Qed.

Lemma tail_no_nul (n : nat) :
  forall t l t',
    Re.tail_parts n t = Some (l, t') -> Re.at_end t' = true ->
    has_nul t = false.
Proof.
  induction n as [|n IH]; intros t l t'.
  - intros [= <- <-] He. destruct (at_end_cases t He) as [->| ->]; reflexivity.
  - cbn [Re.tail_parts]. destruct t as [|c s2]; [discriminate|].
    destruct (Ascii.eqb "." c) eqn:Hc; [|discriminate].
    destruct (Re.span_digits s2) as [d t2] eqn:Hspan.
    destruct (Ipv4Facts.span_digits_spec s2 d t2 Hspan) as (-> & Hd & _).
    destruct (Re.tail_parts n t2) as [[l' t'']|] eqn:Htail; [|discriminate].
    intros [= <- <-] He. apply Ascii.eqb_eq in Hc. subst c.
    change (String "." (d +:+ t2)) with ("." +:+ (d +:+ t2)).
    rewrite !has_nul_app, (digits_no_nul d Hd), (IH t2 l' t'' Htail He).
    reflexivity.
Qed.

Lemma stops_at_end (t : string) : Re.at_end t = true -> stops t = true.
Proof. intros H. destruct (at_end_cases t H) as [->| ->]; reflexivity. Qed.

(** The parts [inet_aton] reads from a component and [n] more. *)
Lemma aton_tail (n : nat) :
  forall d t l t' parts fuel,
    Re.all_digits d = true -> Re.octet_shape d = true ->
    Re.tail_parts n t = Some (l, t') ->
    forallb Re.octet_shape l = true -> Re.at_end t' = true ->
    (length parts + n = 3)%nat -> (n < fuel)%nat ->
    exists parts' val rest,
      aton_parts fuel (d +:+ t) parts = Some (parts', val, rest) /\
      (forallb c_numeral (d :: l) = true ->
         rest = t' /\ length parts' = 3%nat /\ 0 <= val <= 255) /\
      (forallb c_numeral (d :: l) = false ->
         exists c u, rest = String c u /\ Re.is_digit c = true).
Proof.
  induction n as [|n IH];
    intros d t l t' parts fuel Hd Hshape Htail Hl He Hparts Hfuel;
    (destruct fuel as [|fuel]; [lia|]);
    destruct (octet_shape_facts d Hd Hshape) as [_ Hread];
    destruct (octet_shape_nonempty d Hshape) as [Hne _];
    cbn [aton_parts].
  - injection Htail as <- <-.
    destruct d as [|c1 d]; [congruence|]. rewrite ReFacts.append_cons.
    assert (Re.is_digit c1 = true) as ->.
    { unfold Re.all_digits in Hd. cbn in Hd.
      apply andb_true_iff in Hd as [H _]. exact H. }
    rewrite <- ReFacts.append_cons.
    rewrite strtoul0_component by (assumption || apply stops_at_end, He).
    unfold reads_well in Hread. cbn [forallb]. rewrite andb_true_r.
    destruct (c_numeral (String c1 d)).
    + apply andb_true_iff in Hread as [Hread Hhi].
      apply andb_true_iff in Hread as [Hr Hlo].
      destruct (snd (c_read (String c1 d))); [|discriminate Hr].
      change ("" +:+ t) with t.
      exists parts, (fst (c_read (String c1 d))), t.
      split; [destruct (at_end_cases t He) as [->| ->]; reflexivity|].
      split; [|discriminate]. intros _. split; [reflexivity|].
      split; [lia|]. split; [apply Z.leb_le, Hlo|apply Z.leb_le, Hhi].
    + destruct (snd (c_read (String c1 d))) as [|c u]; [discriminate Hread|].
      rewrite ReFacts.append_cons.
      destruct (Ipv4Facts.digit_no_dot c Hread) as [Hdot _].
      rewrite Ascii.eqb_sym, Hdot.
      eexists _, _, _. split; [reflexivity|]. split; [discriminate|].
      intros _. eauto.
  - cbn [Re.tail_parts] in Htail. destruct t as [|c s2]; [discriminate|].
    destruct (Ascii.eqb "." c) eqn:Hc; [|discriminate].
    apply Ascii.eqb_eq in Hc. subst c.
    destruct (Re.span_digits s2) as [d2 t2] eqn:Hspan.
    destruct (Ipv4Facts.span_digits_spec s2 d2 t2 Hspan) as (-> & Hd2 & _).
    destruct (Re.tail_parts n t2) as [[l' t'']|] eqn:Htail2; [|discriminate].
    injection Htail as <- <-. cbn [forallb] in Hl.
    apply andb_true_iff in Hl as [Hshape2 Hl].
    destruct d as [|c1 d]; [congruence|]. rewrite ReFacts.append_cons.
    assert (Re.is_digit c1 = true) as ->.
    { unfold Re.all_digits in Hd. cbn in Hd.
      apply andb_true_iff in Hd as [H _]. exact H. }
    rewrite <- ReFacts.append_cons.
    rewrite strtoul0_component by (assumption || reflexivity).
    unfold reads_well in Hread.
    change (forallb c_numeral (String c1 d :: d2 :: l'))
      with (c_numeral (String c1 d) && forallb c_numeral (d2 :: l')).
    destruct (c_numeral (String c1 d)).
    + apply andb_true_iff in Hread as [Hread Hhi].
      apply andb_true_iff in Hread as [Hr Hlo].
      destruct (snd (c_read (String c1 d))); [|discriminate Hr].
      change ("" +:+ String "." (d2 +:+ t2)) with (String "." (d2 +:+ t2)).
      cbn [Ascii.eqb Bool.eqb].
      replace (3 <=? length parts)%nat with false
        by (symmetry; apply Nat.leb_gt; lia).
      replace (255 <? fst (c_read (String c1 d))) with false
        by (symmetry; apply Z.ltb_ge, Z.leb_le, Hhi).
      cbn [orb andb].
      apply (IH d2 t2 l' t'' _ fuel Hd2 Hshape2 Htail2 Hl He);
        [rewrite length_app; cbn; lia|lia].
    + destruct (snd (c_read (String c1 d))) as [|c u]; [discriminate Hread|].
      rewrite ReFacts.append_cons.
      destruct (Ipv4Facts.digit_no_dot c Hread) as [Hdot _].
      rewrite Ascii.eqb_sym, Hdot.
      eexists _, _, _. split; [reflexivity|]. split; [discriminate|].
      intros _. eauto.
Qed.

End AtonFacts.

(** ** [is_ipaddr] *)

(** [is_ipaddr] in terms of a scan of the text: the pattern accepts four
    components up to the end of the subject, and [inet_aton] reads them
    when they are C numerals. *)
Lemma is_ipaddr_scan (s : string) :
  is_ipaddr s
  = Ok (match Re.scan4 s with
        | Some (l, t) =>
            forallb Re.octet_shape l && Re.at_end t && forallb c_numeral l
        | None => false
        end).
Proof.
  unfold is_ipaddr, Re.re_match. rewrite Ipv4Facts.compile_ipv4. cbn [bind].
  pose proof (Ipv4Facts.match_ipv4 s) as Hm.
  unfold Re.scan_accepts in Hm.
  destruct (Re.match_at false Re.ipv4_re None s) as [mo|]; cbn in Hm.
  2:{ destruct (Re.scan4 s) as [[l t]|]; [|reflexivity].
      rewrite <- Hm. reflexivity. }
  unfold Re.scan4 in *.
  destruct (Re.span_digits s) as [d t] eqn:Hspan.
  destruct (Ipv4Facts.span_digits_spec s d t Hspan) as (-> & Hd & _).
  destruct (Re.tail_parts 3 t) as [[l t']|] eqn:Htail; [|discriminate Hm].
  symmetry in Hm. apply andb_true_iff in Hm as [Hl He]. rewrite Hl, He.
  cbn [forallb] in Hl. apply andb_true_iff in Hl as [Hshape Hl'].
  destruct (AtonFacts.aton_tail 3 d t l t' [] 4 Hd Hshape Htail Hl' He
              eq_refl ltac:(lia))
    as (parts & val & rest & Haton & Hgood & Hbad).
  unfold Socket.inet_aton.
  rewrite AtonFacts.has_nul_app, (AtonFacts.digits_no_nul d Hd),
    (AtonFacts.tail_no_nul 3 t l t' Htail He).
  cbn [orb]. rewrite Haton.
  destruct (forallb c_numeral (d :: l)) eqn:Hnum.
  - destruct (Hgood eq_refl) as (-> & Hlen & Hval). rewrite Hlen.
    replace (match t' with
             | "" => true
             | String c _ => isspace c
             end) with true
      by (destruct (AtonFacts.at_end_cases t' He) as [->| ->]; reflexivity).
    replace (val <? 256 ^ (4 - Z.of_nat 3)) with true
      by (symmetry; apply Z.ltb_lt; change (256 ^ (4 - Z.of_nat 3)) with 256;
          lia).
    reflexivity.
  - destruct (Hbad eq_refl) as (c & u & -> & Hc).
    assert (isspace c = false) as ->.
    { destruct c as [[] [] [] [] [] [] [] []]; vm_compute in Hc;
        try discriminate Hc; reflexivity. }
    reflexivity.
Qed.

(** *** The scan and the components between dots *)

Lemma digits_no_dot (d : string) :
  Re.all_digits d = true -> no_dot d = true.
Proof.
  unfold Re.all_digits, no_dot. induction d as [|c d IH]; [reflexivity|].
  cbn. intros H. apply andb_true_iff in H as [Hc Hd].
  destruct (Ipv4Facts.digit_no_dot c Hc) as [Hdot _].
  rewrite Ascii.eqb_sym, Hdot. apply IH, Hd.
Qed.

Lemma span_digits_app (d t : string) :
  Re.all_digits d = true -> Re.no_digit_ahead t = true ->
  Re.span_digits (d +:+ t) = (d, t).
Proof.
  intros Hd Ht. unfold Re.all_digits in Hd.
  induction d as [|c d IH].
  - change ("" +:+ t) with t. destruct t as [|c t]; [reflexivity|].
    cbn in Ht |- *. apply negb_true_iff in Ht. rewrite Ht. reflexivity.
  - cbn in Hd. apply andb_true_iff in Hd as [Hc Hd].
    rewrite ReFacts.append_cons. cbn [Re.span_digits]. rewrite Hc, (IH Hd).
    reflexivity.
Qed.

Lemma octet_digits_all (d : string) :
  octet_digits d = true -> Re.all_digits d = true.
Proof.
  unfold octet_digits. intros H. apply andb_true_iff in H as [H _].
  apply andb_true_iff in H as [_ H]. exact H.
Qed.

Lemma split_on_cons (sep : ascii) (s : string) :
  exists w ws, split_on sep s = w :: ws.
Proof.
  destruct s as [|c s]; [eexists _, _; reflexivity|]. cbn [split_on].
  destruct (Ascii.eqb c sep); [eexists _, _; reflexivity|].
  destruct (split_on sep s); eexists _, _; reflexivity.
Qed.

Lemma join_split_on (s : string) : join "." (split_on "." s) = s.
Proof.
  induction s as [|c s IH]; [reflexivity|]. cbn [split_on].
  destruct (split_on_cons "." s) as (w & ws & E). rewrite E in IH |- *.
  destruct (Ascii.eqb c ".") eqn:Hc.
  - apply Ascii.eqb_eq in Hc. subst c.
    change (join "." ("" :: w :: ws)) with ("" +:+ "." +:+ join "." (w :: ws)).
    rewrite IH. reflexivity.
  - destruct ws as [|w' ws].
    + cbn in IH |- *. subst s. reflexivity.
    + change (join "." (String c w :: w' :: ws))
        with (String c (w +:+ "." +:+ join "." (w' :: ws))).
      change (join "." (w :: w' :: ws))
        with (w +:+ "." +:+ join "." (w' :: ws)) in IH.
      rewrite IH. reflexivity.
Qed.

(** What the scan reads: four runs of digits separated by dots. *)
Lemma scan4_inv (s : string) (l : list string) (t : string) :
  Re.scan4 s = Some (l, t) ->
  exists a b c d,
    l = [a; b; c; d]
    /\ s = a +:+ String "." (b +:+ String "." (c +:+ String "." (d +:+ t)))
    /\ Forall (fun x => Re.all_digits x = true) [a; b; c; d].
Proof.
  unfold Re.scan4. destruct (Re.span_digits s) as [d1 t1] eqn:H1.
  destruct (Ipv4Facts.span_digits_spec s d1 t1 H1) as (-> & Hd1 & _).
  cbn [Re.tail_parts].
  destruct t1 as [|c1 s2]; [discriminate|].
  destruct (Ascii.eqb "." c1) eqn:E1; [|discriminate].
  apply Ascii.eqb_eq in E1. subst c1.
  destruct (Re.span_digits s2) as [d2 t2] eqn:H2.
  destruct (Ipv4Facts.span_digits_spec s2 d2 t2 H2) as (-> & Hd2 & _).
  destruct t2 as [|c2 s3]; [discriminate|].
  destruct (Ascii.eqb "." c2) eqn:E2; [|discriminate].
  apply Ascii.eqb_eq in E2. subst c2.
  destruct (Re.span_digits s3) as [d3 t3] eqn:H3.
  destruct (Ipv4Facts.span_digits_spec s3 d3 t3 H3) as (-> & Hd3 & _).
  destruct t3 as [|c3 s4]; [discriminate|].
  destruct (Ascii.eqb "." c3) eqn:E3; [|discriminate].
  apply Ascii.eqb_eq in E3. subst c3.
  destruct (Re.span_digits s4) as [d4 t4] eqn:H4.
  destruct (Ipv4Facts.span_digits_spec s4 d4 t4 H4) as (-> & Hd4 & _).
  intros [= <- <-]. exists d1, d2, d3, d4.
  split; [reflexivity|]. split; [reflexivity|]. repeat constructor; assumption.
Qed.

Lemma split_on_quad (a b c d : string) :
  Forall (fun x => Re.all_digits x = true) [a; b; c; d] ->
  split_on "." (a +:+ String "." (b +:+ String "." (c +:+ String "." d)))
  = [a; b; c; d].
Proof.
  intros H. inversion H as [|? ? Ha H1]; subst.
  inversion H1 as [|? ? Hb H2]; subst. inversion H2 as [|? ? Hc H3]; subst.
  inversion H3 as [|? ? Hd _]; subst.
  rewrite !split_on_dot, split_on_no_dot by (apply digits_no_dot; assumption).
  reflexivity.
Qed.

Lemma split_scan4 (a b c d : string) :
  Re.all_digits a = true -> Re.all_digits b = true ->
  Re.all_digits c = true -> Re.all_digits d = true ->
  Re.scan4 (join "." [a; b; c; d]) = Some ([a; b; c; d], "").
Proof.
  intros Ha Hb Hc Hd. unfold Re.scan4.
  change (join "." [a; b; c; d])
    with (a +:+ String "." (b +:+ String "." (c +:+ String "." d))).
  rewrite (span_digits_app a) by (assumption || reflexivity).
  cbn [Re.tail_parts Ascii.eqb Bool.eqb].
  rewrite (span_digits_app b) by (assumption || reflexivity).
  cbn [Re.tail_parts Ascii.eqb Bool.eqb].
  rewrite (span_digits_app c) by (assumption || reflexivity).
  cbn [Re.tail_parts Ascii.eqb Bool.eqb].
  rewrite <- (append_nil_r d) at 1.
  rewrite (span_digits_app d "") by (assumption || reflexivity).
  reflexivity.
Qed.

Lemma string_rev_app (a b : string) : forall acc,
  string_rev (a +:+ b) acc = string_rev b (string_rev a acc).
Proof.
  induction a as [|c a IH]; intros acc; [reflexivity|].
  rewrite ReFacts.append_cons. cbn [string_rev]. apply IH.
Qed.

Lemma endswith_newline (x : string) : endswith (x +:+ LF) LF = true.
Proof.
  unfold endswith. rewrite string_rev_app. cbn.
  destruct (ascii_dec _ _); [|congruence].
  destruct (string_rev x ""); reflexivity.
Qed.

Lemma forallb_octet_ok (l : list string) :
  Forall (fun d => Re.all_digits d = true) l ->
  forallb octet_ok l = forallb Re.octet_shape l && forallb c_numeral l.
Proof.
  intros H. induction H as [|d l Hd _ IH]; [reflexivity|].
  cbn [forallb]. rewrite IH. unfold octet_ok.
  destruct (Re.octet_shape d) eqn:Hs.
  - destruct (octet_shape_facts d Hd Hs) as [-> _].
    destruct (c_numeral d), (forallb Re.octet_shape l),
      (forallb c_numeral l); reflexivity.
  - destruct (octet_digits d) eqn:Ho; [|reflexivity].
    rewrite (octet_digits_shape d Ho) in Hs. discriminate Hs.
Qed.

(** A text of four components is read by the scan to its end. *)
Lemma quad_ok_scan (s : string) :
  quad_ok s = true ->
  exists l, Re.scan4 s = Some (l, "") /\ split_on "." s = l.
Proof.
  unfold quad_ok. intros H. pose proof (join_split_on s) as Hj.
  destruct (split_on "." s) as [|a [|b [|c [|d [|e l]]]]]; try discriminate H.
  cbn [forallb] in H. rewrite andb_true_r in H.
  apply andb_true_iff in H as [Ha H]. apply andb_true_iff in H as [Hb H].
  apply andb_true_iff in H as [Hc Hd].
  unfold octet_ok in Ha, Hb, Hc, Hd.
  apply andb_true_iff in Ha as [Ha _]. apply andb_true_iff in Hb as [Hb _].
  apply andb_true_iff in Hc as [Hc _]. apply andb_true_iff in Hd as [Hd _].
  exists [a; b; c; d]. split; [|reflexivity]. rewrite <- Hj.
  apply split_scan4; apply octet_digits_all; assumption.
Qed.

(** C10 fails as stated: [inet_aton] reads a component with a leading
    zero in octal and rejects [099], and [$] lets a final newline
    through. *)
Lemma is_ipaddr_octal_and_newline :
  (dotted_decimal "099.1.1.1" = true /\ is_ipaddr "099.1.1.1" = Ok false)
  /\ (dotted_decimal ("1.2.3.4" +:+ LF) = false
      /\ is_ipaddr ("1.2.3.4" +:+ LF) = Ok true).
Proof. repeat split; vm_compute; reflexivity. Qed.

(** C10, amended.  [is_ipaddr] never raises.  On a text that does not
    end with a newline it returns True exactly when the text is four
    components separated by dots, each of one to three digits, of decimal
    value at most 255 and, when it starts with [0], without the digits
    [8] and [9]. *)
Theorem is_ipaddr_quad (s : string) :
  (exists b, is_ipaddr s = Ok b)
  /\ (endswith s LF = false -> is_ipaddr s = Ok (quad_ok s)).
Proof.
  rewrite is_ipaddr_scan. split; [eauto|]. intros Hend. f_equal.
  destruct (quad_ok s) eqn:Hq.
  - destruct (quad_ok_scan s Hq) as (l & Hscan & Hsplit). rewrite Hscan.
    destruct (scan4_inv s l "" Hscan) as (a & b & c & d & -> & _ & Hdig).
    unfold quad_ok in Hq. rewrite Hsplit in Hq.
    rewrite (forallb_octet_ok _ Hdig) in Hq.
    apply andb_true_iff in Hq as [-> ->]. reflexivity.
  - destruct (Re.scan4 s) as [[l t]|] eqn:Hscan; [|reflexivity].
    destruct (Re.at_end t) eqn:He;
      [|rewrite andb_false_r; reflexivity].
    destruct (scan4_inv s l t Hscan) as (a & b & c & d & -> & Hs & Hdig).
    destruct (AtonFacts.at_end_cases t He) as [->| ->].
    + rewrite append_nil_r in Hs. unfold quad_ok in Hq.
      rewrite Hs, (split_on_quad a b c d Hdig) in Hq.
      rewrite (forallb_octet_ok _ Hdig) in Hq. rewrite andb_true_r.
      exact Hq.
    + exfalso. rewrite Hs in Hend.
      change (String "." (b +:+ String "." (c +:+ String "." (d +:+ LF))))
        with ("." +:+ (b +:+ "." +:+ (c +:+ "." +:+ (d +:+ LF)))) in Hend.
      rewrite <- !append_assoc in Hend.
      rewrite endswith_newline in Hend. discriminate Hend.
Qed.

Lemma is_ipaddr_quad_witness : is_ipaddr "192.168.1.1" = Ok true.
Proof. exact (proj2 (is_ipaddr_quad "192.168.1.1") eq_refl). Defined.

(** ** The other two mutating operations: order of the steps *)

Lemma answer_app_l (b : behaviour) (log cs more : list call) (i : nat) :
  (i < length cs)%nat -> answer b log (cs ++ more) i = answer b log cs i.
Proof.
  intros Hi. unfold answer.
  rewrite lookup_app_l by exact Hi.
  rewrite take_app_le by lia. reflexivity.
Qed.

(** X1.  [set_static] makes a prefix of its four calls (ifdown, the
    store, [set_static] on the store, ifup), in program order and nothing
    else: every call before the last one made returned, and when fewer
    than four were made the last one raised.  So the interface is brought
    up only after the store was written, and stays down when a step
    fails. *)
Theorem set_static_steps (b : behaviour)
    (ifname addr netmask gateway nameserver : string) (log : list call) :
  let cs := static_calls ifname addr netmask gateway nameserver in
  let out := set_static b ifname addr netmask gateway nameserver log in
  exists n : nat,
    (1 <= n <= 4)%nat /\
    snd out = log ++ take n cs /\
    (forall i, (S i < n)%nat -> exists v, answer b log cs i = Some (Ok v)) /\
    ((n = 4%nat /\ (exists v, answer b log cs 3 = Some (Ok v)) /\
      fst out = Ok None)
     \/ (exists e, answer b log cs (n - 1) = Some (Raise e) /\
           fst out = if isinstance e Exception
                     then Ok (Some (exn_str e)) else Raise e)).
Proof.
  cbv zeta. rewrite set_static_unfold.
  destruct (perform_all_spec b
              (static_calls ifname addr netmask gateway nameserver) log)
    as [(vs & Hrun & Hall)|(n & e & Hn & Hrun & Hn' & Hlt)].
  - exists 4%nat. unfold mtry, and_then. rewrite Hrun. cbn.
    split; [lia|]. split; [reflexivity|].
    split; [intros i Hi; destruct (Hall i) as (v & Hv & _); [cbn; lia|eauto]|].
    left. split; [reflexivity|]. split; [|reflexivity].
    destruct (Hall 3%nat) as (v & Hv & _); [cbn; lia|eauto].
  - exists (S n). unfold mtry, and_then. rewrite Hrun.
    cbn in Hn. split; [lia|].
    split; [destruct (isinstance e Exception); reflexivity|].
    split; [intros i Hi; apply Hlt; lia|].
    right. exists e. replace (S n - 1)%nat with n by lia.
    split; [assumption|]. destruct (isinstance e Exception); reflexivity.
Qed.

(** X2.  [set_dhcp] makes a prefix of six calls (ifdown, the store,
    [set_dhcp] on the store, ifup, then the socket and the ioctl of the
    address query), in program order and nothing else: every call before
    the last one made returned, and when fewer than six were made the last
    one raised.  The address is queried only after ifup returned. *)
Theorem set_dhcp_steps (b : behaviour) (ifname : string) (log : list call) :
  let cs := dhcp_all_calls ifname in
  let out := set_dhcp b ifname log in
  exists n : nat,
    (1 <= n <= 6)%nat /\
    snd out = log ++ take n cs /\
    (forall i, (S i < n)%nat -> exists v, answer b log cs i = Some (Ok v)) /\
    ((n < 6)%nat -> exists e, answer b log cs (n - 1) = Some (Raise e)).
Proof.
  cbv zeta. rewrite set_dhcp_unfold. unfold mtry, and_then.
  destruct (perform_all_spec b (dhcp_calls ifname) log)
    as [(vs & Hrun & Hall)|(n & e & Hn & Hrun & Hn' & Hlt)].
  - rewrite Hrun.
    assert (forall i, (i < 4)%nat ->
              exists v, answer b log (dhcp_all_calls ifname) i = Some (Ok v))
      as Hfirst.
    { intros i Hi. unfold dhcp_all_calls.
      rewrite answer_app_l by (cbn; lia).
      destruct (Hall i) as (v & Hv & _); [cbn; lia|eauto]. }
    unfold Netconf_addr, _get_addr, and_then, mtry, perform, ret, lift, raise.
    assert (answer b log (dhcp_all_calls ifname) 4
            = Some (b (log ++ dhcp_calls ifname) Socket_new)) as E4.
    { unfold answer, dhcp_all_calls.
      rewrite lookup_app_r by (cbn; lia).
      rewrite take_app_le, firstn_all2 by (cbn; lia). reflexivity. }
    assert (forall n, (5 <= n)%nat ->
              log ++ take n (dhcp_all_calls ifname)
              = (log ++ dhcp_calls ifname)
                ++ take (n - 4) [Socket_new;
                                 Ioctl SIOCGIFADDR (ifreq ifname)]) as Htake.
    { intros n Hn. unfold dhcp_all_calls.
      rewrite take_app_ge by (cbn; lia). rewrite app_assoc.
      reflexivity. }
    remember (ifreq ifname) as rq eqn:Hrq.
    destruct (b (log ++ dhcp_calls ifname) Socket_new) as [s|e1] eqn:E1.
    + exists 6%nat. split; [lia|]. split.
      * rewrite Htake by lia. cbn [Nat.sub take].
        destruct (b ((log ++ dhcp_calls ifname) ++ [Socket_new])
                    (Ioctl SIOCGIFADDR rq)) as [r|e2].
        -- destruct (Socket.inet_ntoa (slice r 20 24)) as [a|e3].
           ++ destruct (negb (truthy (Some a))); cbn [fst snd isinstance];
                rewrite <- !app_assoc; reflexivity.
           ++ destruct (isinstance e3 Exception); cbn [snd];
                rewrite <- !app_assoc; reflexivity.
        -- destruct (isinstance e2 IOError);
             [cbn [negb truthy]; cbn [snd]
             |destruct (isinstance e2 Exception); cbn [snd]];
             rewrite <- !app_assoc; reflexivity.
      * split; [|intros Hlt; lia].
        intros i Hi. destruct (decide (i < 4)%nat) as [Hi4|Hi4];
          [apply Hfirst, Hi4|].
        assert (i = 4%nat) as -> by lia.
        exists s. exact E4.
    + exists 5%nat. split; [lia|]. split.
      * rewrite Htake by lia. cbn [Nat.sub take].
        destruct (isinstance e1 IOError);
          [cbn [negb truthy]; cbn [snd]
          |destruct (isinstance e1 Exception); cbn [snd]];
          reflexivity.
      * split; [intros i Hi; apply Hfirst; lia|].
        intros _. exists e1. exact E4.
  - exists (S n). rewrite Hrun. cbn in Hn. split; [lia|].
    split.
    { unfold dhcp_all_calls. rewrite take_app_le by (cbn; lia).
      destruct (isinstance e Exception); reflexivity. }
    split.
    + intros i Hi. unfold dhcp_all_calls.
      rewrite answer_app_l by (cbn; lia). apply Hlt. lia.
    + intros _. exists e. replace (S n - 1)%nat with n by lia.
      unfold dhcp_all_calls. rewrite answer_app_l by (cbn; lia).
      exact Hn'.
Qed.

(** ** The interface request *)

Lemma take_str_app (n : nat) (a b : string) :
  take_str n (a +:+ b)
  = take_str n a +:+ take_str (n - String.length a) b.
Proof.
  revert n. induction a as [|c a IH]; intros n.
  - destruct n; reflexivity.
  - destruct n as [|n]; [reflexivity|].
    rewrite ReFacts.append_cons. cbn [take_str String.length Nat.sub].
    rewrite IH. reflexivity.
Qed.

Lemma take_str_repeat (c : ascii) (n m : nat) :
  (n <= m)%nat ->
  take_str n (string_of_list_ascii (repeat c m))
  = string_of_list_ascii (repeat c n).
Proof.
  revert m. induction n as [|n IH]; intros m Hm.
  - destruct m; reflexivity.
  - destruct m as [|m]; [lia|]. cbn. f_equal. apply IH. lia.
Qed.

Lemma take_str_length (n : nat) (s : string) :
  String.length (take_str n s) = Nat.min n (String.length s).
Proof.
  revert s. induction n as [|n IH]; intros s; [reflexivity|].
  destruct s as [|c s]; [reflexivity|]. cbn. rewrite IH. reflexivity.
Qed.

Lemma repeat_string_length (c : ascii) (n : nat) :
  String.length (string_of_list_ascii (repeat c n)) = n.
Proof. induction n as [|n IH]; [reflexivity|]. cbn. rewrite IH. reflexivity. Qed.

(** X3.  The request passed to [ioctl] always has 32 bytes: the first 32
    characters of the interface name, followed by as many zero bytes as
    it takes.  A name of 32 characters or more leaves no zero byte at the
    end of the request. *)
Theorem ifreq_shape (ifname : string) :
  String.length (ifreq ifname) = 32%nat /\
  ifreq ifname
  = take_str 32 ifname
    +:+ string_of_list_ascii
          (repeat (ascii_of_nat 0) (32 - String.length ifname)).
Proof.
  assert (ifreq ifname
          = take_str 32 ifname
            +:+ string_of_list_ascii
                  (repeat (ascii_of_nat 0) (32 - String.length ifname)))
    as E.
  { unfold ifreq, slice. cbn [drop_str Nat.sub]. rewrite take_str_app.
    rewrite take_str_repeat by lia. reflexivity. }
  split; [|exact E]. rewrite E, ReFacts.length_append, take_str_length,
    repeat_string_length. lia.
Qed.

(** ** Addresses the module prints are addresses it accepts *)

Lemma byte_texts : forallb byte_text (map Z.of_nat (seq 0 256)) = true.
Proof. vm_compute. reflexivity. Qed.

Lemma byte_text_ok (v : Z) :
  0 <= v < 256 ->
  Re.all_digits (str v) = true /\ Re.octet_shape (str v) = true
  /\ c_numeral (str v) = true.
Proof.
  intros Hv. pose proof byte_texts as H. rewrite forallb_forall in H.
  assert (byte_text v = true) as Hp.
  { apply H. replace v with (Z.of_nat (Z.to_nat v)) by lia.
    apply in_map, in_seq. lia. }
  unfold byte_text in Hp. apply andb_true_iff in Hp as [Hp H3].
  apply andb_true_iff in Hp as [H1 H2]. repeat split; assumption.
Qed.

(** Four bytes in decimal, joined with dots, are accepted. *)
Lemma is_ipaddr_bytes (v0 v1 v2 v3 : Z) :
  0 <= v0 < 256 -> 0 <= v1 < 256 -> 0 <= v2 < 256 -> 0 <= v3 < 256 ->
  is_ipaddr (join "." (map str [v0; v1; v2; v3])) = Ok true.
Proof.
  intros H0 H1 H2 H3.
  destruct (byte_text_ok v0 H0) as (D0 & S0 & N0).
  destruct (byte_text_ok v1 H1) as (D1 & S1 & N1).
  destruct (byte_text_ok v2 H2) as (D2 & S2 & N2).
  destruct (byte_text_ok v3 H3) as (D3 & S3 & N3).
  rewrite is_ipaddr_scan. cbn [map].
  rewrite (split_scan4 _ _ _ _ D0 D1 D2 D3).
  cbn [forallb Re.at_end]. rewrite S0, S1, S2, S3, N0, N1, N2, N3.
  reflexivity.
Qed.

Lemma byte_val_range (c : ascii) : 0 <= Socket.byte_val c < 256.
Proof.
  unfold Socket.byte_val. pose proof (nat_ascii_bounded c). lia.
Qed.

Lemma is_ipaddr_dotted (a0 a1 a2 a3 : ascii) :
  is_ipaddr (dotted a0 a1 a2 a3) = Ok true.
Proof.
  unfold dotted. rewrite <- (map_map Socket.byte_val str). cbn [map].
  apply is_ipaddr_bytes; apply byte_val_range.
Qed.

Lemma inet_ntoa_dotted (packed a : string) :
  Socket.inet_ntoa packed = Ok a ->
  exists a0 a1 a2 a3,
    packed = String a0 (String a1 (String a2 (String a3 "")))
    /\ a = dotted a0 a1 a2 a3.
Proof.
  unfold Socket.inet_ntoa.
  destruct packed as [|a0 [|a1 [|a2 [|a3 [|a4 p]]]]]; cbn; try discriminate.
  intros [= <-]. exists a0, a1, a2, a3. split; reflexivity.
Qed.

Lemma int2host_is_ipaddr (host : Z) : is_ipaddr (_int2host host) = Ok true.
Proof.
  rewrite int2host_dotted. unfold dotted_quad.
  rewrite <- (map_map (octet host) str). cbn [map].
  apply is_ipaddr_bytes; apply octet_range.
Qed.

Lemma drop_str_app (pre s : string) :
  drop_str (String.length pre) (pre +:+ s) = s.
Proof. induction pre as [|c pre IH]; [destruct s; reflexivity|exact IH]. Qed.

(** X4.  When the socket opens and [ioctl] answers, the address
    [_get_addr] returns is made of the bytes 20 to 23 of the answer, in
    that order, each in decimal, joined with dots; the two calls are the
    only ones made. *)
Theorem get_addr_bytes (b : behaviour) (ifname : string) (request : Z)
    (log : list call) (sock pre post : string) (a0 a1 a2 a3 : ascii) :
  b log Socket_new = Ok sock ->
  b (log ++ [Socket_new]) (Ioctl request (ifreq ifname))
  = Ok (pre +:+ String a0 (String a1 (String a2 (String a3 post)))) ->
  String.length pre = 20%nat ->
  _get_addr b ifname request log
  = (Ok (Some (dotted a0 a1 a2 a3)),
     log ++ [Socket_new; Ioctl request (ifreq ifname)]).
Proof.
  intros Hsock Hioctl Hpre.
  unfold _get_addr, and_then, mtry, perform, ret, lift.
  rewrite Hsock, Hioctl. unfold slice. rewrite <- Hpre, drop_str_app.
  rewrite Hpre. cbn [Nat.sub take_str]. rewrite <- app_assoc. reflexivity.
Qed.

Lemma get_addr_bytes_witness :
  _get_addr (dhcp_machine true) "eth0" SIOCGIFADDR []
  = (Ok (Some "192.168.1.7"),
     [Socket_new; Ioctl SIOCGIFADDR (ifreq "eth0")]).
Proof.
  exact (get_addr_bytes (dhcp_machine true) "eth0" SIOCGIFADDR [] ""
           (string_of_list_ascii (repeat (ascii_of_nat 0) 20))
           (string_of_list_ascii (repeat (ascii_of_nat 0) 8))
           (ascii_of_nat 192) (ascii_of_nat 168) (ascii_of_nat 1)
           (ascii_of_nat 7) eq_refl eq_refl eq_refl).
Defined.

(** X5.  Whatever the machine answers, an address [_get_addr] returns is
    one [is_ipaddr] accepts. *)
Theorem get_addr_is_ipaddr (b : behaviour) (ifname : string) (request : Z)
    (log : list call) (a : string) :
  fst (_get_addr b ifname request log) = Ok (Some a) ->
  is_ipaddr a = Ok true.
Proof.
  unfold _get_addr, and_then, mtry, perform, ret, lift.
  destruct (b log Socket_new) as [v|e].
  - destruct (b (log ++ [Socket_new]) (Ioctl request (ifreq ifname)))
      as [v'|e'].
    + destruct (Socket.inet_ntoa (slice v' 20 24)) as [x|e''] eqn:Hn;
        [|discriminate].
      intros [= <-].
      destruct (inet_ntoa_dotted _ _ Hn) as (a0 & a1 & a2 & a3 & _ & ->).
      apply is_ipaddr_dotted.
    + destruct (isinstance e' IOError); discriminate.
  - destruct (isinstance e IOError); discriminate.
Qed.

Lemma get_addr_is_ipaddr_witness : is_ipaddr "192.168.1.7" = Ok true.
Proof.
  exact (get_addr_is_ipaddr (dhcp_machine true) "eth0" SIOCGIFADDR []
           "192.168.1.7" eq_refl).
Defined.

(** ** Connections: what a decoded row always satisfies *)

Lemma map_hostport_inv (attrib : string) (l : string * Z) :
  _map_hostport attrib = Ok l -> exists host, fst l = _int2host host.
Proof.
  unfold _map_hostport.
  destruct (split1 ":" attrib) as [|h [|p [|x r]]]; try discriminate.
  destruct (int16 h) as [host|]; [|discriminate]. cbn [bind].
  destruct (int16 p) as [port|]; [|discriminate]. cbn [bind].
  intros [= <-]. exists host. reflexivity.
Qed.

Lemma map_status_in (attrib : string) : In (_map_status attrib) statuses.
Proof.
  unfold _map_status, dict_getitem, status_table.
  destruct (decide (attrib = "01")) as [->|H1]; [cbn; tauto|].
  rewrite lookup_insert_ne by congruence.
  destruct (decide (attrib = "0A")) as [->|H2]; [cbn; tauto|].
  rewrite lookup_insert_ne by congruence.
  destruct (decide (attrib = "10")) as [->|H3]; [cbn; tauto|].
  rewrite lookup_insert_ne by congruence.
  rewrite lookup_empty. cbn. tauto.
Qed.

(** X6.  A connection [Connection] builds keeps the protocol it was
    given, its two hosts are addresses [is_ipaddr] accepts, and its status
    is one of ESTABLISHED, LISTENING, WAITING and UNKNOWN. *)
Theorem Connection_init_valid (p : string) (attribs : list string)
    (conn : Connection) :
  Connection_init p attribs = Ok conn ->
  proto conn = p
  /\ is_ipaddr (lhost conn) = Ok true /\ is_ipaddr (rhost conn) = Ok true
  /\ In (status conn) statuses.
Proof.
  unfold Connection_init.
  destruct (getitem attribs 1) as [a1|]; [|discriminate]. cbn [bind].
  destruct (_map_hostport a1) as [l|] eqn:Hl; [|discriminate]. cbn [bind].
  destruct (getitem attribs 2) as [a2|]; [|discriminate]. cbn [bind].
  destruct (_map_hostport a2) as [r|] eqn:Hr; [|discriminate]. cbn [bind].
  destruct (getitem attribs 3) as [a3|]; [|discriminate]. cbn [bind].
  intros [= <-]. cbn [proto lhost rhost status].
  destruct (map_hostport_inv _ _ Hl) as (hl & ->).
  destruct (map_hostport_inv _ _ Hr) as (hr & ->).
  split; [reflexivity|]. split; [apply int2host_is_ipaddr|].
  split; [apply int2host_is_ipaddr|apply map_status_in].
Qed.

Lemma Connection_init_valid_witness :
  is_ipaddr "127.0.0.1" = Ok true /\ is_ipaddr "0.0.0.0" = Ok true.
Proof.
  pose proof (Connection_init_valid "tcp"
                ["1:"; "0100007F:0050"; "00000000:0000"; "0A"]
                (mkConnection "tcp" "127.0.0.1" 80 "0.0.0.0" 0 "LISTENING")
                eq_refl) as (_ & Hl & Hr & _).
  split; [exact Hl|exact Hr].
Defined.

(** ** Hosts longer than eight digits *)

Lemma hexval_app (hi lo : string) :
  hexval (hi +:+ lo)
  = hexval hi * 16 ^ Z.of_nat (String.length lo) + hexval lo.
Proof.
  induction hi as [|c hi IH];
    [change ("" +:+ lo) with lo; cbn [hexval]; ring|].
  rewrite ReFacts.append_cons. cbn [hexval]. rewrite IH.
  rewrite ReFacts.length_append, Nat2Z.inj_add, Z.pow_add_r by lia. ring.
Qed.

Lemma octet_low (a b k : Z) :
  0 <= k < 4 -> octet (a * 16 ^ 8 + b) k = octet b k.
Proof.
  intros Hk. unfold octet.
  assert (k = 0 \/ k = 1 \/ k = 2 \/ k = 3) as [->|[->|[->| ->]]] by lia.
  - change (256 ^ 0) with 1. rewrite !Z.div_1_r.
    replace (a * 16 ^ 8 + b) with (b + (a * 16777216) * 256) by ring.
    apply Z.mod_add. lia.
  - change (256 ^ 1) with 256.
    replace (a * 16 ^ 8 + b) with ((a * 16777216) * 256 + b) by ring.
    rewrite Z.div_add_l by lia.
    replace (a * 16777216 + b / 256) with (b / 256 + (a * 65536) * 256)
      by ring.
    apply Z.mod_add. lia.
  - change (256 ^ 2) with 65536.
    replace (a * 16 ^ 8 + b) with ((a * 65536) * 65536 + b) by ring.
    rewrite Z.div_add_l by lia.
    replace (a * 65536 + b / 65536) with (b / 65536 + (a * 256) * 256)
      by ring.
    apply Z.mod_add. lia.
  - change (256 ^ 3) with 16777216.
    replace (a * 16 ^ 8 + b) with ((a * 256) * 16777216 + b) by ring.
    rewrite Z.div_add_l by lia.
    replace (a * 256 + b / 16777216) with (b / 16777216 + a * 256) by ring.
    apply Z.mod_add. lia.
Qed.

Lemma is_hex_app (hi lo : string) :
  is_hex hi = true -> is_hex lo = true -> is_hex (hi +:+ lo) = true.
Proof.
  unfold is_hex. intros H1 H2.
  apply andb_true_iff in H1 as [E1 F1]. apply andb_true_iff in H2 as [_ F2].
  apply andb_true_iff. split; [destruct hi; [discriminate|reflexivity]|].
  clear E1. induction hi as [|c hi IH]; [exact F2|].
  cbn [list_ascii_of_string forallb] in F1.
  apply andb_true_iff in F1 as [Hc F1].
  rewrite ReFacts.append_cons. cbn [list_ascii_of_string forallb].
  rewrite Hc. apply IH, F1.
Qed.

(** X7.  Of a host field longer than eight hexadecimal digits, as the
    rows of [/proc/net/tcp6] have, only the last eight digits count: the
    field decodes to the same host and port as its last eight digits
    alone. *)
Theorem map_hostport_low_digits (hi lo port : string) :
  is_hex hi = true -> is_hex lo = true -> String.length lo = 8%nat ->
  _map_hostport (hi +:+ lo +:+ ":" +:+ port)
  = _map_hostport (lo +:+ ":" +:+ port).
Proof.
  intros Hhi Hlo Hlen.
  pose proof (is_hex_app hi lo Hhi Hlo) as Hboth.
  assert (forall h, is_hex h = true ->
            forallb Socket.is_hex_digit (list_ascii_of_string h) = true)
    as Hdigits.
  { intros h Hh. unfold is_hex in Hh. apply andb_true_iff in Hh as [_ Hh].
    exact Hh. }
  unfold _map_hostport, split1.
  rewrite <- append_assoc.
  change ((hi +:+ lo) +:+ ":" +:+ port)
    with ((hi +:+ lo) +:+ String ":" port).
  change (lo +:+ ":" +:+ port) with (lo +:+ String ":" port).
  rewrite (split1_go_colon (hi +:+ lo) port "" (Hdigits _ Hboth)).
  rewrite (split1_go_colon lo port "" (Hdigits _ Hlo)).
  change ("" +:+ (hi +:+ lo)) with (hi +:+ lo). change ("" +:+ lo) with lo.
  rewrite (int16_hex _ Hboth), (int16_hex _ Hlo). cbn [bind].
  rewrite hexval_app, Hlen, !int2host_dotted. unfold dotted_quad.
  cbn [map]. change (Z.of_nat 8) with 8.
  rewrite !octet_low by lia. reflexivity.
Qed.

Lemma map_hostport_low_digits_witness :
  _map_hostport "0000000000000000FFFF00000100007F:0050"
  = _map_hostport "0100007F:0050".
Proof.
  exact (map_hostport_low_digits "0000000000000000FFFF0000" "0100007F" "0050"
           eq_refl eq_refl eq_refl).
Defined.

(** ** Rows that are too short *)

Lemma int16_raises (s : string) (e : exn) :
  int16 s = Raise e -> exn_class e = ValueError.
Proof.
  unfold int16.
  destruct (match strip s with
            | String "-" t' => (-1, t')
            | String "+" t' => (1, t')
            | _ => (1, strip s)
            end) as [sign body].
  destruct (is_empty (strip_0x body)); [intros [= <-]; reflexivity|].
  destruct (digits_val 16 (strip_0x body) 0); [discriminate|].
  intros [= <-]. reflexivity.
Qed.

Lemma map_hostport_raises (attrib : string) (e : exn) :
  _map_hostport attrib = Raise e -> exn_class e = ValueError.
Proof.
  unfold _map_hostport.
  destruct (split1 ":" attrib) as [|h [|p [|x r]]];
    try (intros [= <-]; reflexivity).
  destruct (int16 h) as [host|e1] eqn:E1; cbn [bind].
  - destruct (int16 p) as [port|e2] eqn:E2; cbn [bind]; [discriminate|].
    intros [= <-]. eapply int16_raises, E2.
  - intros [= <-]. eapply int16_raises, E1.
Qed.

(** X8.  A row of fewer than four fields gives no connection:
    [Connection] raises, an IndexError for the missing field or the
    ValueError of a field that does not decode. *)
Theorem Connection_init_short (p : string) (attribs : list string) :
  (length attribs < 4)%nat ->
  exists e, Connection_init p attribs = Raise e
            /\ (exn_class e = IndexError \/ exn_class e = ValueError).
Proof.
  intros Hlen. unfold Connection_init, getitem.
  destruct attribs as [|a0 [|a1 attribs]];
    [eexists; split; [reflexivity|left; reflexivity]..|].
  cbn [lookup list_lookup bind].
  destruct (_map_hostport a1) as [l|e1] eqn:E1; cbn [bind].
  2:{ exists e1. split; [reflexivity|]. right.
      eapply map_hostport_raises, E1. }
  destruct attribs as [|a2 attribs];
    [eexists; split; [reflexivity|left; reflexivity]|].
  cbn [lookup list_lookup bind].
  destruct (_map_hostport a2) as [r|e2] eqn:E2; cbn [bind].
  2:{ exists e2. split; [reflexivity|]. right.
      eapply map_hostport_raises, E2. }
  destruct attribs as [|a3 attribs]; [|cbn in Hlen; lia].
  eexists. split; [reflexivity|left; reflexivity].
Qed.

Lemma Connection_init_short_witness :
  exists e, Connection_init "tcp" (split "") = Raise e
            /\ (exn_class e = IndexError \/ exn_class e = ValueError).
Proof.
  apply (Connection_init_short "tcp" (split "")). cbn. lia.
Defined.

(** ** The connection tables *)

Lemma connections_scan_spec (p : string) (lines : list string) :
  forall acc conns,
    connections_scan p lines acc = Ok conns
    <-> exists new,
          conns = acc ++ new
          /\ Forall2 (fun line conn =>
                        Connection_init p (split line) = Ok conn) lines new.
Proof.
  induction lines as [|line lines IH]; intros acc conns; cbn [connections_scan].
  - split.
    + intros [= <-]. exists []. rewrite app_nil_r. split; constructor.
    + intros (new & -> & H). inversion H. rewrite app_nil_r. reflexivity.
  - destruct (Connection_init p (split line)) as [conn|e] eqn:E; cbn [bind].
    + rewrite IH. split.
      * intros (new & -> & H). exists (conn :: new).
        rewrite <- app_assoc. split; [reflexivity|].
        constructor; assumption.
      * intros (new & -> & H). inversion H as [|? c ? new' Hc Hrest]; subst.
        assert (c = conn) as -> by congruence.
        exists new'. rewrite <- app_assoc. split; [reflexivity|assumption].
    + split; [discriminate|].
      intros (new & -> & H). inversion H as [|? c ? new' Hc Hrest]; subst.
      congruence.
Qed.

Lemma file_readlines_found (h : host) (path content : string) :
  h_files h !! path = Some content ->
  file_readlines h path = Ok (readlines content).
Proof. unfold file_readlines. intros ->. reflexivity. Qed.

(** X9.  With the three tables present, [get_connections] returns a list
    exactly when every row after the header line of each table decodes;
    the list is then the connections of the rows of [/proc/net/tcp], of
    [/proc/net/tcp6] and of [/proc/net/udp], in that order, each table's
    rows in their order and with the table's protocol.  One row that does
    not decode leaves no result at all. *)
Theorem get_connections_rows (h : host) (tcp tcp6 udp : string)
    (conns : list Connection) :
  h_files h !! "/proc/net/tcp" = Some tcp ->
  h_files h !! "/proc/net/tcp6" = Some tcp6 ->
  h_files h !! "/proc/net/udp" = Some udp ->
  get_connections h = Ok conns
  <-> exists c1 c2 c3,
        conns = c1 ++ c2 ++ c3
        /\ decoded "tcp" tcp c1 /\ decoded "tcp6" tcp6 c2
        /\ decoded "udp" udp c3.
Proof.
  intros H1 H2 H3. unfold get_connections, decoded. cbn [tables_scan].
  change ("/proc/net/" +:+ "tcp") with "/proc/net/tcp".
  change ("/proc/net/" +:+ "tcp6") with "/proc/net/tcp6".
  change ("/proc/net/" +:+ "udp") with "/proc/net/udp".
  rewrite (file_readlines_found _ _ _ H1), (file_readlines_found _ _ _ H2),
    (file_readlines_found _ _ _ H3). cbn [bind].
  split.
  - destruct (connections_scan "tcp" (drop 1 (readlines tcp)) [])
      as [r1|] eqn:E1; [|discriminate]. cbn [bind].
    destruct (connections_scan "tcp6" (drop 1 (readlines tcp6)) r1)
      as [r2|] eqn:E2; [|discriminate]. cbn [bind].
    destruct (connections_scan "udp" (drop 1 (readlines udp)) r2)
      as [r3|] eqn:E3; [|discriminate]. cbn [bind].
    intros [= <-].
    apply connections_scan_spec in E1 as (c1 & -> & F1).
    apply connections_scan_spec in E2 as (c2 & -> & F2).
    apply connections_scan_spec in E3 as (c3 & -> & F3).
    exists c1, c2, c3. cbn [app]. rewrite <- app_assoc.
    repeat split; assumption.
  - intros (c1 & c2 & c3 & -> & F1 & F2 & F3).
    assert (connections_scan "tcp" (drop 1 (readlines tcp)) [] = Ok c1)
      as ->.
    { apply connections_scan_spec. exists c1. split; [reflexivity|exact F1]. }
    cbn [bind].
    assert (connections_scan "tcp6" (drop 1 (readlines tcp6)) c1
            = Ok (c1 ++ c2)) as ->.
    { apply connections_scan_spec. exists c2. split; [reflexivity|exact F2]. }
    cbn [bind].
    assert (connections_scan "udp" (drop 1 (readlines udp)) (c1 ++ c2)
            = Ok ((c1 ++ c2) ++ c3)) as ->.
    { apply connections_scan_spec. exists c3. split; [reflexivity|exact F3]. }
    cbn [bind]. rewrite <- app_assoc. reflexivity.
Qed.

Lemma get_connections_rows_witness :
  get_connections proc_host
  = Ok [mkConnection "tcp" "127.0.0.1" 80 "0.0.0.0" 0 "LISTENING";
        mkConnection "tcp" "192.168.1.2" 22 "192.168.1.3" 50596
          "ESTABLISHED";
        mkConnection "udp" "0.0.0.0" 68 "0.0.0.0" 0 "UNKNOWN"].
Proof.
  refine (proj2 (get_connections_rows proc_host _ _ _ _ eq_refl eq_refl
                   eq_refl) _).
  exists [mkConnection "tcp" "127.0.0.1" 80 "0.0.0.0" 0 "LISTENING";
          mkConnection "tcp" "192.168.1.2" 22 "192.168.1.3" 50596
            "ESTABLISHED"],
    [], [mkConnection "udp" "0.0.0.0" 68 "0.0.0.0" 0 "UNKNOWN"].
  split; [reflexivity|]. unfold decoded.
  split; [|split];
    match goal with
    | |- Forall2 ?f ?l ?c =>
        let l' := eval vm_compute in l in change (Forall2 f l' c)
    end;
    repeat (constructor; [vm_compute; reflexivity|]); constructor.
Defined.

(** X10.  [get_connections] reads all three tables: when one of them is
    missing it raises, whatever the other tables hold, and returns no
    connection at all. *)
Theorem get_connections_needs_all_tables (h : host) (p : string) :
  In p ["tcp"; "tcp6"; "udp"] ->
  h_files h !! ("/proc/net/" +:+ p) = None ->
  exists e, get_connections h = Raise e.
Proof.
  intros Hp Hnone.
  assert (exists e, file_readlines h ("/proc/net/" +:+ p) = Raise e) as He.
  { unfold file_readlines. rewrite Hnone.
    destruct (bool_decide _); eexists; reflexivity. }
  destruct He as (e & He).
  unfold get_connections. cbn [tables_scan].
  destruct Hp as [<-|[<-|[<-|[]]]].
  - rewrite He. eexists. reflexivity.
  - destruct (file_readlines h ("/proc/net/" +:+ "tcp")) as [l1|e1];
      cbn [bind]; [|eexists; reflexivity].
    destruct (connections_scan "tcp" (drop 1 l1) []) as [r1|e1];
      cbn [bind]; [|eexists; reflexivity].
    rewrite He. eexists. reflexivity.
  - destruct (file_readlines h ("/proc/net/" +:+ "tcp")) as [l1|e1];
      cbn [bind]; [|eexists; reflexivity].
    destruct (connections_scan "tcp" (drop 1 l1) []) as [r1|e1];
      cbn [bind]; [|eexists; reflexivity].
    destruct (file_readlines h ("/proc/net/" +:+ "tcp6")) as [l2|e2];
      cbn [bind]; [|eexists; reflexivity].
    destruct (connections_scan "tcp6" (drop 1 l2) r1) as [r2|e2];
      cbn [bind]; [|eexists; reflexivity].
    rewrite He. eexists. reflexivity.
Qed.

Lemma get_connections_needs_all_tables_witness :
  exists e, get_connections office = Raise e.
Proof.
  apply (get_connections_needs_all_tables office "tcp6");
    [cbn; tauto|reflexivity].
Defined.

(** ** Interface names *)

Lemma space_not_colon (c : ascii) :
  isspace c = true -> Ascii.eqb c ":" = false.
Proof.
  destruct c as [[] [] [] [] [] [] [] []]; intros H; vm_compute in H;
    try discriminate H; reflexivity.
Qed.

Lemma colons_cons (c : ascii) (s : string) :
  colons (String c s)
  = ((if Ascii.eqb c ":" then 1 else 0) + colons s)%nat.
Proof.
  unfold colons. cbn [list_ascii_of_string]. rewrite filter_cons.
  destruct (Ascii.eqb c ":") eqn:E.
  - destruct (decide (true = true)); [reflexivity|congruence].
  - destruct (decide (false = true)); [discriminate|reflexivity].
Qed.

Lemma colons_app (a b : string) :
  colons (a +:+ b) = (colons a + colons b)%nat.
Proof.
  induction a as [|c a IH]; [reflexivity|].
  rewrite ReFacts.append_cons, !colons_cons, IH. lia.
Qed.

Lemma colons_lstrip (s : string) : colons (lstrip s) = colons s.
Proof.
  induction s as [|c s IH]; [reflexivity|]. cbn [lstrip].
  destruct (isspace c) eqn:E; [|reflexivity].
  rewrite colons_cons, (space_not_colon c E), IH. reflexivity.
Qed.

Lemma colons_rstrip (s : string) : colons (rstrip s) = colons s.
Proof.
  induction s as [|c s IH]; [reflexivity|]. cbn [rstrip].
  destruct (isspace c && is_empty (rstrip s)) eqn:E.
  - apply andb_true_iff in E as [Hc He]. rewrite colons_cons.
    rewrite (space_not_colon c Hc), <- IH.
    destruct (rstrip s); [reflexivity|discriminate He].
  - rewrite !colons_cons, IH. reflexivity.
Qed.

Lemma colons_strip (s : string) : colons (strip s) = colons s.
Proof. unfold strip. rewrite colons_lstrip. apply colons_rstrip. Qed.

(** Splitting at colons gives one item more than there are colons. *)
Lemma split_sep_length (s : string) : forall cur,
  length (split_sep_go ":" s cur) = S (colons s).
Proof.
  induction s as [|c s IH]; intros cur; [reflexivity|].
  cbn [split_sep_go]. rewrite colons_cons.
  destruct (Ascii.eqb c ":"); cbn [length]; rewrite IH; reflexivity.
Qed.

Lemma split_sep_plain (s : string) : forall cur,
  colons s = 0%nat -> split_sep_go ":" s cur = [cur +:+ s].
Proof.
  induction s as [|c s IH]; intros cur H.
  - rewrite append_nil_r. reflexivity.
  - rewrite colons_cons in H. cbn [split_sep_go].
    destruct (Ascii.eqb c ":"); [discriminate H|].
    rewrite IH by exact H. rewrite snoc_append. reflexivity.
Qed.

Lemma split_sep_colon (a b : string) : forall cur,
  colons a = 0%nat ->
  split_sep_go ":" (a +:+ String ":" b) cur
  = (cur +:+ a) :: split_sep_go ":" b "".
Proof.
  induction a as [|c a IH]; intros cur H.
  - rewrite append_nil_r. reflexivity.
  - rewrite colons_cons in H. rewrite ReFacts.append_cons.
    cbn [split_sep_go].
    destruct (Ascii.eqb c ":"); [discriminate H|].
    rewrite IH by exact H. rewrite snoc_append. reflexivity.
Qed.

Lemma rstrip_after (a : string) (c : ascii) (b : string) :
  isspace c = false ->
  rstrip (a +:+ String c b) = a +:+ String c (rstrip b).
Proof.
  intros Hc. induction a as [|x a IH].
  - change ("" +:+ String c b) with (String c b). cbn [rstrip].
    rewrite Hc. reflexivity.
  - rewrite ReFacts.append_cons. cbn [rstrip]. rewrite IH.
    replace (is_empty (a +:+ String c (rstrip b))) with false
      by (destruct a; reflexivity).
    rewrite andb_false_r. reflexivity.
Qed.

Lemma lstrip_spaces (pad s : string) :
  spaces pad = true -> lstrip (pad +:+ s) = lstrip s.
Proof.
  unfold spaces. induction pad as [|c pad IH]; intros H; [reflexivity|].
  cbn in H. apply andb_true_iff in H as [Hc H].
  rewrite ReFacts.append_cons. cbn [lstrip]. rewrite Hc. apply IH, H.
Qed.

Lemma lstrip_length (s : string) :
  (String.length (lstrip s) <= String.length s)%nat.
Proof.
  induction s as [|c s IH]; [reflexivity|]. cbn [lstrip].
  destruct (isspace c); cbn [String.length]; lia.
Qed.

(** A text [lstrip] leaves alone is empty or starts with a character
    that is not white space. *)
Lemma lstrip_fixed (s : string) :
  lstrip s = s ->
  s = "" \/ exists c t, s = String c t /\ isspace c = false.
Proof.
  destruct s as [|c t]; [left; reflexivity|]. intros H. right.
  exists c, t. split; [reflexivity|]. cbn [lstrip] in H.
  destruct (isspace c); [|reflexivity].
  pose proof (lstrip_length t) as Hl. rewrite H in Hl.
  cbn [String.length] in Hl. lia.
Qed.

Lemma lstrip_before (name : string) (c : ascii) (t : string) :
  lstrip name = name -> isspace c = false ->
  lstrip (name +:+ String c t) = name +:+ String c t.
Proof.
  intros Hn Hc. destruct (lstrip_fixed name Hn) as [->|(x & n & -> & Hx)].
  - change ("" +:+ String c t) with (String c t). cbn [lstrip].
    rewrite Hc. reflexivity.
  - rewrite ReFacts.append_cons. cbn [lstrip]. rewrite Hx. reflexivity.
Qed.

Lemma lstrip_idem (s : string) : lstrip (lstrip s) = lstrip s.
Proof.
  induction s as [|c s IH]; [reflexivity|]. cbn [lstrip].
  destruct (isspace c) eqn:E; [exact IH|]. cbn [lstrip]. rewrite E.
  reflexivity.
Qed.

Lemma lstrip_pad (s : string) :
  exists pad, s = pad +:+ lstrip s /\ spaces pad = true.
Proof.
  induction s as [|c s (pad & IH & Hpad)]; [exists ""; split; reflexivity|].
  cbn [lstrip]. destruct (isspace c) eqn:E.
  - exists (String c pad). rewrite ReFacts.append_cons, <- IH.
    split; [reflexivity|]. unfold spaces. cbn. rewrite E. exact Hpad.
  - exists "". split; reflexivity.
Qed.

(** What the loop makes of a row: the name between the padding and the
    colon. *)
Lemma unpack_row (line name : string) :
  dev_row line name ->
  exists junk, unpack2 (split_sep ":" (strip line)) = Ok (name, junk).
Proof.
  intros (pad & stats & -> & Hpad & Hname & Hn & Hs).
  unfold strip, split_sep.
  change (pad +:+ name +:+ ":" +:+ stats)
    with (pad +:+ name +:+ String ":" stats).
  rewrite <- append_assoc, (rstrip_after _ ":" stats) by reflexivity.
  rewrite append_assoc, (lstrip_spaces _ _ Hpad).
  rewrite (lstrip_before _ _ _ Hname) by reflexivity.
  rewrite (split_sep_colon _ _ _ Hn).
  rewrite split_sep_plain by (rewrite colons_rstrip; exact Hs).
  eexists. reflexivity.
Qed.

(** A line that does not have exactly one colon is passed over. *)
Lemma unpack_skip (line : string) :
  colons line <> 1%nat ->
  exists e, unpack2 (split_sep ":" (strip line)) = Raise e
            /\ isinstance e ValueError = true.
Proof.
  intros H. pose proof (split_sep_length (strip line) "") as Hlen.
  rewrite colons_strip in Hlen. unfold split_sep.
  destruct (split_sep_go ":" (strip line) "") as [|a [|b [|c l]]];
    cbn [length] in Hlen; try (eexists; split; reflexivity).
  lia.
Qed.

Lemma first_colon (s : string) :
  colons s = 1%nat ->
  exists a b, s = a +:+ String ":" b /\ colons a = 0%nat /\ colons b = 0%nat.
Proof.
  induction s as [|c s IH]; [discriminate|]. rewrite colons_cons.
  destruct (Ascii.eqb c ":") eqn:E; intros H.
  - apply Ascii.eqb_eq in E. subst c. exists "", s.
    split; [reflexivity|]. split; [reflexivity|lia].
  - destruct (IH H) as (a & b & -> & Ha & Hb). exists (String c a), b.
    split; [reflexivity|]. split; [|exact Hb].
    rewrite colons_cons, E. exact Ha.
Qed.

(** A line with exactly one colon is a row. *)
Lemma dev_row_exists (line : string) :
  colons line = 1%nat -> exists name, dev_row line name.
Proof.
  intros H. destruct (first_colon line H) as (a & stats & -> & Ha & Hs).
  destruct (lstrip_pad a) as (pad & Hsplit & Hpad).
  exists (lstrip a), pad, stats. split.
  - change (pad +:+ lstrip a +:+ ":" +:+ stats)
      with (pad +:+ lstrip a +:+ String ":" stats).
    rewrite <- append_assoc, <- Hsplit. reflexivity.
  - split; [exact Hpad|]. split; [apply lstrip_idem|].
    split; [rewrite colons_lstrip; exact Ha|exact Hs].
Qed.

Lemma ifnames_scan_rows (lines names : list string) :
  dev_lines lines names ->
  forall acc, ifnames_scan lines acc = Ok (acc ++ names).
Proof.
  induction 1 as [|line rest names Hskip _ IH|line name rest names Hrow _ IH];
    intros acc; cbn [ifnames_scan].
  - rewrite app_nil_r. reflexivity.
  - destruct (unpack_skip line Hskip) as (e & -> & He).
    cbn [bind try_except]. rewrite He. cbn [bind]. apply IH.
  - destruct (unpack_row line name Hrow) as (junk & ->).
    cbn [bind try_except fst]. rewrite IH, <- app_assoc. reflexivity.
Qed.

Lemma dev_lines_total (lines : list string) :
  exists names, dev_lines lines names.
Proof.
  induction lines as [|line lines (names & IH)]; [exists []; constructor|].
  destruct (decide (colons line = 1%nat)) as [H|H].
  - destruct (dev_row_exists line H) as (name & Hrow).
    exists (name :: names). apply dev_name; assumption.
  - exists names. apply dev_skip; assumption.
Qed.

(** X11.  [get_ifnames] returns the names of the rows of
    [/proc/net/dev], in the order of the file: of a line made of padding,
    a name, a colon and counters it takes the name, and a line that does
    not have exactly one colon, such as the two header lines or the row of
    an alias [eth0:1], gives no name. *)
Theorem get_ifnames_rows (h : host) (content : string)
    (names : list string) :
  h_files h !! "/proc/net/dev" = Some content ->
  dev_lines (readlines content) names ->
  get_ifnames h = Ok names.
Proof.
  intros Hfile Hlines. unfold get_ifnames.
  rewrite (file_readlines_found _ _ _ Hfile). cbn [bind].
  apply (ifnames_scan_rows _ _ Hlines []).
Qed.

Lemma get_ifnames_rows_witness : get_ifnames proc_host = Ok ["lo"; "eth0"].
Proof.
  refine (get_ifnames_rows proc_host _ ["lo"; "eth0"] eq_refl _).
  match goal with
  | |- dev_lines ?l ?n => let l' := eval vm_compute in l in
                          change (dev_lines l' n)
  end.
  apply dev_skip; [vm_compute; discriminate|].
  apply dev_skip; [vm_compute; discriminate|].
  apply dev_name.
  { exists "    ",
      ("    1500      12    0    0     1500      12    0    0" +:+ LF).
    repeat split. }
  apply dev_name.
  { exists "  ",
      (" 7654321    9876    0    0   123456    5432    0    0" +:+ LF).
    repeat split. }
  apply dev_end.
Defined.

(** X12.  When [/proc/net/dev] can be read, [get_ifnames] returns
    whatever the file holds: no line makes it raise.  Every name it
    returns comes from a line with exactly one colon, has no colon itself
    and does not start with white space. *)
Theorem get_ifnames_returns (h : host) (content : string) :
  h_files h !! "/proc/net/dev" = Some content ->
  exists names,
    get_ifnames h = Ok names
    /\ dev_lines (readlines content) names
    /\ (length names <= length (readlines content))%nat
    /\ Forall (fun name => colons name = 0%nat /\ lstrip name = name) names.
Proof.
  intros Hfile. destruct (dev_lines_total (readlines content)) as (names & H).
  exists names. split.
  { unfold get_ifnames. rewrite (file_readlines_found _ _ _ Hfile).
    cbn [bind]. apply (ifnames_scan_rows _ _ H []). }
  split; [exact H|]. clear Hfile.
  induction H as [|line rest names Hskip _ [IHl IHf]
                  |line name rest names Hrow _ [IHl IHf]].
  - split; [reflexivity|constructor].
  - split; [cbn [length]; lia|exact IHf].
  - split; [cbn [length]; lia|]. constructor; [|exact IHf].
    destruct Hrow as (pad & stats & _ & _ & Hname & Hn & _).
    split; assumption.
Qed.

Lemma get_ifnames_returns_witness :
  exists names, get_ifnames proc_host = Ok names.
Proof.
  destruct (get_ifnames_returns proc_host _ eq_refl) as (names & H & _).
  exists names. exact H.
Defined.

(** ** Attributes of [Netconf] and the tuple of [get_ipconf] *)

(** X13.  [Netconf] answers any attribute: for a name other than
    [addr], [netmask], [brdaddr], [gateway] and [nameserver],
    [__getattr__] returns None, without an AttributeError and without a
    call to the machine. *)
Theorem getattr_other_names (b : behaviour) (h : host)
    (ifname attrname : string) (log : list call) :
  ~ In attrname ["addr"; "netmask"; "brdaddr"; "gateway"; "nameserver"] ->
  __getattr__ b h ifname attrname log = (Ok None, log).
Proof.
  intros Hname. unfold __getattr__, ADDRS.
  rewrite !lookup_insert_ne, lookup_empty
    by (intros <-; apply Hname; cbn; tauto).
  destruct (String.eqb_spec attrname "gateway") as [->|_];
    [exfalso; apply Hname; cbn; tauto|].
  destruct (String.eqb_spec attrname "nameserver") as [->|_];
    [exfalso; apply Hname; cbn; tauto|].
  reflexivity.
Qed.

Lemma getattr_other_names_witness :
  __getattr__ quiet office "eth0" "hostname" [] = (Ok None, []).
Proof.
  apply (getattr_other_names quiet office "eth0" "hostname" []).
  cbn. intros [H|[H|[H|[H|[H|[]]]]]]; discriminate H.
Defined.

Lemma get_addr_none (b : behaviour) (ifname : string) (request : Z)
    (log : list call) :
  (forall l, exists s, b l Socket_new = Ok s) ->
  (forall l rq r, exists e,
      b l (Ioctl rq r) = Raise e /\ isinstance e IOError = true) ->
  _get_addr b ifname request log
  = (Ok None, log ++ [Socket_new; Ioctl request (ifreq ifname)]).
Proof.
  intros Hsock Hioctl.
  unfold _get_addr, and_then, mtry, perform, ret, lift.
  destruct (Hsock log) as (s & ->).
  destruct (Hioctl (log ++ [Socket_new]) request (ifreq ifname))
    as (e & -> & ->).
  rewrite <- app_assoc. reflexivity.
Qed.

Lemma logged_gateway_log (b : behaviour) (ifname : string)
    (log : list call) :
  snd (Logged.get_gateway b ifname log) = log ++ [route_call].
Proof.
  unfold Logged.get_gateway, and_then, mtry, perform, ret, lift.
  fold route_call.
  destruct (b log route_call) as [output|e]; cbn [snd]; [reflexivity|].
  destruct (isinstance e ExecError); reflexivity.
Qed.

Lemma logged_nameserver_log (b : behaviour) (h : host) (ifname : string)
    (log : list call) :
  snd (Logged.get_nameserver b h ifname log) = log ++ [Interfaces_new].
Proof.
  unfold Logged.get_nameserver, and_then, perform, lift.
  destruct (b log Interfaces_new); reflexivity.
Qed.

(** The gateway query run through the command runner is [get_gateway] on
    what the runner answers for [route -n]. *)
Lemma logged_gateway_spec (b : behaviour) (h : host) (ifname : string)
    (log : list call) :
  h_route h = b log route_call ->
  Logged.get_gateway b ifname log
  = (get_gateway h ifname, log ++ [route_call]).
Proof.
  intros Hroute.
  unfold Logged.get_gateway, get_gateway, and_then, mtry, perform, ret, lift.
  fold route_call. rewrite Hroute.
  destruct (b log route_call) as [output|e]; [reflexivity|].
  destruct (isinstance e ExecError); reflexivity.
Qed.

(** X14.  On a machine where the socket opens and every [ioctl] fails
    with an IOError, as for an interface without an address, the address
    and the netmask of [get_ipconf] are None and raise nothing: after the
    socket and the ioctl of the address, then those of the netmask,
    [get_ipconf] goes on with the gateway query and the nameserver query,
    and its outcome is theirs, with None for the address and the netmask.
    The calls made are those four, then [route -n], then
    [conffiles.Interfaces()] unless the gateway query raised; the
    broadcast address is not queried. *)
Theorem get_ipconf_no_address (b : behaviour) (h : host) (ifname : string)
    (log : list call) :
  (forall l, exists s, b l Socket_new = Ok s) ->
  (forall l rq r, exists e,
      b l (Ioctl rq r) = Raise e /\ isinstance e IOError = true) ->
  let start := log ++ ipconf_calls ifname in
  get_ipconf b h ifname log
  = (g <~ Logged.get_gateway b ifname;
     n <~ Logged.get_nameserver b h ifname;
     ret (None, None, g, n)) start
  /\ exists rest,
       snd (get_ipconf b h ifname log) = start ++ route_call :: rest
       /\ (rest = [] \/ rest = [Interfaces_new]).
Proof.
  intros Hsock Hioctl start.
  assert (get_ipconf b h ifname log
          = (g <~ Logged.get_gateway b ifname;
             n <~ Logged.get_nameserver b h ifname;
             ret (None, None, g, n)) start) as E.
  { unfold get_ipconf, and_then, __getattr__.
    change (ADDRS !! "addr") with (Some SIOCGIFADDR).
    change (ADDRS !! "netmask") with (Some SIOCGIFNETMASK).
    change (ADDRS !! "gateway") with (@None Z).
    change (ADDRS !! "nameserver") with (@None Z).
    cbv beta iota.
    rewrite (get_addr_none b ifname SIOCGIFADDR log Hsock Hioctl).
    rewrite (get_addr_none b ifname SIOCGIFNETMASK _ Hsock Hioctl).
    cbn [String.eqb Ascii.eqb Bool.eqb]. rewrite <- app_assoc.
    reflexivity. }
  split; [exact E|]. rewrite E. unfold and_then.
  pose proof (logged_gateway_log b ifname start) as Hg.
  destruct (Logged.get_gateway b ifname start) as [[g|e] log1];
    cbn [snd] in Hg; subst log1.
  - pose proof (logged_nameserver_log b h ifname (start ++ [route_call]))
      as Hn.
    destruct (Logged.get_nameserver b h ifname (start ++ [route_call]))
      as [[n|e] log2]; cbn [snd] in Hn |- *; subst log2;
      exists [Interfaces_new]; rewrite <- app_assoc;
      (split; [reflexivity|right; reflexivity]).
  - exists []. cbn [snd]. split; [reflexivity|left; reflexivity].
Qed.

Lemma get_ipconf_no_address_witness :
  get_ipconf (no_address_machine office) office "eth0" []
  = (Ok (None, None, Some "192.168.1.1", Some "8.8.8.8"),
     ipconf_calls "eth0" ++ [route_call; Interfaces_new]).
Proof.
  destruct (get_ipconf_no_address (no_address_machine office) office "eth0"
              []) as [E _].
  - intros l. exists "". reflexivity.
  - intros l rq r. eexists. split; reflexivity.
  - rewrite E. vm_compute. reflexivity.
Defined.

(** X15.  [get_ipconf] asks for the nameserver last and does not guard
    the query: for an interface without an entry in the interfaces store
    it raises the KeyError of [get_nameserver], whose text is the [repr]
    of the interface name, although the address, the netmask and the
    gateway were obtained. *)
Theorem get_ipconf_unconfigured (b : behaviour) (h : host)
    (ifname : string) (conf : gmap string string) (log : list call)
    (a m g : option string) (s : string) :
  let q1 := _get_addr b ifname SIOCGIFADDR log in
  let q2 := _get_addr b ifname SIOCGIFNETMASK (snd q1) in
  let q3 := Logged.get_gateway b ifname (snd q2) in
  fst q1 = Ok a -> fst q2 = Ok m -> fst q3 = Ok g ->
  b (snd q3) Interfaces_new = Ok s ->
  h_interfaces h = Ok conf -> conf !! ifname = None ->
  fst (get_ipconf b h ifname log) = Raise (mkExn KeyError (repr ifname)).
Proof.
  intros q1 q2 q3 Ha Hm Hg Hs Hconf Hnone.
  unfold get_ipconf, and_then, __getattr__.
  change (ADDRS !! "addr") with (Some SIOCGIFADDR).
  change (ADDRS !! "netmask") with (Some SIOCGIFNETMASK).
  change (ADDRS !! "gateway") with (@None Z).
  change (ADDRS !! "nameserver") with (@None Z).
  cbv beta iota. fold q1.
  destruct q1 as [r1 log1] eqn:E1. cbn [fst snd] in *. subst r1.
  fold q2. destruct q2 as [r2 log2] eqn:E2. cbn [fst snd] in *. subst r2.
  cbn [String.eqb Ascii.eqb Bool.eqb]. fold q3.
  destruct q3 as [r3 log3] eqn:E3. cbn [fst snd] in *. subst r3.
  unfold Logged.get_nameserver, and_then, perform, lift. rewrite Hs.
  cbn [fst]. unfold get_nameserver, dict_getitem. rewrite Hconf.
  cbn [bind]. rewrite Hnone. reflexivity.
Qed.

Lemma get_ipconf_unconfigured_witness :
  fst (get_ipconf (address_machine office) office "eth1" [])
  = Raise (mkExn KeyError "'eth1'").
Proof.
  refine (get_ipconf_unconfigured (address_machine office) office "eth1"
            (<["eth0" := _]> ∅) [] (Some "192.168.1.7")
            (Some "192.168.1.7") None "" _ _ _ _ eq_refl _).
  - vm_compute. reflexivity.
  - vm_compute. reflexivity.
  - vm_compute. reflexivity.
  - vm_compute. reflexivity.
  - vm_compute. reflexivity.
Defined.

(** ** The nameserver is one word *)

Lemma no_space_snoc (cur : string) (c : ascii) :
  no_space cur = true -> isspace c = false -> no_space (snoc cur c) = true.
Proof.
  unfold no_space, snoc. intros Hcur Hc.
  induction cur as [|x cur IH].
  - change ("" +:+ String c "") with (String c "").
    cbn [list_ascii_of_string forallb]. rewrite Hc. reflexivity.
  - rewrite ReFacts.append_cons.
    cbn [list_ascii_of_string forallb] in Hcur |- *.
    apply andb_true_iff in Hcur as [Hx Hcur]. rewrite Hx. apply IH, Hcur.
Qed.

Lemma split_go_no_space (s : string) : forall cur,
  no_space cur = true ->
  Forall (fun w => no_space w = true) (split_go s cur).
Proof.
  induction s as [|c s IH]; intros cur Hcur; cbn [split_go].
  - destruct (is_empty cur); [constructor|]. constructor; [exact Hcur|].
    constructor.
  - destruct (isspace c) eqn:E.
    + destruct (is_empty cur); [apply IH; reflexivity|].
      constructor; [exact Hcur|]. apply IH. reflexivity.
    + apply IH, no_space_snoc; assumption.
Qed.

(** A word taken from [s.split()] is not empty and has no white space. *)
Lemma split_word (s : string) (i : nat) (w : string) :
  getitem (split s) i = Ok w -> is_empty w = false /\ no_space w = true.
Proof.
  unfold getitem. destruct (split s !! i) as [x|] eqn:E; [|discriminate].
  intros [= <-]. split; [eapply split_word_nonempty, E|].
  pose proof (split_go_no_space s "" eq_refl) as Hall.
  rewrite Forall_forall in Hall. apply Hall.
  eapply list_elem_of_lookup_2, E.
Qed.

Lemma static_scan_word (ls : list string) (ns : string) :
  static_scan ls = Ok (Some ns) -> is_empty ns = false /\ no_space ns = true.
Proof.
  induction ls as [|l ls IH]; cbn [static_scan]; [discriminate|].
  destruct (startswith (strip l) "dns-nameservers"); [|exact IH].
  destruct (getitem (split (strip l)) 1) as [w|] eqn:E; [|discriminate].
  cbn [bind]. intros [= <-]. eapply split_word, E.
Qed.

Lemma parse_resolv_word (h : host) (path ns : string) :
  _parse_resolv h path = Ok (Some ns) ->
  is_empty ns = false /\ no_space ns = true.
Proof.
  unfold _parse_resolv. destruct (file_readlines h path) as [ls|e];
    [cbn [bind]|discriminate].
  induction ls as [|l ls IH]; cbn [parse_resolv_lines]; [discriminate|].
  destruct (startswith l "nameserver"); [|exact IH].
  destruct (getitem (split (strip l)) 1) as [w|] eqn:E; [|discriminate].
  cbn [bind]. intros [= <-]. eapply split_word, E.
Qed.

Lemma resolvconf_scan_word (h : host) (ifname path : string)
    (entries : list string) (ns : string) :
  resolvconf_scan h ifname path entries = Ok (Some ns) ->
  is_empty ns = false /\ no_space ns = true.
Proof.
  induction entries as [|f entries IH]; cbn [resolvconf_scan];
    [discriminate|].
  destruct (negb (startswith f ifname) || endswith f ".inet"); [exact IH|].
  destruct (_parse_resolv h (path_join path f)) as [[w|]|] eqn:E;
    cbn [bind]; [|exact IH|discriminate].
  destruct (parse_resolv_word _ _ _ E) as [He Hs].
  cbn [truthy]. rewrite He. cbn [negb]. intros [= <-]. split; assumption.
Qed.

(** X16.  Whichever of its three sources answers, a nameserver
    [get_nameserver] returns is one word: it is not empty and holds no
    white space (of several servers on a line only the first is
    returned). *)
Theorem get_nameserver_word (h : host) (ifname ns : string) :
  get_nameserver h ifname = Ok (Some ns) ->
  is_empty ns = false /\ no_space ns = true.
Proof.
  unfold get_nameserver.
  destruct (h_interfaces h) as [conf|]; [|discriminate]. cbn [bind].
  destruct (dict_getitem conf ifname) as [text|]; [|discriminate].
  cbn [bind].
  destruct (static_scan (splitlines text)) as [[s|]|] eqn:Es;
    [| |discriminate]; cbn [bind].
  { intros [= <-]. eapply static_scan_word, Es. }
  destruct (path_exists h rundir).
  - destruct (listdir h rundir) as [entries|]; [|discriminate]. cbn [bind].
    destruct (resolvconf_scan h ifname rundir entries) as [[d|]|] eqn:Ed;
      [| |discriminate]; cbn [bind].
    { intros [= <-]. eapply resolvconf_scan_word, Ed. }
    destruct (_parse_resolv h "/etc/resolv.conf") as [[w|]|] eqn:E;
      cbn [bind]; [|discriminate|discriminate].
    destruct (parse_resolv_word _ _ _ E) as [He Hs].
    cbn [truthy]. rewrite He. cbn [negb]. intros [= <-]. split; assumption.
  - cbn [bind].
    destruct (_parse_resolv h "/etc/resolv.conf") as [[w|]|] eqn:E;
      cbn [bind]; [|discriminate|discriminate].
    destruct (parse_resolv_word _ _ _ E) as [He Hs].
    cbn [truthy]. rewrite He. cbn [negb]. intros [= <-]. split; assumption.
Qed.

Lemma get_nameserver_word_witness :
  is_empty "8.8.8.8" = false /\ no_space "8.8.8.8" = true.
Proof.
  apply (get_nameserver_word office "eth0" "8.8.8.8").
  vm_compute. reflexivity.
Defined.

(** X17.  A [dns-nameservers] line without a value is not passed over:
    when it is the first such line of the interface's text,
    [get_nameserver] raises an IndexError and the other two sources are
    not tried. *)
Theorem get_nameserver_bare_directive (h : host) (ifname : string)
    (conf : gmap string string) (text : string)
    (before after : list string) (line : string) :
  h_interfaces h = Ok conf -> conf !! ifname = Some text ->
  splitlines text = before ++ line :: after ->
  Forall no_directive before ->
  strip line = "dns-nameservers" ->
  get_nameserver h ifname
  = Raise (mkExn IndexError "list index out of range").
Proof.
  intros Hconf Htext Hlines Hbefore Hline.
  unfold get_nameserver, dict_getitem. rewrite Hconf. cbn [bind].
  rewrite Htext. cbn [bind]. rewrite Hlines.
  assert (static_scan (before ++ line :: after)
          = Raise (mkExn IndexError "list index out of range")) as ->;
    [|reflexivity].
  clear Hlines.
  induction Hbefore as [|l before Hl _ IH]; cbn [app static_scan].
  - rewrite Hline. reflexivity.
  - rewrite Hl. exact IH.
Qed.

Lemma get_nameserver_bare_directive_witness :
  get_nameserver no_value_host "eth0"
  = Raise (mkExn IndexError "list index out of range").
Proof.
  refine (get_nameserver_bare_directive no_value_host "eth0"
            (<["eth0" := lines ["auto eth0"; "iface eth0 inet static";
                                "    dns-nameservers"]]> ∅) _
            ["auto eth0"; "iface eth0 inet static"] []
            "    dns-nameservers" eq_refl eq_refl _ _ _).
  - vm_compute. reflexivity.
  - repeat constructor.
  - vm_compute. reflexivity.
Defined.

(** ** The default route *)

Module GatewayFacts.
Import Re.

Lemma steps_plain_from (s : string) g alts seq stack n l :
  plain s = true ->
  exists l',
    steps (mkP MNormal (mkFrame g alts seq) stack n l) s
    = Some (mkP MNormal (mkFrame g alts (chars_rev s ++ seq)) stack n l').
Proof.
  intros Hs. destruct s as [|c s]; [exists l; reflexivity|].
  unfold plain in Hs. cbn in Hs. apply andb_true_iff in Hs as [Hc Hs].
  exists LOther. cbn [steps]. rewrite (ReFacts.step_plain _ _ _ _ _ Hc).
  unfold push_item. cbn [ps_cur ps_stack ps_ngroups fr_group fr_alts fr_seq].
  rewrite (ReFacts.steps_plain _ _ _ _ _ _ Hs). unfold chars_rev.
  cbn [list_ascii_of_string map rev]. rewrite <- app_assoc. reflexivity.
Qed.

Lemma compile_gateway (ifname : string) :
  plain ifname = true ->
  compile ("^0.0.0.0\s+(.*?)\s+(.*)\s+" +:+ ifname)
  = Some (gateway_re ifname).
Proof.
  intros Hp. unfold compile. rewrite ReFacts.steps_app.
  change (steps start "^0.0.0.0\s+(.*?)\s+(.*)\s+")
    with (Some (mkP MNormal
                  (mkFrame 0 []
                     [Rep 1 None true space_set;
                      Group 2 (Seq (Rep 0 None true Any) Eps);
                      Rep 1 None true space_set;
                      Group 1 (Seq (Rep 0 None false Any) Eps);
                      Rep 1 None true space_set;
                      Chr "0"; Any; Chr "0"; Any; Chr "0"; Any; Chr "0";
                      Bol])
                  [] 2 LGreedy)).
  cbv beta iota.
  destruct (steps_plain_from ifname 0 []
              [Rep 1 None true space_set;
               Group 2 (Seq (Rep 0 None true Any) Eps);
               Rep 1 None true space_set;
               Group 1 (Seq (Rep 0 None false Any) Eps);
               Rep 1 None true space_set;
               Chr "0"; Any; Chr "0"; Any; Chr "0"; Any; Chr "0"; Bol]
              [] 2%nat LGreedy Hp) as (l' & ->).
  unfold finish, close_brace, alt_of, seq_of. cbv zeta.
  cbn [ps_mode ps_stack ps_cur fr_alts fr_seq fold_left].
  rewrite fold_left_app, ReFacts.seq_chars. reflexivity.
Qed.

Lemma space_test (c : ascii) :
  in_set false [(ascii_of_nat 9, ascii_of_nat 13); (" ", " ")]%char c
  = isspace c.
Proof. destruct c as [[] [] [] [] [] [] [] []]; reflexivity. Qed.

Lemma space_is_newline (c : ascii) :
  isspace c = false -> is_newline c = false.
Proof.
  destruct c as [[] [] [] [] [] [] [] []]; intros H; vm_compute in H;
    try discriminate H; reflexivity.
Qed.

Lemma groups_of_lits (s : string) (r : re) :
  groups_of (lits s r) = groups_of r.
Proof. induction s as [|c s IH]; [reflexivity|exact IH]. Qed.

Section Matching.

Context {R : Type}.
Variable multiline : bool.

(** A greedy repeat of a test over the text [pre] that passes it,
    followed by a character that does not: the rest of the pattern is
    tried after all of [pre] first. *)
Lemma rep_greedy_max (p : ascii -> bool) (lo : nat)
    (k : mstate -> option R) (c : ascii) (t : string) g :
  p c = false ->
  forall pre fuel n q,
    forallb p (list_ascii_of_string pre) = true ->
    (lo <= n + String.length pre)%nat ->
    (String.length pre < fuel)%nat ->
    k (mkM (prev_after q pre) (String c t) g) <> None ->
    rep_loop (eat p) lo None true k fuel n (mkM q (pre +:+ String c t) g)
    = k (mkM (prev_after q pre) (String c t) g).
Proof.
  intros Hc. induction pre as [|x pre IH]; intros fuel n q Hpre Hlo Hfuel Hk.
  - destruct fuel as [|fuel]; [cbn in Hfuel; lia|].
    change ("" +:+ String c t) with (String c t).
    cbn [rep_loop below prev_after]. rewrite ReFacts.eat_miss by exact Hc.
    cbn [orelse]. cbn [String.length] in Hlo.
    replace (lo <=? n)%nat with true
      by (symmetry; apply Nat.leb_le; lia).
    reflexivity.
  - destruct fuel as [|fuel]; [cbn in Hfuel; lia|].
    cbn [list_ascii_of_string forallb] in Hpre.
    apply andb_true_iff in Hpre as [Hx Hpre].
    rewrite ReFacts.append_cons. cbn [rep_loop below prev_after].
    rewrite ReFacts.eat_hit by exact Hx.
    unfold shorter. cbn [ms_rest String.length].
    replace ((n <? lo)%nat
             || (String.length (pre +:+ String c t)
                 <? S (String.length (pre +:+ String c t)))%nat)
      with true
      by (symmetry; apply orb_true_iff; right; apply Nat.ltb_lt; lia).
    rewrite (IH fuel (S n) (Some x) Hpre)
      by (cbn [String.length] in *; solve [lia|exact Hk]).
    cbn [prev_after] in Hk.
    destruct (k (mkM (prev_after (Some x) pre) (String c t) g));
      [reflexivity|congruence].
Qed.

(** A greedy repeat of a test over a text that passes it finds a match
    when the rest of the pattern matches after the text. *)
Lemma rep_greedy_some (p : ascii -> bool) (lo : nat)
    (k : mstate -> option R) (t : string) g :
  forall pre fuel n q,
    forallb p (list_ascii_of_string pre) = true ->
    (lo <= n + String.length pre)%nat ->
    (String.length pre < fuel)%nat ->
    k (mkM (prev_after q pre) t g) <> None ->
    rep_loop (eat p) lo None true k fuel n (mkM q (pre +:+ t) g) <> None.
Proof.
  induction pre as [|x pre IH]; intros fuel n q Hpre Hlo Hfuel Hk.
  - destruct fuel as [|fuel]; [cbn in Hfuel; lia|].
    change ("" +:+ t) with t. cbn [rep_loop below prev_after] in Hk |- *.
    match goal with
    | |- orelse ?m _ <> None => destruct m; [discriminate|]
    end.
    cbn [orelse]. cbn [String.length] in Hlo.
    replace (lo <=? n)%nat with true
      by (symmetry; apply Nat.leb_le; lia).
    exact Hk.
  - destruct fuel as [|fuel]; [cbn in Hfuel; lia|].
    cbn [list_ascii_of_string forallb] in Hpre.
    apply andb_true_iff in Hpre as [Hx Hpre].
    rewrite ReFacts.append_cons. cbn [rep_loop below prev_after].
    rewrite ReFacts.eat_hit by exact Hx.
    unfold shorter. cbn [ms_rest String.length].
    replace ((n <? lo)%nat
             || (String.length (pre +:+ t)
                 <? S (String.length (pre +:+ t)))%nat)
      with true
      by (symmetry; apply orb_true_iff; right; apply Nat.ltb_lt; lia).
    pose proof (IH fuel (S n) (Some x) Hpre) as Hsome.
    cbn [prev_after] in Hk.
    destruct (rep_loop (eat p) lo None true k fuel (S n)
                (mkM (Some x) (pre +:+ t) g));
      [discriminate|].
    exfalso. apply Hsome; [cbn [String.length] in *; lia..|exact Hk|].
    reflexivity.
Qed.

(** A lazy repeat over a text inside which the rest of the pattern
    cannot start: the first match is the one after the text. *)
Lemma rep_lazy_first (p : ascii -> bool) (k : mstate -> option R)
    (t : string) g :
  (forall q x s, isspace x = false -> k (mkM q (String x s) g) = None) ->
  forall pre fuel n q,
    forallb p (list_ascii_of_string pre) = true ->
    no_space pre = true ->
    (String.length pre < fuel)%nat ->
    k (mkM (prev_after q pre) t g) <> None ->
    rep_loop (eat p) 0 None false k fuel n (mkM q (pre +:+ t) g)
    = k (mkM (prev_after q pre) t g).
Proof.
  intros Hmiss.
  induction pre as [|x pre IH]; intros fuel n q Hpre Hns Hfuel Hk.
  - destruct fuel as [|fuel]; [cbn in Hfuel; lia|].
    change ("" +:+ t) with t. cbn [rep_loop below prev_after Nat.leb] in Hk |- *.
    destruct (k (mkM q t g)); [reflexivity|congruence].
  - destruct fuel as [|fuel]; [cbn in Hfuel; lia|].
    cbn [list_ascii_of_string forallb] in Hpre.
    apply andb_true_iff in Hpre as [Hx Hpre].
    unfold no_space in Hns. cbn [list_ascii_of_string forallb] in Hns.
    apply andb_true_iff in Hns as [Hsx Hns]. apply negb_true_iff in Hsx.
    rewrite ReFacts.append_cons. cbn [rep_loop below prev_after Nat.leb].
    rewrite (Hmiss q x _ Hsx). cbn [orelse].
    rewrite ReFacts.eat_hit by exact Hx.
    unfold shorter. cbn [ms_rest String.length].
    replace ((n <? 0)%nat
             || (String.length (pre +:+ t)
                 <? S (String.length (pre +:+ t)))%nat)
      with true
      by (symmetry; apply orb_true_iff; right; apply Nat.ltb_lt; lia).
    apply IH; [exact Hpre|exact Hns|cbn [String.length] in Hfuel; lia|].
    exact Hk.
Qed.

(** A repeat of one or more white-space characters does not start at a
    character that is not white space. *)
Lemma spaces_miss (k : mstate -> option R) (fuel : nat) q x s g :
  isspace x = false ->
  rep_loop
    (eat (in_set false
            [(ascii_of_nat 9, ascii_of_nat 13); (" ", " ")]%char))
    1 None true k fuel 0 (mkM q (String x s) g) = None.
Proof.
  intros Hx. destruct fuel as [|fuel]; [reflexivity|].
  cbn [rep_loop below].
  rewrite ReFacts.eat_miss by (rewrite space_test; exact Hx).
  reflexivity.
Qed.

(** The groups a part of a pattern does not hold are those of the
    position it started at when the rest of the pattern is reached. *)
Lemma rep_loop_keeps (body : mstate -> (mstate -> option R) -> option R)
    (gs : list nat) (lo : nat) (hi : option nat) (greedy : bool)
    (k : mstate -> option R) :
  (forall st k' v,
     body st k' = Some v ->
     exists st1, k' st1 = Some v
       /\ forall n, ~ In n gs -> ms_groups st1 !! n = ms_groups st !! n) ->
  forall fuel n st v,
    rep_loop body lo hi greedy k fuel n st = Some v ->
    exists st1, k st1 = Some v
      /\ forall m, ~ In m gs -> ms_groups st1 !! m = ms_groups st !! m.
Proof.
  intros Hbody. induction fuel as [|fuel IH]; intros n st v; [discriminate|].
  cbn [rep_loop].
  assert (forall x,
            (if below n hi
             then body st (fun st1 =>
                    if (n <? lo)%nat || shorter st1 st
                    then rep_loop body lo hi greedy k fuel (S n) st1
                    else None)
             else None) = Some x ->
            exists st1, k st1 = Some x
              /\ forall m, ~ In m gs ->
                   ms_groups st1 !! m = ms_groups st !! m) as Hmore.
  { intros x Hx. destruct (below n hi); [|discriminate].
    apply Hbody in Hx as (st1 & Hx & Hg1).
    destruct ((n <? lo)%nat || shorter st1 st); [|discriminate].
    apply IH in Hx as (st2 & Hx & Hg2). exists st2. split; [exact Hx|].
    intros m Hm. rewrite (Hg2 m Hm). apply Hg1, Hm. }
  assert (forall x,
            (if (lo <=? n)%nat then k st else None) = Some x ->
            exists st1, k st1 = Some x
              /\ forall m, ~ In m gs ->
                   ms_groups st1 !! m = ms_groups st !! m) as Hstop.
  { intros x Hx. destruct (lo <=? n)%nat; [|discriminate].
    exists st. split; [exact Hx|reflexivity]. }
  destruct greedy; unfold orelse.
  - destruct (if below n hi then _ else None) as [x|] eqn:E.
    + intros [= <-]. apply Hmore. reflexivity.
    + apply Hstop.
  - destruct (if (lo <=? n)%nat then k st else None) as [x|] eqn:E.
    + intros [= <-]. apply Hstop. reflexivity.
    + apply Hmore.
Qed.

Lemma run_keeps (r : re) : forall st (k : mstate -> option R) v,
  run multiline r st k = Some v ->
  exists st1, k st1 = Some v
    /\ forall n, ~ In n (groups_of r) ->
         ms_groups st1 !! n = ms_groups st !! n.
Proof.
  assert (forall p st (k : mstate -> option R) v,
            eat p st k = Some v ->
            exists st1, k st1 = Some v
              /\ forall n, ~ In n [] ->
                   ms_groups st1 !! n = ms_groups st !! n) as Heat.
  { intros p st k v. unfold eat. destruct (ms_rest st) as [|a s'];
      [discriminate|].
    destruct (p a); [|discriminate]. intros Hk. eexists. split; [exact Hk|].
    reflexivity. }
  induction r as [| c | | neg rs | | | r1 IH1 r2 IH2 | r1 IH1 r2 IH2
                  | lo hi greedy r1 IH1 | g r1 IH1];
    intros st k v; cbn [run groups_of].
  - intros Hk. exists st. split; [exact Hk|reflexivity].
  - apply Heat.
  - apply Heat.
  - apply Heat.
  - destruct (at_bol multiline st); [|discriminate].
    intros Hk. exists st. split; [exact Hk|reflexivity].
  - destruct (at_eol multiline st); [|discriminate].
    intros Hk. exists st. split; [exact Hk|reflexivity].
  - intros H. apply IH1 in H as (st1 & H & Hg1).
    apply IH2 in H as (st2 & H & Hg2). exists st2. split; [exact H|].
    intros n Hn. rewrite Hg2, Hg1; [reflexivity|..];
      intros Hin; apply Hn, in_or_app; tauto.
  - unfold orelse. destruct (run multiline r1 st k) as [x|] eqn:E.
    + intros [= <-]. apply IH1 in E as (st1 & H & Hg1). exists st1.
      split; [exact H|]. intros n Hn. apply Hg1. intros Hin.
      apply Hn, in_or_app. tauto.
    + intros H. apply IH2 in H as (st2 & H & Hg2). exists st2.
      split; [exact H|]. intros n Hn. apply Hg2. intros Hin.
      apply Hn, in_or_app. tauto.
  - apply rep_loop_keeps. exact IH1.
  - intros H. apply IH1 in H as (st1 & H & Hg1).
    exists (set_group g st st1). split; [exact H|].
    intros n Hn. unfold set_group. cbn [ms_groups].
    rewrite lookup_insert_ne by (intros ->; apply Hn; left; reflexivity).
    apply Hg1. intros Hin. apply Hn. right. exact Hin.
Qed.

End Matching.

Lemma blank_inv (ws : string) :
  blank ws = true ->
  forallb isspace (list_ascii_of_string ws) = true
  /\ (1 <= String.length ws)%nat.
Proof.
  unfold blank, spaces. intros H. apply andb_true_iff in H as [Hne Hs].
  split; [exact Hs|]. destruct ws; [discriminate Hne|cbn; lia].
Qed.

Lemma forallb_space_test (ws : string) :
  forallb isspace (list_ascii_of_string ws) = true ->
  forallb (in_set false [(ascii_of_nat 9, ascii_of_nat 13); (" ", " ")]%char)
          (list_ascii_of_string ws) = true.
Proof.
  induction ws as [|c ws IH]; [reflexivity|]. cbn [list_ascii_of_string forallb].
  intros H. apply andb_true_iff in H as [Hc H].
  rewrite space_test, Hc. apply IH, H.
Qed.

Lemma no_space_one_line (s : string) :
  no_space s = true ->
  forallb (fun a => negb (is_newline a)) (list_ascii_of_string s) = true.
Proof.
  unfold no_space. induction s as [|c s IH]; [reflexivity|].
  cbn [list_ascii_of_string forallb]. intros H.
  apply andb_true_iff in H as [Hc H]. apply negb_true_iff in Hc.
  rewrite (space_is_newline c Hc). apply IH, H.
Qed.

(** The pattern on a row for the default route: group 1 is the
    gateway. *)
Lemma gateway_match (ifname row gw : string) :
  default_row row ifname gw ->
  exists mo,
    match_at true (gateway_re ifname) None row = Some mo
    /\ group mo 1 = Some gw.
Proof.
  intros (ws1 & ws2 & mid & ws3 & tail & -> & H1 & Hgw & H2 & Hmid & H3).
  destruct (blank_inv ws1 H1) as [S1 L1].
  destruct (blank_inv ws2 H2) as [S2 L2].
  destruct (blank_inv ws3 H3) as [S3 L3].
  apply forallb_space_test in S1, S2, S3.
  unfold word in Hgw. apply andb_true_iff in Hgw as [Hne Hns].
  destruct gw as [|c gw]; [discriminate Hne|]. clear Hne.
  assert (isspace c = false) as Hc.
  { unfold no_space in Hns. cbn in Hns. apply andb_true_iff in Hns as [Hc _].
    apply negb_true_iff in Hc. exact Hc. }
  set (after_gw := ws2 +:+ mid +:+ ws3 +:+ ifname +:+ tail).
  set (st0 := mkM (prev_after (Some "0"%char) ws1)
                  (String c gw +:+ after_gw) ∅).
  set (kfin := fun st1 : mstate =>
                 Some (ms_groups
                         (set_group 0
                            (mkM None
                               ("0.0.0.0" +:+ ws1 +:+ String c gw
                                +:+ after_gw) ∅) st1))).
  set (rest2 := Seq (Rep 1 None true space_set)
                  (Seq (Group 2 (Seq (Rep 0 None true Any) Eps))
                     (Seq (Rep 1 None true space_set) (lits ifname Eps)))).
  set (k1 := fun st1 : mstate =>
               run true rest2 (set_group 1 st0 st1) kfin).
  set (final := mkM (prev_after (prev_after (Some "0"%char) ws1)
                       (String c gw)) after_gw ∅).
  (* the rest of the pattern matches after the gateway *)
  assert (k1 final <> None) as Hk1.
  { unfold k1, rest2, set_group, final. cbn [ms_prev ms_rest ms_groups].
    cbn [run]. unfold after_gw. cbn [ms_rest space_set].
    apply rep_greedy_some; [exact S2|lia
                           |rewrite ReFacts.length_append; lia|].
    cbn [run ms_rest].
    apply rep_greedy_some;
      [exact Hmid|lia|rewrite ReFacts.length_append; lia|].
    cbn [run set_group ms_prev ms_rest ms_groups space_set].
    apply rep_greedy_some; [exact S3|lia
                           |rewrite ReFacts.length_append; lia|].
    rewrite ReFacts.run_lits. cbn [run]. discriminate. }
  destruct (k1 final) as [mo|] eqn:Emo; [clear Hk1|congruence].
  exists mo. split.
  - unfold match_at, gateway_re.
    replace ("0.0.0.0" +:+ ws1 +:+ String c gw +:+ after_gw)
      with (String "0" (String "." (String "0" (String "." (String "0"
              (String "." (String "0"
                 (ws1 +:+ String c (gw +:+ after_gw)))))))))
      by reflexivity.
    cbn [run lits at_bol ms_prev].
    rewrite !ReFacts.eat_hit by reflexivity.
    cbn [run ms_rest space_set].
    match goal with
    | |- rep_loop _ _ _ _ ?K _ _ _ = _ => set (K1 := K)
    end.
    assert (K1 st0 = Some mo) as HK1.
    { unfold K1, st0. cbn [ms_rest].
      match goal with
      | |- rep_loop _ _ _ _ ?K _ _ _ = _ => set (K2 := K)
      end.
      assert (K2 final = Some mo) as HK2 by exact Emo.
      rewrite rep_lazy_first;
        [exact HK2| |apply no_space_one_line, Hns|exact Hns
        |rewrite ReFacts.length_append; lia
        |change (K2 final <> None); rewrite HK2; discriminate].
      intros q x s Hx. unfold K2, set_group.
      cbn [ms_prev ms_rest ms_groups]. apply spaces_miss, Hx. }
    rewrite rep_greedy_max;
      [exact HK1|rewrite space_test; exact Hc|exact S1|lia
      |rewrite ReFacts.length_append; lia|].
    change (K1 st0 <> None). rewrite HK1. discriminate.
  - unfold k1 in Emo. apply run_keeps in Emo as (st1 & Hfin & Hkeep).
    unfold kfin in Hfin. injection Hfin as <-.
    unfold group, set_group. cbn [ms_groups].
    rewrite lookup_insert_ne by discriminate.
    rewrite Hkeep.
    + unfold set_group, final, st0. cbn [ms_groups ms_rest].
      rewrite lookup_insert_eq. f_equal. unfold consumed. cbn [ms_rest].
      apply take_str_append.
    + unfold rest2. cbn [groups_of]. rewrite groups_of_lits. cbn.
      intros [H|[]]. discriminate H.
Qed.

(** Past the start of a line the pattern cannot match. *)
Lemma search_later (r : re) (s : string) : forall a,
  is_newline a = false -> one_line s = true ->
  search_from true (Seq Bol r) (Some a) s = None.
Proof.
  induction s as [|b s IH]; intros a Ha Hs.
  - cbn. rewrite Ha. reflexivity.
  - unfold one_line in Hs. cbn [list_ascii_of_string forallb] in Hs.
    apply andb_true_iff in Hs as [Hb Hs]. apply negb_true_iff in Hb.
    cbn [search_from]. unfold match_at at 1. cbn [run at_bol ms_prev andb].
    rewrite Ha. cbn [orelse]. apply IH; assumption.
Qed.

(** A line that does not start with [0] has no match. *)
Lemma gateway_no_match (ifname l : string) :
  one_line l = true -> startswith l "0" = false ->
  search_from true (gateway_re ifname) None l = None.
Proof.
  intros Hl H0. destruct l as [|c l]; [reflexivity|].
  unfold one_line in Hl. cbn [list_ascii_of_string forallb] in Hl.
  apply andb_true_iff in Hl as [Hc Hl]. apply negb_true_iff in Hc.
  unfold gateway_re. cbn [search_from]. unfold match_at at 1.
  cbn [run lits at_bol ms_prev].
  rewrite ReFacts.eat_miss.
  - cbn [orelse]. apply search_later; assumption.
  - unfold startswith in H0. cbn in H0.
    destruct (ascii_dec "0" c) as [<-|Hne];
      [destruct l; discriminate H0|].
    apply Ascii.eqb_neq. exact Hne.
Qed.

Lemma one_line_snoc (cur : string) (c : ascii) :
  one_line cur = true -> is_newline c = false ->
  one_line (snoc cur c) = true.
Proof.
  unfold one_line, snoc. intros Hcur Hc.
  induction cur as [|x cur IH].
  - change ("" +:+ String c "") with (String c "").
    cbn [list_ascii_of_string forallb]. rewrite Hc. reflexivity.
  - rewrite ReFacts.append_cons.
    cbn [list_ascii_of_string forallb] in Hcur |- *.
    apply andb_true_iff in Hcur as [Hx Hcur]. rewrite Hx. apply IH, Hcur.
Qed.

(** The lines [splitlines] gives hold no newline. *)
Lemma splitlines_go_one_line (n : nat) : forall s cur,
  (String.length s <= n)%nat -> one_line cur = true ->
  Forall (fun l => one_line l = true) (splitlines_go s cur).
Proof.
  induction n as [|n IH]; intros s cur Hlen Hcur.
  - destruct s; [|cbn in Hlen; lia]. cbn.
    destruct (is_empty cur); repeat constructor. exact Hcur.
  - destruct s as [|c s].
    + cbn. destruct (is_empty cur); repeat constructor. exact Hcur.
    + cbn [String.length] in Hlen. cbn [splitlines_go].
      destruct (Ascii.eqb c (ascii_of_nat 10)) eqn:E10.
      * constructor; [exact Hcur|]. apply IH; [lia|reflexivity].
      * destruct (Ascii.eqb c (ascii_of_nat 13)) eqn:E13.
        -- destruct s as [|c' s'].
           ++ constructor; [exact Hcur|]. apply IH; [cbn; lia|reflexivity].
           ++ cbn [String.length] in Hlen.
              destruct (Ascii.eqb c' (ascii_of_nat 10));
                (constructor; [exact Hcur|]);
                apply IH; cbn [String.length]; solve [lia|reflexivity].
        -- apply IH; [lia|]. apply one_line_snoc; [exact Hcur|exact E10].
Qed.

Lemma splitlines_one_line (s : string) :
  Forall (fun l => one_line l = true) (splitlines s).
Proof. apply (splitlines_go_one_line (String.length s)); [lia|reflexivity]. Qed.

End GatewayFacts.

Lemma gateway_scan_skips (ifname : string) (before rest : list string) :
  Re.plain ifname = true ->
  Forall (fun l => Re.one_line l = true) before ->
  Forall (fun l => startswith l "0" = false) before ->
  gateway_scan ifname (before ++ rest) = gateway_scan ifname rest.
Proof.
  intros Hp Hone Hzero. induction Hone as [|l before Hl _ IH]; [reflexivity|].
  inversion Hzero as [|? ? H0 Hzero']; subst.
  cbn [app gateway_scan]. unfold Re.re_search.
  rewrite (GatewayFacts.compile_gateway _ Hp). cbn [bind].
  rewrite (GatewayFacts.gateway_no_match _ _ Hl H0). apply IH, Hzero'.
Qed.

(** X18.  For an interface name of plain characters: when a line of
    the routing table is a row for the default route through the
    interface (the destination [0.0.0.0], white space, the gateway, white
    space, further columns, white space and the interface name) and no
    line before it starts with [0], [get_gateway] returns the gateway of
    that row, whatever follows in the table. *)
Theorem get_gateway_default_row (h : host) (ifname output : string)
    (before after : list string) (row gw : string) :
  Re.plain ifname = true ->
  h_route h = Ok output ->
  splitlines output = before ++ row :: after ->
  Forall (fun l => startswith l "0" = false) before ->
  default_row row ifname gw ->
  get_gateway h ifname = Ok (Some gw).
Proof.
  intros Hp Hroute Hlines Hbefore Hrow. unfold get_gateway.
  rewrite Hroute, Hlines.
  pose proof (GatewayFacts.splitlines_one_line output) as Hone.
  rewrite Hlines in Hone. apply Forall_app in Hone as [Hone _].
  rewrite (gateway_scan_skips _ _ _ Hp Hone Hbefore).
  cbn [gateway_scan]. unfold Re.re_search.
  rewrite (GatewayFacts.compile_gateway _ Hp). cbn [bind].
  destruct (GatewayFacts.gateway_match ifname row gw Hrow) as (mo & Hmo & Hg).
  assert (Re.search_from true (gateway_re ifname) None row = Some mo) as ->.
  { destruct row as [|c row]; cbn [Re.search_from]; rewrite Hmo;
      reflexivity. }
  rewrite Hg. reflexivity.
Qed.

Lemma get_gateway_default_row_witness :
  get_gateway office "eth0" = Ok (Some "192.168.1.1").
Proof.
  refine (get_gateway_default_row office "eth0" _
            ["Kernel IP routing table";
             "Destination     Gateway         Genmask         Flags Metric Ref    Use Iface"]
            ["192.168.1.0     0.0.0.0         255.255.255.0   U     0      0        0 eth0"]
            "0.0.0.0   192.168.1.1   0.0.0.0   UG    0   0   0   eth0"
            "192.168.1.1" eq_refl eq_refl _ _ _).
  - vm_compute. reflexivity.
  - repeat constructor.
  - exists "   ", "   ", "0.0.0.0   UG    0   0   0", "   ", "".
    repeat split.
Defined.

(** X19.  For an interface name of plain characters, [get_gateway]
    returns None when no line of the routing table starts with [0]: a
    table without a default route gives no gateway, and no error. *)
Theorem get_gateway_no_default (h : host) (ifname output : string) :
  Re.plain ifname = true ->
  h_route h = Ok output ->
  Forall (fun l => startswith l "0" = false) (splitlines output) ->
  get_gateway h ifname = Ok None.
Proof.
  intros Hp Hroute Hzero. unfold get_gateway. rewrite Hroute.
  rewrite <- (app_nil_r (splitlines output)).
  rewrite (gateway_scan_skips _ _ _ Hp
             (GatewayFacts.splitlines_one_line output) Hzero).
  reflexivity.
Qed.

Lemma get_gateway_no_default_witness :
  get_gateway lan_host "eth0" = Ok None.
Proof.
  refine (get_gateway_no_default lan_host "eth0" _ eq_refl eq_refl _).
  vm_compute. repeat constructor.
Defined.

(** ** Everything [is_ipaddr] accepts *)

Lemma scan4_tail (a b c d t : string) :
  Re.all_digits a = true -> Re.all_digits b = true ->
  Re.all_digits c = true -> Re.all_digits d = true ->
  Re.no_digit_ahead t = true ->
  Re.scan4 (a +:+ String "." (b +:+ String "." (c +:+ String "." (d +:+ t))))
  = Some ([a; b; c; d], t).
Proof.
  intros Ha Hb Hc Hd Ht. unfold Re.scan4.
  rewrite (span_digits_app a) by (assumption || reflexivity).
  cbn [Re.tail_parts Ascii.eqb Bool.eqb].
  rewrite (span_digits_app b) by (assumption || reflexivity).
  cbn [Re.tail_parts Ascii.eqb Bool.eqb].
  rewrite (span_digits_app c) by (assumption || reflexivity).
  cbn [Re.tail_parts Ascii.eqb Bool.eqb].
  rewrite (span_digits_app d t) by assumption.
  reflexivity.
Qed.

(** X20.  [is_ipaddr] returns True for the texts of four components
    separated by dots, each of one to three digits of value at most 255
    and without the digits 8 and 9 after a leading zero, and for such a
    text followed by one newline; for every other text it returns
    False. *)
Theorem is_ipaddr_accepts (s : string) :
  is_ipaddr s = Ok true
  <-> exists quad, quad_ok quad = true /\ (s = quad \/ s = quad +:+ LF).
Proof.
  rewrite is_ipaddr_scan. split.
  - intros [= H].
    destruct (Re.scan4 s) as [[l t]|] eqn:Hscan; [|discriminate H].
    destruct (scan4_inv s l t Hscan) as (a & b & c & d & -> & Hs & Hdig).
    apply andb_true_iff in H as [H Hnum].
    apply andb_true_iff in H as [Hshape Hend].
    exists (a +:+ String "." (b +:+ String "." (c +:+ String "." d))).
    split.
    + unfold quad_ok. rewrite (split_on_quad a b c d Hdig).
      rewrite (forallb_octet_ok _ Hdig), Hshape, Hnum. reflexivity.
    + destruct (AtonFacts.at_end_cases t Hend) as [->| ->].
      * left. rewrite Hs, append_nil_r. reflexivity.
      * right. rewrite Hs.
        change (String "." (b +:+ String "." (c +:+ String "." (d +:+ LF))))
          with ("." +:+ (b +:+ "." +:+ (c +:+ "." +:+ (d +:+ LF)))).
        change (String "." (b +:+ String "." (c +:+ String "." d)))
          with ("." +:+ (b +:+ "." +:+ (c +:+ "." +:+ d))).
        rewrite !append_assoc. reflexivity.
  - intros (quad & Hq & Hs).
    destruct (quad_ok_scan quad Hq) as (l & Hscan & Hsplit).
    destruct (scan4_inv quad l "" Hscan) as (a & b & c & d & -> & Hquad & Hdig).
    unfold quad_ok in Hq. rewrite Hsplit in Hq.
    rewrite (forallb_octet_ok _ Hdig) in Hq.
    apply andb_true_iff in Hq as [Hshape Hnum].
    rewrite append_nil_r in Hquad.
    assert (Re.all_digits a = true /\ Re.all_digits b = true
            /\ Re.all_digits c = true /\ Re.all_digits d = true)
      as (Ha & Hb & Hc & Hd).
    { rewrite !Forall_cons in Hdig. tauto. }
    assert (forall t, Re.no_digit_ahead t = true ->
              Re.scan4 (quad +:+ t) = Some ([a; b; c; d], t)) as Htail.
    { intros t Ht. rewrite Hquad.
      replace ((a +:+ String "." (b +:+ String "." (c +:+ String "." d)))
               +:+ t)
        with (a +:+ String "." (b +:+ String "." (c +:+ String "."
                (d +:+ t)))).
      - apply scan4_tail; assumption.
      - change (String "." (b +:+ String "." (c +:+ String "." (d +:+ t))))
          with ("." +:+ (b +:+ "." +:+ (c +:+ "." +:+ (d +:+ t)))).
        change (String "." (b +:+ String "." (c +:+ String "." d)))
          with ("." +:+ (b +:+ "." +:+ (c +:+ "." +:+ d))).
        rewrite !append_assoc. reflexivity. }
    destruct Hs as [->| ->].
    + rewrite <- (append_nil_r quad), (Htail "" eq_refl).
      rewrite Hshape, Hnum. reflexivity.
    + rewrite (Htail LF eq_refl). rewrite Hshape, Hnum. reflexivity.
Qed.

(** ** The errors of [get_gateway] *)

Lemma gateway_scan_returns (ifname : string) (ls : list string) :
  Re.plain ifname = true -> exists g, gateway_scan ifname ls = Ok g.
Proof.
  intros Hp. induction ls as [|l ls (g & IH)]; [exists None; reflexivity|].
  cbn [gateway_scan]. unfold Re.re_search.
  rewrite (GatewayFacts.compile_gateway _ Hp). cbn [bind].
  destruct (Re.search_from true (gateway_re ifname) None l) as [mo|].
  - eexists. reflexivity.
  - exists g. exact IH.
Qed.

(** X21.  For an interface name of plain characters, the only errors
    [get_gateway] lets through are those of the [route] command that are
    not an ExecError: it raises exactly when the command raised such an
    error, and that error is the one it raises; no text the command
    prints makes it raise. *)
Theorem get_gateway_raises (h : host) (ifname : string) (e : exn) :
  Re.plain ifname = true ->
  get_gateway h ifname = Raise e
  <-> h_route h = Raise e /\ isinstance e ExecError = false.
Proof.
  intros Hp. unfold get_gateway. destruct (h_route h) as [output|e'].
  - destruct (gateway_scan_returns ifname (splitlines output) Hp)
      as (g & ->).
    split; [discriminate|]. intros [H _]. discriminate H.
  - destruct (isinstance e' ExecError) eqn:E.
    + split; [discriminate|]. intros [[= ->] H]. congruence.
    + split; [intros [= ->]; split; [reflexivity|exact E]|].
      intros [[= ->] _]. reflexivity.
Qed.

Lemma get_gateway_raises_witness :
  get_gateway (mkHost (Raise (mkExn OSError "[Errno 2] No such file or directory"))
                 (Ok ∅) ∅ ∅) "eth0"
  = Raise (mkExn OSError "[Errno 2] No such file or directory").
Proof.
  apply (proj2 (get_gateway_raises _ "eth0" _ eq_refl)).
  split; reflexivity.
Defined.

(** ** Which host numbers print alike *)

(** The components of a dotted quad read back as the four bytes. *)
Lemma dotted_quad_parts (host : Z) :
  map decimal (split_on "." (dotted_quad host))
  = [Some (octet host 0); Some (octet host 1); Some (octet host 2);
     Some (octet host 3)].
Proof.
  destruct (byte_print _ (octet_range host 0)) as [N0 D0].
  destruct (byte_print _ (octet_range host 1)) as [N1 D1].
  destruct (byte_print _ (octet_range host 2)) as [N2 D2].
  destruct (byte_print _ (octet_range host 3)) as [N3 D3].
  unfold dotted_quad. cbn [map join].
  change (str (octet host 0) +:+ "." +:+ str (octet host 1) +:+ "."
          +:+ str (octet host 2) +:+ "." +:+ str (octet host 3))
    with (str (octet host 0) +:+ String "."
            (str (octet host 1) +:+ String "."
               (str (octet host 2) +:+ String "." (str (octet host 3))))).
  rewrite !split_on_dot, split_on_no_dot by assumption.
  cbn [map]. rewrite D0, D1, D2, D3. reflexivity.
Qed.

(** The low 32 bits of a number are its four low bytes. *)
Lemma mod_octets (h : Z) :
  h mod 2 ^ 32
  = octet h 0 + 256 * octet h 1 + 65536 * octet h 2 + 16777216 * octet h 3.
Proof.
  unfold octet. change (256 ^ 0) with 1. change (256 ^ 1) with 256.
  change (256 ^ 2) with 65536. change (256 ^ 3) with 16777216.
  change (2 ^ 32) with 4294967296. rewrite Z.div_1_r.
  pose proof (Z.div_mod h 256 ltac:(lia)) as E0.
  pose proof (Z.div_mod (h / 256) 256 ltac:(lia)) as E1.
  pose proof (Z.div_mod (h / 65536) 256 ltac:(lia)) as E2.
  pose proof (Z.div_mod (h / 16777216) 256 ltac:(lia)) as E3.
  replace (h / 256 / 256) with (h / 65536) in E1
    by (rewrite Z.div_div by lia; reflexivity).
  replace (h / 65536 / 256) with (h / 16777216) in E2
    by (rewrite Z.div_div by lia; reflexivity).
  pose proof (Z.mod_pos_bound h 256 ltac:(lia)).
  pose proof (Z.mod_pos_bound (h / 256) 256 ltac:(lia)).
  pose proof (Z.mod_pos_bound (h / 65536) 256 ltac:(lia)).
  pose proof (Z.mod_pos_bound (h / 16777216) 256 ltac:(lia)).
  symmetry. apply Z.mod_unique with (q := h / 16777216 / 256); lia.
Qed.

Lemma octet_mod (h k : Z) :
  0 <= k < 4 -> octet (h mod 2 ^ 32) k = octet h k.
Proof.
  intros Hk. rewrite (Z.div_mod h (2 ^ 32)) at 2 by lia.
  replace (2 ^ 32 * (h / 2 ^ 32) + h mod 2 ^ 32)
    with ((h / 2 ^ 32) * 16 ^ 8 + h mod 2 ^ 32)
    by (change (16 ^ 8) with (2 ^ 32); ring).
  symmetry. apply octet_low, Hk.
Qed.

(** X22.  Two host numbers are printed as the same dotted quad exactly
    when they agree in their low 32 bits: [_int2host] loses what lies
    above bit 31 (and the sign) and nothing else. *)
Theorem int2host_low_bits (h1 h2 : Z) :
  _int2host h1 = _int2host h2 <-> h1 mod 2 ^ 32 = h2 mod 2 ^ 32.
Proof.
  rewrite !int2host_dotted. split.
  - intros E.
    pose proof (f_equal (fun s => map decimal (split_on "." s)) E) as Ep.
    cbv beta in Ep. rewrite !dotted_quad_parts in Ep.
    injection Ep as E0 E1 E2 E3.
    rewrite !mod_octets. congruence.
  - intros E. unfold dotted_quad. cbn [map].
    rewrite <- (octet_mod h1 0), <- (octet_mod h1 1), <- (octet_mod h1 2),
      <- (octet_mod h1 3) by lia.
    rewrite E.
    rewrite !octet_mod by lia. reflexivity.
Qed.
